(** * The Insights Engine of the sales dashboard (utils/insights.py)

    A shallow embedding of the aggregation layer: every engine function takes a
    pandas DataFrame and returns a Python dict of metrics.  Of the dashboard
    itself (utils/app.py) the embedding holds the parts that compute on the
    dataset: the renaming of the columns in [load_data], the filters of the
    sidebar and the column information of the data explorer.

    Modelling conventions.
    - A DataFrame is a row count together with an ordered list of named, typed
      columns (float64/int64, object holding strings, datetime64).  A missing
      cell (NaN, None, NaT) is [None].
    - Numbers are exact rationals ([Q]); the non-finite results numpy can
      produce (nan, +inf, -inf) are separate constructors of [num], and a
      square root (the result of [std]) is kept symbolically as [Root].
      Rounding, signed zeros and int64 overflow are not modelled.
    - A Python dict and a pandas Series indexed by labels are association
      lists in insertion order.
    - A Python exception is the [Raise] branch of [result]; its payload names
      what failed (a column, a variable), the message text of pandas is not
      reproduced.
    - Where pandas leaves the order of equal keys to its sorting algorithm
      ([value_counts], [sort_values]), equal keys keep their input order.
    - [pd.to_datetime], [format] and [memory_usage] belong to the libraries:
      they are parameters of the functions that call them.  So are
      [pd.read_csv] and the widgets of the sidebar: [load_data] takes the
      frame that was read, the filters take the entries that were picked.
    - Strings are sequences of code points below 256.

    The file has three parts: the embedding, the vocabulary of the
    properties, and the proofs. *)

From Stdlib Require Import String Ascii List Bool Arith ZArith QArith Qround Sorted
  Permutation Lia Lqa.
Import ListNotations.

Open Scope string_scope.
Open Scope Z_scope.

#[local] Set Warnings "-register-all".

(** ** Exceptions *)

Inductive exn : Type :=
| KeyError (what : string)
| IndexError (what : string)
| ZeroDivisionError (what : string)
| UnboundLocalError (name : string)
| TypeError (what : string)
| ValueError (what : string)
| AttributeError (what : string).

Inductive result (A : Type) : Type :=
| OK (a : A)
| Raise (e : exn).
Arguments OK {A} a.
Arguments Raise {A} e.

Definition bind {A B : Type} (r : result A) (k : A -> result B) : result B :=
  match r with
  | OK a => k a
  | Raise e => Raise e
  end.

Notation "x <- r ;; k" := (bind r (fun x => k))
  (at level 61, r at next level, right associativity).

(** [str(e)] of a caught exception. *)
Definition exn_str (e : exn) : string :=
  match e with
  | KeyError w | IndexError w | ZeroDivisionError w
  | UnboundLocalError w | TypeError w | ValueError w | AttributeError w => w
  end.

(** ** Scalars *)

(** A pandas Timestamp, kept as its calendar date and the nanoseconds elapsed
    since midnight. *)
Record Timestamp : Type := mkTimestamp
  { ts_year : Z; ts_month : Z; ts_day : Z; ts_nanos : Z }.

(** A numpy floating point scalar. *)
Inductive num : Type :=
| Fin (q : Q)
| NaN
| PosInf
| NegInf
| Root (q : Q).

(** An index label: what [value_counts] and [groupby] key their result by. *)
Inductive label : Type :=
| LStr (s : string)
| LNum (q : Q)
| LTime (t : Timestamp)
| LDate (y m d : Z)
| LMonth (y m : Z).

Definition Timestamp_eqb (a b : Timestamp) : bool :=
  (ts_year a =? ts_year b) && (ts_month a =? ts_month b)
  && (ts_day a =? ts_day b) && (ts_nanos a =? ts_nanos b).

Definition label_eqb (a b : label) : bool :=
  match a, b with
  | LStr s, LStr t => String.eqb s t
  | LNum p, LNum q => Qeq_bool p q
  | LTime s, LTime t => Timestamp_eqb s t
  | LDate y m d, LDate y' m' d' => (y =? y') && (m =? m') && (d =? d')
  | LMonth y m, LMonth y' m' => (y =? y') && (m =? m')
  | _, _ => false
  end.

(** ** Columns and frames *)

Inductive column : Type :=
| Float64 (xs : list (option Q))
| Object (xs : list (option string))
| Datetime64 (xs : list (option Timestamp)).

Definition col_len (c : column) : nat :=
  match c with
  | Float64 xs => length xs
  | Object xs => length xs
  | Datetime64 xs => length xs
  end.

Record DataFrame : Type := mkDataFrame
  { nrows : nat; columns : list (string * column) }.

(** [len(df)] *)
Definition len (df : DataFrame) : Z := Z.of_nat (nrows df).

(** [name in df.columns] *)
Definition has_column (df : DataFrame) (name : string) : bool :=
  existsb (fun c => String.eqb (fst c) name) (columns df).

Fixpoint find_column (cs : list (string * column)) (name : string) : option column :=
  match cs with
  | [] => None
  | (n, c) :: rest => if String.eqb n name then Some c else find_column rest name
  end.

(** [df[name]] *)
Definition getitem (df : DataFrame) (name : string) : result column :=
  match find_column (columns df) name with
  | Some c => OK c
  | None => Raise (KeyError name)
  end.

Fixpoint replace_column (cs : list (string * column)) (name : string) (c : column)
  : list (string * column) :=
  match cs with
  | [] => [(name, c)]
  | (n, old) :: rest =>
      if String.eqb n name then (n, c) :: rest
      else (n, old) :: replace_column rest name c
  end.

(** [df[name] = c], the in-place column assignment. *)
Definition setitem (df : DataFrame) (name : string) (c : column) : DataFrame :=
  mkDataFrame (nrows df) (replace_column (columns df) name c).

Fixpoint distinct (names : list string) : bool :=
  match names with
  | [] => true
  | n :: rest => negb (existsb (String.eqb n) rest) && distinct rest
  end.

(** Every column is as long as the index, and no name is used twice. *)
Definition well_formed (df : DataFrame) : bool :=
  forallb (fun c => (col_len (snd c) =? nrows df)%nat) (columns df)
  && distinct (map fst (columns df)).

(** ** Series reductions (all skip missing cells, as pandas does) *)

Fixpoint dropna {A : Type} (xs : list (option A)) : list A :=
  match xs with
  | [] => []
  | Some x :: rest => x :: dropna rest
  | None :: rest => dropna rest
  end.

Definition labels (c : column) : list label :=
  match c with
  | Float64 xs => map LNum (dropna xs)
  | Object xs => map LStr (dropna xs)
  | Datetime64 xs => map LTime (dropna xs)
  end.

Definition Qsum (xs : list Q) : Q := fold_right Qplus 0%Q xs.

Definition Qlen (xs : list Q) : Q := inject_Z (Z.of_nat (length xs)).

(** The numeric cells of a column.  [read_csv] gives a column of numbers a
    numeric dtype; a numeric reduction or comparison applied to a column of
    strings or timestamps is rendered as TypeError (the [what] names the
    operation). *)
Definition numeric (what : string) (c : column) : result (list (option Q)) :=
  match c with
  | Float64 xs => OK xs
  | _ => Raise (TypeError what)
  end.

Definition sum_values (xs : list (option Q)) : num := Fin (Qsum (dropna xs)).

Definition mean_values (xs : list (option Q)) : num :=
  match dropna xs with
  | [] => NaN
  | v => Fin (Qsum v / Qlen v)
  end.

(** Sample standard deviation ([ddof=1]). *)
Definition std_values (xs : list (option Q)) : num :=
  let v := dropna xs in
  match v with
  | [] | [_] => NaN
  | _ =>
      let m := (Qsum v / Qlen v)%Q in
      Root (Qsum (map (fun x => (x - m) * (x - m))%Q v) / (Qlen v - 1))%Q
  end.

Fixpoint Qinsert (x : Q) (l : list Q) : list Q :=
  match l with
  | [] => [x]
  | y :: l' => if Qle_bool x y then x :: l else y :: Qinsert x l'
  end.

Definition Qsort (l : list Q) : list Q := fold_right Qinsert [] l.

(** Linear interpolation inside the sorted values [s] at the fractional
    position [pos]. *)
Definition interpolate (s : list Q) (pos : Q) : Q :=
  let lo := Z.to_nat (Qfloor pos) in
  let a := nth lo s 0%Q in
  let b := nth (S lo) s a in
  (a + (b - a) * (pos - inject_Z (Qfloor pos)))%Q.

(** [Series.quantile(q)] with the default linear interpolation. *)
Definition quantile_values (xs : list (option Q)) (q : Q) : num :=
  match dropna xs with
  | [] => NaN
  | v => Fin (interpolate (Qsort v) ((Qlen v - 1) * q))
  end.

Definition median_values (xs : list (option Q)) : num := quantile_values xs (1 # 2).

Definition max_values (xs : list (option Q)) : num :=
  match dropna xs with
  | [] => NaN
  | x :: v => Fin (fold_left (fun a b => if Qle_bool a b then b else a) v x)
  end.

Definition min_values (xs : list (option Q)) : num :=
  match dropna xs with
  | [] => NaN
  | x :: v => Fin (fold_left (fun a b => if Qle_bool b a then b else a) v x)
  end.

(** ** Frequency tables *)

(** A Series of counts indexed by label. *)
Definition counts : Type := list (label * nat).

Fixpoint count_add (k : label) (acc : counts) : counts :=
  match acc with
  | [] => [(k, 1%nat)]
  | (k', n) :: rest =>
      if label_eqb k k' then (k', S n) :: rest else (k', n) :: count_add k rest
  end.

(** One entry per distinct label, in order of first appearance. *)
Definition tally (ks : list label) : counts :=
  fold_left (fun acc k => count_add k acc) ks [].

Fixpoint insert_desc (x : label * nat) (l : counts) : counts :=
  match l with
  | [] => [x]
  | y :: l' => if (snd y <=? snd x)%nat then x :: l else y :: insert_desc x l'
  end.

(** Descending by count; equal counts keep their order of first appearance. *)
Definition sort_desc (l : counts) : counts := fold_right insert_desc [] l.

(** [Series.value_counts()]: missing cells are dropped ([dropna=True]). *)
Definition value_counts (c : column) : counts := sort_desc (tally (labels c)).

(** [Series.nunique()] *)
Definition nunique (c : column) : Z := Z.of_nat (length (tally (labels c))).

(** [Series.head(n)] *)
Definition head (n : nat) (s : counts) : counts := firstn n s.

(** [Series.sum()] of a Series of counts. *)
Definition counts_sum (s : counts) : nat := fold_right (fun kc acc => (snd kc + acc)%nat) 0%nat s.

(** [Series.get(k, default)] with default 0. *)
Fixpoint counts_get (s : counts) (k : label) : nat :=
  match s with
  | [] => 0%nat
  | (k', n) :: rest => if label_eqb k k' then n else counts_get rest k
  end.

(** [k in Series.index] *)
Definition counts_mem (s : counts) (k : label) : bool :=
  existsb (fun kc => label_eqb k (fst kc)) s.

(** ** Metric mappings *)

(** A table produced by [groupby(...).agg(...).reset_index()]: the key column
    followed by numeric columns. *)
Record Frame : Type := mkFrame
  { frame_columns : list string; frame_rows : list (label * list num) }.

Inductive value : Type :=
| VInt (n : Z)
| VNum (x : num)
| VStr (s : string)
| VLabel (k : label)
| VCounts (d : list (label * Z))
| VQuantiles (d : list (Q * num))
| VFrame (f : Frame)
| VDict (d : list (string * value))
| VList (l : list string).

Definition dict : Type := list (string * value).

(** [d[k] = v] *)
Fixpoint dict_set (d : dict) (k : string) (v : value) : dict :=
  match d with
  | [] => [(k, v)]
  | (k', v') :: rest =>
      if String.eqb k' k then (k', v) :: rest else (k', v') :: dict_set rest k v
  end.

Fixpoint dict_get (d : dict) (k : string) : option value :=
  match d with
  | [] => None
  | (k', v) :: rest => if String.eqb k' k then Some v else dict_get rest k
  end.

(** [k in d] *)
Definition dict_mem (d : dict) (k : string) : bool :=
  match dict_get d k with Some _ => true | None => false end.

(** An index label as the Python object stored in a dict. *)
Definition label_value (k : label) : value :=
  match k with
  | LStr s => VStr s
  | LNum q => VNum (Fin q)
  | _ => VLabel k
  end.

(** [Series.to_dict()] of a Series of counts. *)
Definition to_dict (s : counts) : value :=
  VCounts (map (fun kc => (fst kc, Z.of_nat (snd kc))) s).

(** [Series.index[0]] *)
Definition index0 (s : counts) : result value :=
  match s with
  | [] => Raise (IndexError "index 0 is out of bounds for axis 0 with size 0")
  | (k, _) :: _ => OK (label_value k)
  end.

(** [(count / total) * 100] where [count] is a numpy integer: numpy's true
    division by zero yields nan or inf with a warning, it does not raise. *)
Definition np_percentage (count : nat) (total : Z) : num :=
  if total =? 0 then (if (count =? 0)%nat then NaN else PosInf)
  else Fin (inject_Z (Z.of_nat count) / inject_Z total * 100)%Q.

(** [(a / b) * 100] on Python ints: true division by zero raises. *)
Definition py_percentage (a b : Z) : result num :=
  if b =? 0 then Raise (ZeroDivisionError "division by zero")
  else OK (Fin (inject_Z a / inject_Z b * 100)%Q).

(** ** Series accessors: [df[name].reduction()] *)

Definition series_sum (df : DataFrame) (name : string) : result value :=
  c <- getitem df name;; xs <- numeric "sum" c;; OK (VNum (sum_values xs)).

Definition series_mean (df : DataFrame) (name : string) : result value :=
  c <- getitem df name;; xs <- numeric "mean" c;; OK (VNum (mean_values xs)).

Definition series_std (df : DataFrame) (name : string) : result value :=
  c <- getitem df name;; xs <- numeric "std" c;; OK (VNum (std_values xs)).

Definition series_median (df : DataFrame) (name : string) : result value :=
  c <- getitem df name;; xs <- numeric "median" c;; OK (VNum (median_values xs)).

Definition series_max (df : DataFrame) (name : string) : result value :=
  c <- getitem df name;; xs <- numeric "max" c;; OK (VNum (max_values xs)).

Definition series_min (df : DataFrame) (name : string) : result value :=
  c <- getitem df name;; xs <- numeric "min" c;; OK (VNum (min_values xs)).

Definition series_nunique (df : DataFrame) (name : string) : result value :=
  c <- getitem df name;; OK (VInt (nunique c)).

Definition series_value_counts (df : DataFrame) (name : string) : result counts :=
  c <- getitem df name;; OK (value_counts c).

(** [d[k] = e], where evaluating [e] may raise. *)
Definition assign (d : dict) (k : string) (e : result value) : result dict :=
  v <- e;; OK (dict_set d k v).

(** ** get_key_metrics *)

(** [df[name].value_counts().index[0] if len(df) > 0 else 'N/A'] *)
Definition top_value (df : DataFrame) (name : string) : result value :=
  if 0 <? len df then (s <- series_value_counts df name;; index0 s)
  else OK (VStr "N/A").

Definition get_key_metrics (df : DataFrame) : result dict :=
  let metrics : dict := [] in
  (* Basic metrics *)
  metrics <- assign metrics "total_orders" (OK (VInt (len df)));;
  metrics <- assign metrics "total_revenue"
    (if has_column df "Amount" then series_sum df "Amount" else OK (VInt 0));;
  metrics <- assign metrics "avg_order_value"
    (if has_column df "Amount" then series_mean df "Amount" else OK (VInt 0));;
  metrics <- assign metrics "total_quantity"
    (if has_column df "Qty" then series_sum df "Qty" else OK (VInt 0));;
  (* Advanced metrics *)
  metrics <-
    (if has_column df "Amount" then
       metrics <- assign metrics "revenue_std" (series_std df "Amount");;
       metrics <- assign metrics "median_order_value" (series_median df "Amount");;
       metrics <- assign metrics "max_order_value" (series_max df "Amount");;
       assign metrics "min_order_value" (series_min df "Amount")
     else OK metrics);;
  (* Category metrics *)
  metrics <-
    (if has_column df "Category" then
       metrics <- assign metrics "unique_categories" (series_nunique df "Category");;
       assign metrics "top_category" (top_value df "Category")
     else OK metrics);;
  (* Geographic metrics *)
  metrics <-
    (if has_column df "ship-state" then
       metrics <- assign metrics "unique_states" (series_nunique df "ship-state");;
       assign metrics "top_state" (top_value df "ship-state")
     else OK metrics);;
  metrics <-
    (if has_column df "ship-city" then
       metrics <- assign metrics "unique_cities" (series_nunique df "ship-city");;
       assign metrics "top_city" (top_value df "ship-city")
     else OK metrics);;
  (* Status metrics *)
  metrics <-
    (if has_column df "Status" then
       status_counts <- series_value_counts df "Status";;
       metrics <- assign metrics "status_distribution" (OK (to_dict status_counts));;
       assign metrics "shipped_percentage"
         (if 0 <? len df
          then OK (VNum (np_percentage (counts_get status_counts (LStr "Shipped")) (len df)))
          else OK (VInt 0))
     else OK metrics);;
  (* Fulfillment metrics *)
  metrics <-
    (if has_column df "Fulfilment" then
       fulfillment_counts <- series_value_counts df "Fulfilment";;
       assign metrics "fulfillment_distribution" (OK (to_dict fulfillment_counts))
     else OK metrics);;
  OK metrics.

(** ** Column names *)

Definition lower_ascii (a : ascii) : ascii :=
  let n := nat_of_ascii a in
  if ((65 <=? n) && (n <=? 90))%nat then ascii_of_nat (n + 32) else a.

(** [s.lower()], on ASCII letters. *)
Fixpoint lower (s : string) : string :=
  match s with
  | EmptyString => EmptyString
  | String a rest => String (lower_ascii a) (lower rest)
  end.

(** [sub in s] *)
Definition contains (sub s : string) : bool :=
  match String.index 0 sub s with Some _ => true | None => false end.

(** ** Row selection *)

(** Keep the positions where the mask holds. *)
Fixpoint select {A : Type} (mask : list bool) (xs : list A) : list A :=
  match mask, xs with
  | true :: mask', x :: xs' => x :: select mask' xs'
  | false :: mask', _ :: xs' => select mask' xs'
  | _, _ => []
  end.

Definition column_select (mask : list bool) (c : column) : column :=
  match c with
  | Float64 xs => Float64 (select mask xs)
  | Object xs => Object (select mask xs)
  | Datetime64 xs => Datetime64 (select mask xs)
  end.

(** [df[mask]], boolean indexing with a mask computed from a column of [df]
    itself (one entry per row). *)
Definition boolean_index (df : DataFrame) (mask : list bool) : DataFrame :=
  mkDataFrame (length (filter (fun b => b) mask))
              (map (fun nc => (fst nc, column_select mask (snd nc))) (columns df)).

Definition Qltb (a b : Q) : bool := negb (Qle_bool b a).

(** Elementwise comparison of a numeric Series with a scalar; a comparison
    with a missing cell or with nan is False. *)
Definition compare_with (test : Q -> Q -> bool) (xs : list (option Q)) (t : num) : list bool :=
  map (fun x => match x, t with
                | Some v, Fin q => test v q
                | _, _ => false
                end) xs.

Definition gt (xs : list (option Q)) (t : num) : list bool := compare_with (fun v q => Qltb q v) xs t.
Definition ge (xs : list (option Q)) (t : num) : list bool := compare_with (fun v q => Qle_bool q v) xs t.
Definition lt (xs : list (option Q)) (t : num) : list bool := compare_with Qltb xs t.
Definition le (xs : list (option Q)) (t : num) : list bool := compare_with Qle_bool xs t.

(** [mask1 & mask2] *)
Definition mask_and (m1 m2 : list bool) : list bool :=
  map (fun p => andb (fst p) (snd p)) (combine m1 m2).

(** ** Grouping *)

Definition cells (c : column) : list (option label) :=
  match c with
  | Float64 xs => map (option_map LNum) xs
  | Object xs => map (option_map LStr) xs
  | Datetime64 xs => map (option_map LTime) xs
  end.

Definition Timestamp_leb (a b : Timestamp) : bool :=
  if ts_year a =? ts_year b then
    if ts_month a =? ts_month b then
      if ts_day a =? ts_day b then ts_nanos a <=? ts_nanos b
      else ts_day a <? ts_day b
    else ts_month a <? ts_month b
  else ts_year a <? ts_year b.

Definition label_rank (a : label) : nat :=
  match a with
  | LStr _ => 0 | LNum _ => 1 | LTime _ => 2 | LDate _ _ _ => 3 | LMonth _ _ => 4
  end.

Definition label_leb (a b : label) : bool :=
  match a, b with
  | LStr s, LStr t => String.leb s t
  | LNum p, LNum q => Qle_bool p q
  | LTime s, LTime t => Timestamp_leb s t
  | LDate y m d, LDate y' m' d' =>
      Timestamp_leb (mkTimestamp y m d 0) (mkTimestamp y' m' d' 0)
  | LMonth y m, LMonth y' m' =>
      Timestamp_leb (mkTimestamp y m 1 0) (mkTimestamp y' m' 1 0)
  | _, _ => (label_rank a <=? label_rank b)%nat
  end.

Fixpoint label_insert (x : label) (l : list label) : list label :=
  match l with
  | [] => [x]
  | y :: l' => if label_leb x y then x :: l else y :: label_insert x l'
  end.

(** The group keys: the distinct non-missing labels in ascending order
    ([sort=True], [dropna=True]). *)
Definition group_keys (keys : list (option label)) : list label :=
  fold_right label_insert [] (map fst (tally (dropna keys))).

(** The rows of one group. *)
Definition group_mask (keys : list (option label)) (k : label) : list bool :=
  map (fun c => match c with Some k' => label_eqb k k' | None => false end) keys.

Inductive aggfunc : Type := AggSum | AggMean | AggCount | AggStd.

Definition aggfunc_name (f : aggfunc) : string :=
  match f with
  | AggSum => "sum" | AggMean => "mean" | AggCount => "count" | AggStd => "std"
  end.

(** [Series.count()]: the number of cells that are not missing. *)
Definition col_count (c : column) : nat := length (labels c).

Definition aggregate (f : aggfunc) (c : column) : result num :=
  match f with
  | AggCount => OK (Fin (inject_Z (Z.of_nat (col_count c))))
  | AggSum => xs <- numeric "sum" c;; OK (sum_values xs)
  | AggMean => xs <- numeric "mean" c;; OK (mean_values xs)
  | AggStd => xs <- numeric "std" c;; OK (std_values xs)
  end.

Fixpoint mapM {A B : Type} (f : A -> result B) (l : list A) : result (list B) :=
  match l with
  | [] => OK []
  | a :: rest => b <- f a;; bs <- mapM f rest;; OK (b :: bs)
  end.

(** What to aggregate: each column with the functions applied to it. *)
Definition agg_spec : Type := list (string * list aggfunc).

(** One row of the aggregated table: every function of every column of the
    specification, over the rows of the group. *)
Definition aggregate_group (df : DataFrame) (spec : agg_spec) (mask : list bool)
  : result (list num) :=
  parts <- mapM (fun cf =>
                   c <- getitem df (fst cf);;
                   mapM (fun f => aggregate f (column_select mask c)) (snd cf)) spec;;
  OK (concat parts).

(** How pandas names the aggregated columns: after the functions
    ([series.agg([f, g])]), after column and function ([agg({c: [f, g]})]) or
    after the columns ([agg({c: f})]). *)
Inductive agg_style : Type := ByFunction | ByColumnAndFunction | ByColumn.

Definition agg_columns (style : agg_style) (spec : agg_spec) : list string :=
  flat_map (fun cf =>
              map (fun f => match style with
                            | ByFunction => aggfunc_name f
                            | ByColumnAndFunction => fst cf ++ "." ++ aggfunc_name f
                            | ByColumn => fst cf
                            end) (snd cf)) spec.

(** [df.groupby(keys).agg(spec).reset_index()]; [key_name] is the name of the
    grouping Series.  A column of [spec] that [df] lacks raises KeyError. *)
Definition groupby_agg (df : DataFrame) (key_name : string) (keys : list (option label))
    (style : agg_style) (spec : agg_spec) : result Frame :=
  match filter (fun cf => negb (has_column df (fst cf))) spec with
  | missing :: _ => Raise (KeyError (fst missing))
  | [] =>
      rows <- mapM (fun k =>
                      r <- aggregate_group df spec (group_mask keys k);;
                      OK (k, r)) (group_keys keys);;
      OK (mkFrame (key_name :: agg_columns style spec) rows)
  end.

(** [df.groupby(name)...]: grouping by a column of the frame. *)
Definition groupby (df : DataFrame) (name : string) (style : agg_style) (spec : agg_spec)
  : result Frame :=
  c <- getitem df name;;
  groupby_agg df name (cells c) style spec.

(** [frame.columns = names] *)
Definition set_columns (f : Frame) (names : list string) : result Frame :=
  if (length names =? length (frame_columns f))%nat
  then OK (mkFrame names (frame_rows f))
  else Raise (ValueError "Length mismatch").

(** Ordering of float64 for sorting: nan sorts last. *)
Definition num_geb (a b : num) : bool :=
  match a, b with
  | _, NaN => true
  | NaN, _ => false
  | PosInf, _ => true
  | _, PosInf => false
  | _, NegInf => true
  | NegInf, _ => false
  | Fin p, Fin q => Qle_bool q p
  | Root p, Root q => Qle_bool q p
  | Fin p, Root q => Qle_bool 0 p && Qle_bool q (p * p)
  | Root p, Fin q => negb (Qle_bool 0 q) || Qle_bool (q * q) p
  end.

Fixpoint row_insert_desc (i : nat) (x : label * list num) (l : list (label * list num))
  : list (label * list num) :=
  match l with
  | [] => [x]
  | y :: l' =>
      if num_geb (nth i (snd x) NaN) (nth i (snd y) NaN) then x :: l
      else y :: row_insert_desc i x l'
  end.

(** [frame.sort_values(column, ascending=False)], by the numeric column at
    position [i]; rows with equal values keep their order. *)
Definition sort_values_desc (i : nat) (f : Frame) : Frame :=
  mkFrame (frame_columns f) (fold_right (row_insert_desc i) [] (frame_rows f)).


(** Float arithmetic as numpy performs it: division by zero yields inf or
    nan, never an exception.  A symbolic [Root] operand is not evaluated (no
    path of the engine subtracts or divides a standard deviation): the
    answer is nan then. *)
Definition num_div (a b : num) : num :=
  match a, b with
  | Fin p, Fin q =>
      if Qeq_bool q 0 then
        (if Qeq_bool p 0 then NaN else if Qle_bool 0 p then PosInf else NegInf)
      else Fin (p / q)
  | Fin _, (PosInf | NegInf) => Fin 0
  | PosInf, Fin q => if Qle_bool 0 q then PosInf else NegInf
  | NegInf, Fin q => if Qle_bool 0 q then NegInf else PosInf
  | _, _ => NaN
  end.

Definition num_sub (a b : num) : num :=
  match a, b with
  | Fin p, Fin q => Fin (p - q)
  | Fin _, PosInf => NegInf
  | Fin _, NegInf => PosInf
  | PosInf, (Fin _ | NegInf) => PosInf
  | NegInf, (Fin _ | PosInf) => NegInf
  | _, _ => NaN
  end.

Definition num_mul100 (a : num) : num :=
  match a with
  | Fin p => Fin (p * 100)
  | Root p => Root (p * 10000)
  | other => other
  end.

(** Reading a local variable that no executed statement has assigned. *)
Definition read_local {A : Type} (name : string) (v : option A) : result A :=
  match v with
  | Some a => OK a
  | None => Raise (UnboundLocalError name)
  end.

(** ** get_customer_insights *)

Definition get_customer_insights (df : DataFrame) : result dict :=
  let insights : dict := [] in
  let total_orders : option Z := None in
  (* Geographic customer distribution *)
  st <-
    (if has_column df "ship-state" then
       state_customers <- series_value_counts df "ship-state";;
       insights <- assign insights "customers_by_state" (OK (to_dict state_customers));;
       (* Customer concentration *)
       let total_orders := Some (len df) in
       let top_5_states := counts_sum (head 5 state_customers) in
       insights <- assign insights "top_5_states_concentration"
         (OK (VNum (np_percentage top_5_states (len df))));;
       OK (insights, total_orders)
     else OK (insights, total_orders));;
  let insights := fst st in
  let total_orders := snd st in
  insights <-
    (if has_column df "ship-city" then
       city_customers <- series_value_counts df "ship-city";;
       insights <- assign insights "customers_by_city" (OK (to_dict city_customers));;
       (* Customer concentration by city *)
       let top_10_cities := counts_sum (head 10 city_customers) in
       assign insights "top_10_cities_concentration"
         (t <- read_local "total_orders" total_orders;;
          OK (VNum (np_percentage top_10_cities t)))
     else OK insights);;
  (* Postal code analysis *)
  insights <-
    (if has_column df "ship-postal-code" then
       postal_customers <- series_value_counts df "ship-postal-code";;
       assign insights "customers_by_postal" (OK (to_dict (head 20 postal_customers)))
     else OK insights);;
  (* Country analysis *)
  insights <-
    (if has_column df "ship-country" then
       country_customers <- series_value_counts df "ship-country";;
       assign insights "customers_by_country" (OK (to_dict country_customers))
     else OK insights);;
  OK insights.

(** ** get_revenue_analysis *)

Definition series_quantile (df : DataFrame) (name : string) (q : Q) : result num :=
  c <- getitem df name;; xs <- numeric "quantile" c;; OK (quantile_values xs q).

(** [df[name] op threshold] *)
Definition series_compare (op : list (option Q) -> num -> list bool)
    (df : DataFrame) (name : string) (t : num) : result (list bool) :=
  c <- getitem df name;; xs <- numeric "compare" c;; OK (op xs t).

Definition get_revenue_analysis (df : DataFrame) : result dict :=
  let analysis : dict := [] in
  if has_column df "Amount" then
    (* Basic revenue statistics *)
    analysis <- assign analysis "total_revenue" (series_sum df "Amount");;
    analysis <- assign analysis "avg_revenue" (series_mean df "Amount");;
    analysis <- assign analysis "median_revenue" (series_median df "Amount");;
    analysis <- assign analysis "revenue_std" (series_std df "Amount");;
    analysis <- assign analysis "max_revenue" (series_max df "Amount");;
    analysis <- assign analysis "min_revenue" (series_min df "Amount");;
    (* Revenue distribution *)
    analysis <- assign analysis "revenue_quartiles"
      (q1 <- series_quantile df "Amount" (1 # 4);;
       q2 <- series_quantile df "Amount" (1 # 2);;
       q3 <- series_quantile df "Amount" (3 # 4);;
       OK (VQuantiles [((1 # 4)%Q, q1); ((1 # 2)%Q, q2); ((3 # 4)%Q, q3)]));;
    (* Revenue segments *)
    analysis <- assign analysis "high_value_orders"
      (q90 <- series_quantile df "Amount" (9 # 10);;
       m <- series_compare gt df "Amount" q90;;
       OK (VInt (len (boolean_index df m))));;
    analysis <- assign analysis "medium_value_orders"
      (q50 <- series_quantile df "Amount" (1 # 2);;
       m1 <- series_compare ge df "Amount" q50;;
       q90 <- series_quantile df "Amount" (9 # 10);;
       m2 <- series_compare le df "Amount" q90;;
       OK (VInt (len (boolean_index df (mask_and m1 m2)))));;
    analysis <- assign analysis "low_value_orders"
      (q50 <- series_quantile df "Amount" (1 # 2);;
       m <- series_compare lt df "Amount" q50;;
       OK (VInt (len (boolean_index df m))));;
    (* Revenue by currency *)
    analysis <-
      (if has_column df "currency" then
         currency_revenue <- groupby df "currency" ByFunction [("Amount", [AggSum; AggMean; AggCount])];;
         currency_revenue <- set_columns currency_revenue
           ["Currency"; "Total_Revenue"; "Avg_Revenue"; "Order_Count"];;
         assign analysis "currency_revenue" (OK (VFrame currency_revenue))
       else OK analysis);;
    OK analysis
  else OK analysis.

(** ** get_category_analysis *)

(** [frame[a] / frame[b]] appended as a new last column. *)
Definition add_ratio_column (f : Frame) (name : string) (a b : nat) : Frame :=
  mkFrame (frame_columns f ++ [name])%list
          (map (fun r => (fst r, (snd r ++ [num_div (nth a (snd r) NaN) (nth b (snd r) NaN)])%list))
               (frame_rows f)).

Definition get_category_analysis (df : DataFrame) : result dict :=
  let analysis : dict := [] in
  if has_column df "Category" then
    (* Basic category stats *)
    category_counts <- series_value_counts df "Category";;
    analysis <- assign analysis "category_counts" (OK (to_dict category_counts));;
    analysis <- assign analysis "top_categories" (OK (to_dict (head 10 category_counts)));;
    (* Revenue by category *)
    analysis <-
      (if has_column df "Amount" then
         category_revenue <- groupby df "Category" ByFunction [("Amount", [AggSum; AggMean; AggCount])];;
         category_revenue <- set_columns category_revenue
           ["Category"; "Total_Revenue"; "Avg_Revenue"; "Order_Count"];;
         let category_revenue := sort_values_desc 0 category_revenue in
         assign analysis "category_revenue" (OK (VFrame category_revenue))
       else OK analysis);;
    (* Quantity by category *)
    analysis <-
      (if has_column df "Qty" then
         category_qty <- groupby df "Category" ByFunction [("Qty", [AggSum; AggMean])];;
         category_qty <- set_columns category_qty ["Category"; "Total_Qty"; "Avg_Qty"];;
         assign analysis "category_quantity" (OK (VFrame category_qty))
       else OK analysis);;
    (* Category performance metrics *)
    analysis <-
      (if has_column df "Amount" && has_column df "Qty" then
         category_performance <- groupby df "Category" ByColumnAndFunction
           [("Amount", [AggSum; AggMean; AggStd]);
            ("Qty", [AggSum; AggMean]);
            ("Order ID", [AggCount])];;
         category_performance <- set_columns category_performance
           ["Category"; "Total_Revenue"; "Avg_Revenue"; "Revenue_Std";
            "Total_Qty"; "Avg_Qty"; "Order_Count"];;
         let category_performance :=
           add_ratio_column category_performance "Revenue_per_Unit" 0 3 in
         assign analysis "category_performance" (OK (VFrame category_performance))
       else OK analysis);;
    OK analysis
  else OK analysis.

(** ** get_advanced_analytics *)

(** [Series.index[0] if len(Series) > 0 else 'N/A'] *)
Definition first_or_na (s : counts) : result value :=
  if (0 <? length s)%nat then index0 s else OK (VStr "N/A").

Definition get_advanced_analytics (df : DataFrame) : result dict :=
  let analytics : dict := [] in
  (* Order size analysis *)
  analytics <-
    (if has_column df "Qty" then
       analytics <- assign analytics "avg_order_size" (series_mean df "Qty");;
       analytics <- assign analytics "order_size_distribution"
         (s <- series_value_counts df "Qty";; OK (to_dict s));;
       (* Bulk orders (orders with quantity > 1) *)
       m <- series_compare gt df "Qty" (Fin 1);;
       let bulk_orders := boolean_index df m in
       analytics <- assign analytics "bulk_orders_count" (OK (VInt (len bulk_orders)));;
       assign analytics "bulk_orders_percentage"
         (p <- py_percentage (len bulk_orders) (len df);; OK (VNum p))
     else OK analytics);;
  (* Status analysis *)
  analytics <-
    (if has_column df "Status" then
       status_dist <- series_value_counts df "Status";;
       analytics <- assign analytics "status_distribution" (OK (to_dict status_dist));;
       (* Calculate fulfillment rate *)
       if counts_mem status_dist (LStr "Shipped") then
         assign analytics "fulfillment_rate"
           (OK (VNum (np_percentage (counts_get status_dist (LStr "Shipped")) (len df))))
       else OK analytics
     else OK analytics);;
  (* Sales channel effectiveness *)
  analytics <-
    (if has_column df "Sales Channel" then
       channel_performance <- groupby df "Sales Channel" ByColumnAndFunction
         [("Amount", if has_column df "Amount" then [AggSum; AggMean; AggCount] else [AggCount]);
          ("Qty", if has_column df "Qty" then [AggSum; AggMean] else [AggCount])];;
       channel_performance <-
         (if has_column df "Amount" then
            set_columns channel_performance
              ["Sales_Channel"; "Total_Revenue"; "Avg_Revenue"; "Order_Count";
               "Total_Qty"; "Avg_Qty"]
          else
            set_columns channel_performance ["Sales_Channel"; "Order_Count"; "Total_Qty"]);;
       assign analytics "channel_performance" (OK (VFrame channel_performance))
     else OK analytics);;
  (* Product diversity *)
  analytics <-
    (if has_column df "Category" then
       analytics <- assign analytics "product_diversity" (series_nunique df "Category");;
       (* Category concentration *)
       category_counts <- series_value_counts df "Category";;
       let top_3_categories := counts_sum (head 3 category_counts) in
       assign analytics "top_3_categories_concentration"
         (OK (VNum (np_percentage top_3_categories (len df))))
     else OK analytics);;
  (* Size preferences *)
  analytics <-
    (if has_column df "Size" then
       size_preferences <- series_value_counts df "Size";;
       analytics <- assign analytics "size_preferences" (OK (to_dict size_preferences));;
       assign analytics "most_popular_size" (first_or_na size_preferences)
     else OK analytics);;
  OK analytics.

(** ** get_sales_trends *)

(** Stable insertion of a row position by its sort key; missing keys last. *)
Definition key_leb (a b : option label) : bool :=
  match a, b with
  | _, None => true
  | None, Some _ => false
  | Some x, Some y => label_leb x y
  end.

Fixpoint arg_insert (x : option label * nat) (l : list (option label * nat))
  : list (option label * nat) :=
  match l with
  | [] => [x]
  | y :: l' => if key_leb (fst x) (fst y) then x :: l else y :: arg_insert x l'
  end.

(** The row positions in ascending order of their key. *)
Definition argsort (keys : list (option label)) : list nat :=
  map snd (fold_right arg_insert [] (combine keys (seq 0 (length keys)))).

Definition take {A : Type} (idx : list nat) (xs : list A) : list A :=
  flat_map (fun i => match nth_error xs i with Some x => [x] | None => [] end) idx.

Definition column_take (idx : list nat) (c : column) : column :=
  match c with
  | Float64 xs => Float64 (take idx xs)
  | Object xs => Object (take idx xs)
  | Datetime64 xs => Datetime64 (take idx xs)
  end.

(** [df.sort_values(name)]: a new frame, the argument is left as it is. *)
Definition sort_values (df : DataFrame) (name : string) : result DataFrame :=
  c <- getitem df name;;
  let idx := argsort (cells c) in
  OK (mkDataFrame (nrows df) (map (fun nc => (fst nc, column_take idx (snd nc))) (columns df))).

(** [series.dt.date] and [series.dt.to_period('M')] *)
Definition dt_date (c : column) : result (list (option label)) :=
  match c with
  | Datetime64 xs =>
      OK (map (option_map (fun t => LDate (ts_year t) (ts_month t) (ts_day t))) xs)
  | _ => Raise (AttributeError "Can only use .dt accessor with datetimelike values")
  end.

Definition dt_to_period_M (c : column) : result (list (option label)) :=
  match c with
  | Datetime64 xs => OK (map (option_map (fun t => LMonth (ts_year t) (ts_month t))) xs)
  | _ => Raise (AttributeError "Can only use .dt accessor with datetimelike values")
  end.

(** [frame[column].iloc[0]] and [.iloc[-1]] of the numeric column at position [i]. *)
Definition iloc_first (i : nat) (f : Frame) : result num :=
  match frame_rows f with
  | [] => Raise (IndexError "single positional indexer is out-of-bounds")
  | r :: _ => OK (nth i (snd r) NaN)
  end.

Definition iloc_last (i : nat) (f : Frame) : result num :=
  match rev (frame_rows f) with
  | [] => Raise (IndexError "single positional indexer is out-of-bounds")
  | r :: _ => OK (nth i (snd r) NaN)
  end.

(** [[col for col in df.columns if 'date' in col.lower() or 'time' in col.lower()]] *)
Definition date_columns (df : DataFrame) : list string :=
  filter (fun col => contains "date" (lower col) || contains "time" (lower col))
         (map fst (columns df)).

(** The aggregation both tables use. *)
Definition sales_spec (df : DataFrame) : agg_spec :=
  [("Amount", [if has_column df "Amount" then AggSum else AggCount]);
   ("Qty", [if has_column df "Qty" then AggSum else AggCount])].

Section Trends.

(** [pd.to_datetime] applied to a column: the parsed column, or the
    exception pandas raises when a value cannot be parsed. *)
Variable pd_to_datetime : column -> result (list (option Timestamp)).

(** The function assigns to [df[date_col]], so the caller's frame changes:
    the result pairs the frame as it is after the call with the returned
    dict.  An exception anywhere inside the [try] block is caught, and what
    was assigned before it stays assigned. *)
Definition get_sales_trends (df : DataFrame) : DataFrame * dict :=
  let trends : dict := [] in
  (* Look for date columns *)
  match date_columns df with
  | [] => (df, trends)
  | date_col :: _ =>
      (* Use the first date column found *)
      match (c <- getitem df date_col;; pd_to_datetime c) with
      | Raise e => (df, dict_set trends "error" (VStr (exn_str e)))
      | OK parsed =>
          let df := setitem df date_col (Datetime64 parsed) in
          (* Daily trends *)
          match (df_sorted <- sort_values df date_col;;
                 c <- getitem df_sorted date_col;;
                 keys <- dt_date c;;
                 daily_sales <- groupby_agg df_sorted date_col keys ByColumn (sales_spec df);;
                 OK (df_sorted, daily_sales)) with
          | Raise e => (df, dict_set trends "error" (VStr (exn_str e)))
          | OK (df_sorted, daily_sales) =>
              let trends := dict_set trends "daily_sales" (VFrame daily_sales) in
              (* Monthly trends *)
              match (c <- getitem df_sorted date_col;;
                     keys <- dt_to_period_M c;;
                     groupby_agg df_sorted date_col keys ByColumn (sales_spec df)) with
              | Raise e => (df, dict_set trends "error" (VStr (exn_str e)))
              | OK monthly_sales =>
                  let trends := dict_set trends "monthly_sales" (VFrame monthly_sales) in
                  (* Growth rate calculation *)
                  if (1 <? length (frame_rows daily_sales))%nat then
                    match (last <- iloc_last 0 daily_sales;;
                           first <- iloc_first 0 daily_sales;;
                           first' <- iloc_first 0 daily_sales;;
                           OK (num_mul100 (num_div (num_sub last first) first'))) with
                    | Raise e => (df, dict_set trends "error" (VStr (exn_str e)))
                    | OK g => (df, dict_set trends "growth_rate" (VNum g))
                    end
                  else (df, trends)
              end
          end
      end
  end.

End Trends.

(** ** get_shipping_analysis *)

(** [df.groupby(name)['Amount'].agg(['sum', 'mean', 'count']).reset_index()]
    with the columns renamed. *)
Definition revenue_by (df : DataFrame) (name : string) (first_column : string)
  : result Frame :=
  t <- groupby df name ByFunction [("Amount", [AggSum; AggMean; AggCount])];;
  set_columns t [first_column; "Total_Revenue"; "Avg_Revenue"; "Order_Count"].

Definition get_shipping_analysis (df : DataFrame) : result dict :=
  let analysis : dict := [] in
  (* Fulfillment analysis *)
  analysis <-
    (if has_column df "Fulfilment" then
       fulfillment_counts <- series_value_counts df "Fulfilment";;
       analysis <- assign analysis "fulfillment_distribution" (OK (to_dict fulfillment_counts));;
       (* Revenue by fulfillment type *)
       if has_column df "Amount" then
         fulfillment_revenue <- revenue_by df "Fulfilment" "Fulfilment";;
         assign analysis "fulfillment_revenue" (OK (VFrame fulfillment_revenue))
       else OK analysis
     else OK analysis);;
  (* Courier analysis *)
  analysis <-
    (if has_column df "Courier Status" then
       courier_counts <- series_value_counts df "Courier Status";;
       assign analysis "courier_distribution" (OK (to_dict courier_counts))
     else OK analysis);;
  (* Service level analysis *)
  analysis <-
    (if has_column df "ship-service-level" then
       service_counts <- series_value_counts df "ship-service-level";;
       analysis <- assign analysis "service_level_distribution" (OK (to_dict service_counts));;
       (* Revenue by service level *)
       if has_column df "Amount" then
         service_revenue <- revenue_by df "ship-service-level" "Service_Level";;
         assign analysis "service_level_revenue" (OK (VFrame service_revenue))
       else OK analysis
     else OK analysis);;
  (* Geographic shipping patterns *)
  analysis <-
    (if has_column df "ship-state" then
       state_counts <- series_value_counts df "ship-state";;
       analysis <- assign analysis "state_distribution" (OK (to_dict state_counts));;
       analysis <- assign analysis "top_states" (OK (to_dict (head 10 state_counts)));;
       (* Revenue by state *)
       if has_column df "Amount" then
         state_revenue <- revenue_by df "ship-state" "State";;
         let state_revenue := sort_values_desc 0 state_revenue in
         assign analysis "state_revenue" (OK (VFrame state_revenue))
       else OK analysis
     else OK analysis);;
  analysis <-
    (if has_column df "ship-city" then
       city_counts <- series_value_counts df "ship-city";;
       analysis <- assign analysis "city_distribution" (OK (to_dict city_counts));;
       assign analysis "top_cities" (OK (to_dict (head 10 city_counts)))
     else OK analysis);;
  OK analysis.

(** ** get_product_analysis *)


(** ** generate_summary_report and create_executive_summary *)

(** [summary[k].append(s)]: the list stored under [k] grows in place. *)
Definition list_append (d : dict) (k : string) (s : string) : result dict :=
  match dict_get d k with
  | Some (VList l) => OK (dict_set d k (VList (l ++ [s])%list))
  | Some _ => Raise (AttributeError "append")
  | None => Raise (KeyError k)
  end.

(** [d[outer][inner] = v]: the dict stored under [outer] is updated in place. *)
Definition nested_set (d : dict) (outer inner : string) (v : value) : result dict :=
  match dict_get d outer with
  | Some (VDict sub) => OK (dict_set d outer (VDict (dict_set sub inner v)))
  | Some _ => Raise (TypeError "item assignment")
  | None => Raise (KeyError outer)
  end.

(** [Series.index[0]] of a grouped Series. *)
Definition frame_index0 (f : Frame) : result value :=
  match frame_rows f with
  | [] => Raise (IndexError "index 0 is out of bounds for axis 0 with size 0")
  | r :: _ => OK (label_value (fst r))
  end.

(** The empty format specification of a plain field [{value}]. *)
Definition no_spec : string := EmptyString.

Section Reports.

(** [df.memory_usage(deep=True).sum()], in bytes: a fact of the memory
    layout, taken as given. *)
Variable memory_usage : DataFrame -> Q.

(** [format(value, spec)], the text an f-string field [{value:spec}] produces. *)
Variable format : value -> string -> string.

Definition generate_summary_report (df : DataFrame) : result dict :=
  let report : dict := [] in
  (* Basic summary *)
  let report := dict_set report "dataset_info"
    (VDict [ ("total_records", VInt (len df));
             ("total_columns", VInt (Z.of_nat (length (columns df))));
             ("date_range", VStr "N/A");
             ("memory_usage_mb", VNum (Fin (memory_usage df / 1048576))) ]) in
  (* Business metrics *)
  report <- assign report "business_metrics" (m <- get_key_metrics df;; OK (VDict m));;
  (* Top performers *)
  let report := dict_set report "top_performers" (VDict []) in
  report <-
    (if has_column df "Category" then
       s <- series_value_counts df "Category";;
       nested_set report "top_performers" "categories" (to_dict (head 5 s))
     else OK report);;
  report <-
    (if has_column df "ship-state" then
       s <- series_value_counts df "ship-state";;
       nested_set report "top_performers" "states" (to_dict (head 5 s))
     else OK report);;
  report <-
    (if has_column df "SKU" then
       s <- series_value_counts df "SKU";;
       nested_set report "top_performers" "skus" (to_dict (head 5 s))
     else OK report);;
  (* Revenue insights *)
  report <-
    (if has_column df "Amount" then
       assign report "revenue_insights" (m <- get_revenue_analysis df;; OK (VDict m))
     else OK report);;
  (* Operational insights *)
  let report := dict_set report "operational_insights" (VDict []) in
  report <-
    (if has_column df "Fulfilment" then
       s <- series_value_counts df "Fulfilment";;
       nested_set report "operational_insights" "fulfillment" (to_dict s)
     else OK report);;
  report <-
    (if has_column df "Courier Status" then
       s <- series_value_counts df "Courier Status";;
       nested_set report "operational_insights" "courier_status" (to_dict s)
     else OK report);;
  report <-
    (if has_column df "Status" then
       s <- series_value_counts df "Status";;
       nested_set report "operational_insights" "order_status" (to_dict s)
     else OK report);;
  OK report.

Definition create_executive_summary (df : DataFrame) : result dict :=
  let summary : dict := [] in
  (* Key highlights *)
  let summary := dict_set summary "key_highlights" (VList []) in
  (* Total business volume *)
  let total_orders := len df in
  summary <- list_append summary "key_highlights"
    ("Processed " ++ format (VInt total_orders) "," ++ " orders");;
  summary <-
    (if has_column df "Amount" then
       total_revenue <- series_sum df "Amount";;
       avg_order_value <- series_mean df "Amount";;
       summary <- list_append summary "key_highlights"
         ("Generated $" ++ format total_revenue ",.2f" ++ " in total revenue");;
       list_append summary "key_highlights"
         ("Average order value: $" ++ format avg_order_value ".2f")
     else OK summary);;
  (* Geographic reach *)
  summary <-
    (if has_column df "ship-state" then
       unique_states <- series_nunique df "ship-state";;
       list_append summary "key_highlights"
         ("Served customers in " ++ format unique_states no_spec ++ " states")
     else OK summary);;
  summary <-
    (if has_column df "ship-city" then
       unique_cities <- series_nunique df "ship-city";;
       list_append summary "key_highlights"
         ("Delivered to " ++ format unique_cities no_spec ++ " cities")
     else OK summary);;
  (* Product diversity *)
  summary <-
    (if has_column df "Category" then
       unique_categories <- series_nunique df "Category";;
       list_append summary "key_highlights"
         ("Sold products across " ++ format unique_categories no_spec ++ " categories")
     else OK summary);;
  (* Operational performance *)
  summary <-
    (if has_column df "Status" then
       status_counts <- series_value_counts df "Status";;
       if counts_mem status_counts (LStr "Shipped") then
         let shipped_rate :=
           np_percentage (counts_get status_counts (LStr "Shipped")) total_orders in
         list_append summary "key_highlights"
           ("Achieved " ++ format (VNum shipped_rate) ".1f" ++ "% shipping rate")
       else OK summary
     else OK summary);;
  (* Growth opportunities *)
  let summary := dict_set summary "growth_opportunities" (VList []) in
  summary <-
    (if has_column df "Category" && has_column df "Amount" then
       category_revenue <- groupby df "Category" ByColumn [("Amount", [AggSum])];;
       let category_revenue := sort_values_desc 0 category_revenue in
       top_category <- frame_index0 category_revenue;;
       list_append summary "growth_opportunities"
         ("Focus on expanding " ++ format top_category no_spec ++ " category")
     else OK summary);;
  summary <-
    (if has_column df "ship-state" then
       state_counts <- series_value_counts df "ship-state";;
       let numbers := map (fun kc => Some (inject_Z (Z.of_nat (snd kc)))) state_counts in
       let underserved_states := select (lt numbers (quantile_values numbers (1 # 4))) state_counts in
       if (0 <? length underserved_states)%nat then
         list_append summary "growth_opportunities"
           ("Opportunity to expand in "
              ++ format (VInt (Z.of_nat (length underserved_states))) no_spec
              ++ " underserved states")
       else OK summary
     else OK summary);;
  OK summary.

End Reports.

(** ** The status filter of the dashboard (utils/app.py) *)

(** [df[name] == s], the elementwise comparison of a column with a string. *)
Definition eq_mask (c : column) (s : string) : list bool :=
  map (fun x => match x with
                | Some k => label_eqb (LStr s) k
                | None => false
                end) (cells c).

(** [df[df['Status'] == selected_status]], the status filter of the dashboard. *)
Definition filter_by_status (df : DataFrame) (selected_status : string) : result DataFrame :=
  c <- getitem df "Status";;
  OK (boolean_index df (eq_mask c selected_status)).

(** ** Loading the dataset (utils/app.py) *)







(** ** The filters of the dashboard (utils/app.py) *)

(** What the sidebar hands back is an entry of ['All'] + list(column.unique()):
    a label, or the nan that [unique()] lists for a column with a missing
    cell ([None] here). *)






(** ** The column information of the data explorer (utils/app.py) *)






(** ** An instance of [pd.to_datetime] for the examples

    The examples write their dates as [YYYY-MM-DD].  On a column of strings
    the instance parses exactly the calendar dates of that form that a
    Timestamp can hold, a missing cell becomes NaT, and any other string is
    the parse failure pandas reports for it; a datetime64 column is returned
    as it is.  Numeric columns (epoch offsets) are not covered. *)

Definition digit (a : ascii) : option Z :=
  let n := nat_of_ascii a in
  if ((48 <=? n) && (n <=? 57))%nat then Some (Z.of_nat (n - 48)) else None.

Definition leap_year (y : Z) : bool :=
  ((y mod 4 =? 0) && negb (y mod 100 =? 0)) || (y mod 400 =? 0).

Definition days_in_month (y m : Z) : Z :=
  if m =? 2 then (if leap_year y then 29 else 28)
  else if (m =? 4) || (m =? 6) || (m =? 9) || (m =? 11) then 30
  else 31.

Definition parse_iso_date (s : string) : option Timestamp :=
  match list_ascii_of_string s with
  | [y1; y2; y3; y4; "-"%char; m1; m2; "-"%char; d1; d2] =>
      match digit y1, digit y2, digit y3, digit y4, digit m1, digit m2, digit d1, digit d2 with
      | Some a, Some b, Some c, Some d, Some e, Some f, Some g, Some h =>
          let year := 1000 * a + 100 * b + 10 * c + d in
          let month := 10 * e + f in
          let day := 10 * g + h in
          if (1678 <=? year) && (year <=? 2261)
             && (1 <=? month) && (month <=? 12)
             && (1 <=? day) && (day <=? days_in_month year month)
          then Some (mkTimestamp year month day 0)
          else None
      | _, _, _, _, _, _, _, _ => None
      end
  | _ => None
  end.

Definition iso_to_datetime (c : column) : result (list (option Timestamp)) :=
  match c with
  | Datetime64 xs => OK xs
  | Object xs =>
      mapM (fun x => match x with
                     | None => OK None
                     | Some s =>
                         match parse_iso_date s with
                         | Some t => OK (Some t)
                         | None => Raise (ValueError ("Unknown datetime string format, unable to parse: " ++ s))
                         end
                     end) xs
  | Float64 _ => Raise (TypeError "epoch offsets are not covered")
  end.

(** * Vocabulary of the properties *)

(** ** Conditions under which the functions return *)

(** The column is absent or has a numeric dtype. *)
Definition numeric_or_absent (df : DataFrame) (name : string) : bool :=
  match find_column (columns df) name with
  | Some (Float64 _) | None => true
  | Some _ => false
  end.

(** The column is absent, or the frame has no row, or some cell of the column
    is not missing. *)
Definition has_value_or_absent (df : DataFrame) (name : string) : bool :=
  match find_column (columns df) name with
  | Some c => (nrows df =? 0)%nat || negb (length (labels c) =? 0)%nat
  | None => true
  end.

(** [get_key_metrics] reduces [Amount] and [Qty] numerically and takes the
    first label of three frequency tables. *)
Definition key_metrics_returns (df : DataFrame) : bool :=
  numeric_or_absent df "Amount" && numeric_or_absent df "Qty"
  && has_value_or_absent df "Category"
  && has_value_or_absent df "ship-state"
  && has_value_or_absent df "ship-city".

Definition is_count (f : aggfunc) : bool :=
  match f with AggCount => true | _ => false end.

(** Every column of the specification is present, and the ones that are not
    numeric are only counted. *)
Definition spec_applies (df : DataFrame) (spec : agg_spec) : bool :=
  forallb (fun cf => match find_column (columns df) (fst cf) with
                     | Some (Float64 _) => true
                     | Some _ => forallb is_count (snd cf)
                     | None => false
                     end) spec.

(** The performance table counts the [Order ID] column, so that column has to
    be there when both [Amount] and [Qty] are. *)
Definition category_analysis_returns (df : DataFrame) : bool :=
  negb (has_column df "Category")
  || (numeric_or_absent df "Amount" && numeric_or_absent df "Qty"
      && (negb (has_column df "Amount" && has_column df "Qty") || has_column df "Order ID")).

(** ** Keys of the key metrics *)

(** The metrics that are only assigned under [if column in df.columns], each
    with the column it needs. *)
Definition guarded_metrics : list (string * string) :=
  [ ("revenue_std", "Amount"); ("median_order_value", "Amount");
    ("max_order_value", "Amount"); ("min_order_value", "Amount");
    ("unique_categories", "Category"); ("top_category", "Category");
    ("unique_states", "ship-state"); ("top_state", "ship-state");
    ("unique_cities", "ship-city"); ("top_city", "ship-city");
    ("status_distribution", "Status"); ("shipped_percentage", "Status");
    ("fulfillment_distribution", "Fulfilment") ].

(** The metrics assigned by a conditional expression with default 0. *)
Definition defaulted_metrics : list (string * string) :=
  [ ("total_revenue", "Amount"); ("avg_order_value", "Amount");
    ("total_quantity", "Qty") ].

(** The exclusion policy read for a list of metrics: the call returns, and a
    metric whose column is absent is not a key of the mapping. *)
Definition excludes_when_absent (metrics : list (string * string)) (df : DataFrame) : Prop :=
  exists m, get_key_metrics df = OK m
            /\ forall k c, In (k, c) metrics -> has_column df c = false -> dict_mem m k = false.

(** The value is the number zero, as a Python int or as a float. *)
Definition is_zero (v : value) : Prop :=
  match v with
  | VInt n => n = 0
  | VNum (Fin q) => (q == 0)%Q
  | _ => False
  end.

(** The value is a finite float equal to [q]. *)
Definition is_number (v : value) (q : Q) : Prop :=
  match v with
  | VNum (Fin p) => (p == q)%Q
  | _ => False
  end.

(** ** Counting *)

(** The number of missing cells of a column. *)
Definition count_missing (c : column) : nat := (col_len c - col_count c)%nat.

(** The sum of the values of a dict of counts. *)
Definition counts_total (d : list (label * Z)) : Z := fold_right Z.add 0 (map snd d).

(** [len(df[mask])] *)
Definition count_true (mask : list bool) : nat := length (filter (fun b => b) mask).

(** The partition property of [category_counts] for one dataset. *)
Definition category_counts_partition (df : DataFrame) : Prop :=
  exists m d, get_category_analysis df = OK m
              /\ dict_get m "category_counts" = Some (VCounts d)
              /\ counts_total d = len df.

(** The partition property of the value segments for one dataset. *)
Definition segments_partition_rows (df : DataFrame) : Prop :=
  exists m high medium low,
    get_revenue_analysis df = OK m
    /\ dict_get m "high_value_orders" = Some (VInt high)
    /\ dict_get m "medium_value_orders" = Some (VInt medium)
    /\ dict_get m "low_value_orders" = Some (VInt low)
    /\ high + medium + low = len df.

(** ** The tables of the sales trends *)

(** The frame the tables are computed from: the date column parsed, the rows
    sorted by it. *)
Definition sorted_frame (df : DataFrame) (date_col : string)
    (parsed : list (option Timestamp)) : DataFrame :=
  mkDataFrame (nrows df)
    (map (fun nc => (fst nc, column_take (argsort (map (option_map LTime) parsed)) (snd nc)))
         (columns (setitem df date_col (Datetime64 parsed)))).




(** ** Datasets used in examples *)

(** Three orders of one category, amounts 10, 20 and 30. *)
Definition scenario_df : DataFrame :=
  mkDataFrame 3
    [ ("Amount", Float64 [Some 10%Q; Some 20%Q; Some 30%Q]);
      ("Category", Object [Some "A"; Some "A"; Some "A"]) ].

(** A header without rows. *)
Definition empty_df : DataFrame :=
  mkDataFrame 0
    [ ("Amount", Float64 []); ("Qty", Float64 []); ("Category", Object []);
      ("Status", Object []); ("ship-state", Object []); ("ship-city", Object []) ].

(** One order shipped, one cancelled, one without a status. *)
Definition status_df : DataFrame :=
  mkDataFrame 3
    [ ("Amount", Float64 [Some 10%Q; Some 20%Q; Some 30%Q]);
      ("Category", Object [Some "A"; Some "A"; Some "A"]);
      ("Status", Object [Some "Shipped"; Some "Cancelled"; None]) ].

(** Two orders, the second without a category. *)
Definition missing_category_df : DataFrame :=
  mkDataFrame 2 [("Category", Object [Some "A"; None])].

(** Two orders, the second without an amount. *)
Definition missing_amount_df : DataFrame :=
  mkDataFrame 2 [("Amount", Float64 [Some 10%Q; None])].

(** Two orders, the second with a date that is no date. *)
Definition bad_date_df : DataFrame :=
  mkDataFrame 2
    [ ("Date", Object [Some "2022-04-30"; Some "soon"]);
      ("Amount", Float64 [Some 10%Q; Some 20%Q]);
      ("Qty", Float64 [Some 1%Q; Some 2%Q]) ].

(** Two orders on two days. *)
Definition dated_df : DataFrame :=
  mkDataFrame 2
    [ ("Date", Object [Some "2022-04-30"; Some "2022-05-01"]);
      ("Amount", Float64 [Some 10%Q; Some 20%Q]);
      ("Qty", Float64 [Some 1%Q; Some 2%Q]) ].

(** Two orders on two days, without the [Amount] column. *)
Definition no_amount_df : DataFrame :=
  mkDataFrame 2
    [ ("Date", Object [Some "2022-04-30"; Some "2022-05-01"]);
      ("Qty", Float64 [Some 1%Q; Some 2%Q]) ].

(** One order with a city and no state column. *)
Definition city_only_df : DataFrame :=
  mkDataFrame 1 [("ship-city", Object [Some "Pune"])].

(** No rows, with state and city columns. *)
Definition no_rows_geo_df : DataFrame :=
  mkDataFrame 0 [("ship-state", Object []); ("ship-city", Object [])].

(** Three orders in two states and two cities, one city missing. *)
Definition geo_df : DataFrame :=
  mkDataFrame 3
    [ ("ship-state", Object [Some "MH"; Some "KA"; Some "MH"]);
      ("ship-city", Object [Some "Pune"; None; Some "Mumbai"]) ].

(** No rows, with a quantity column. *)
Definition no_rows_qty_df : DataFrame := mkDataFrame 0 [("Qty", Float64 [])].

(** ** Frequencies *)

(** The number of cells equal to [k]. *)
Definition count_of (k : label) (ks : list label) : nat :=
  length (filter (label_eqb k) ks).

(** No two entries of a frequency table have equal labels. *)
Fixpoint keys_distinct (s : counts) : Prop :=
  match s with
  | [] => True
  | x :: rest =>
      (forall y, In y rest -> label_eqb (fst x) (fst y) = false) /\ keys_distinct rest
  end.

(** The counts never increase from one entry to the next. *)
Fixpoint descending (s : counts) : Prop :=
  match s with
  | [] => True
  | x :: rest => (forall y, In y rest -> (snd y <= snd x)%nat) /\ descending rest
  end.

(** The mapping a call returned (empty when it raised); used to name the
    result of a call on a concrete dataset. *)
Definition returned (r : result dict) : dict :=
  match r with
  | OK m => m
  | Raise _ => []
  end.

(** ** Tables *)

(** The number in column [i] of a table row (0 when it is not finite). *)
Definition cell (i : nat) (r : label * list num) : Q :=
  match nth i (snd r) NaN with
  | Fin q => q
  | _ => 0%Q
  end.




(** The values of the rows of the group [k]. *)
Definition group_values (keys : list (option label)) (xs : list (option Q)) (k : label)
  : list (option Q) :=
  select (group_mask keys k) xs.

(** The row of [category_revenue] for the category [k]: the sum, the mean and
    the number of the amounts of its orders. *)
Definition revenue_row (keys : list (option label)) (amounts : list (option Q)) (k : label)
  : label * list num :=
  (k, [ sum_values (group_values keys amounts k);
        mean_values (group_values keys amounts k);
        Fin (Qlen (dropna (group_values keys amounts k))) ]).

(** No two labels of the list are equal. *)
Definition labels_distinct (l : list label) : Prop :=
  ForallOrdPairs (fun a b => label_eqb a b = false) l.

(** Column [i] of every row is a finite number. *)
Definition finite_at (i : nat) (r : label * list num) : Prop :=
  exists q, nth i (snd r) NaN = Fin q.

(** The rows are in descending order of column [i]. *)
Definition descending_by (i : nat) (rows : list (label * list num)) : Prop :=
  StronglySorted (fun r s => (cell i s <= cell i r)%Q) rows.

(** The revenue of the category [k]: the sum of the amounts of its orders. *)
Definition group_revenue (keys : list (option label)) (amounts : list (option Q)) (k : label)
  : Q :=
  Qsum (dropna (group_values keys amounts k)).

(** A formatter for examples: a string as it is, any other value by the
    format specification alone. *)
Definition plain_format (v : value) (spec : string) : string :=
  match v with
  | VStr s => s
  | _ => spec
  end.

(** The float is nan or infinite. *)
Definition not_finite (g : num) : Prop :=
  match g with
  | NaN | PosInf | NegInf => True
  | _ => False
  end.

(** ** The filters of the dashboard *)



(** ** Column names *)







(** Three orders on two sales channels, one of them shipped. *)
Definition orders_df : DataFrame :=
  mkDataFrame 3
    [ ("Status", Object [Some "Shipped"; Some "Cancelled"; None]);
      ("Sales Channel", Object [Some "Amazon.in"; Some "Non-Amazon"; Some "Amazon.in"]);
      ("Category", Object [Some "Set"; Some "Kurta"; Some "Set"]);
      ("Qty", Float64 [Some 1%Q; Some 2%Q; Some 3%Q]);
      ("Amount", Float64 [Some 10%Q; Some 20%Q; Some 30%Q]) ].

(** Three orders of two categories, with quantities and order ids; the
    orders of the second category have quantity zero. *)
Definition units_df : DataFrame :=
  mkDataFrame 3
    [ ("Order ID", Object [Some "171-1"; Some "171-2"; Some "171-3"]);
      ("Category", Object [Some "Set"; Some "Kurta"; Some "Set"]);
      ("Qty", Float64 [Some 1%Q; Some 0%Q; Some 3%Q]);
      ("Amount", Float64 [Some 10%Q; Some 20%Q; Some 30%Q]) ].

(** The row of [category_performance] for the category [k], before the
    ratio is appended. *)
Definition performance_row (keys : list (option label)) (amounts quantities : list (option Q))
    (ids : column) (k : label) : label * list num :=
  (k, [ sum_values (group_values keys amounts k);
        mean_values (group_values keys amounts k);
        std_values (group_values keys amounts k);
        sum_values (group_values keys quantities k);
        mean_values (group_values keys quantities k);
        Fin (inject_Z (Z.of_nat (col_count (column_select (group_mask keys k) ids)))) ]).

(** * Proofs *)

(** ** Frequency tables count every non-missing cell once *)

Lemma counts_sum_count_add k acc : counts_sum (count_add k acc) = S (counts_sum acc).
Proof.
  induction acc as [|[k' n] acc IH]; simpl; [reflexivity|].
  destruct (label_eqb k k'); simpl; lia.
Qed.

Lemma counts_sum_fold ks : forall acc,
  counts_sum (fold_left (fun acc k => count_add k acc) ks acc)
  = (length ks + counts_sum acc)%nat.
Proof.
  induction ks as [|k ks IH]; intros acc; simpl; [reflexivity|].
  rewrite IH, counts_sum_count_add. lia.
Qed.

Lemma counts_sum_tally ks : counts_sum (tally ks) = length ks.
Proof. unfold tally. rewrite counts_sum_fold. simpl. lia. Qed.

Lemma counts_sum_insert_desc x l :
  counts_sum (insert_desc x l) = (snd x + counts_sum l)%nat.
Proof.
  induction l as [|y l IH]; simpl; [reflexivity|].
  destruct (snd y <=? snd x)%nat; simpl; lia.
Qed.

Lemma counts_sum_sort_desc l : counts_sum (sort_desc l) = counts_sum l.
Proof.
  induction l as [|x l IH]; simpl; [reflexivity|].
  rewrite counts_sum_insert_desc. lia.
Qed.

Lemma counts_sum_value_counts c : counts_sum (value_counts c) = length (labels c).
Proof. unfold value_counts. now rewrite counts_sum_sort_desc, counts_sum_tally. Qed.

Lemma counts_sum_head n s : (counts_sum (head n s) <= counts_sum s)%nat.
Proof.
  unfold head. revert n. induction s as [|x s IH]; intros [|n]; simpl; try lia.
  specialize (IH n). lia.
Qed.

Lemma counts_get_le s k : (counts_get s k <= counts_sum s)%nat.
Proof.
  induction s as [|[k' n] s IH]; simpl; [lia|].
  destruct (label_eqb k k'); lia.
Qed.

Lemma length_dropna {A : Type} (xs : list (option A)) : (length (dropna xs) <= length xs)%nat.
Proof. induction xs as [|[x|] xs IH]; simpl; lia. Qed.

Lemma length_labels c : (length (labels c) <= col_len c)%nat.
Proof. destruct c; simpl; rewrite length_map; apply length_dropna. Qed.

(** ** Columns of a well-formed frame *)

Lemma has_column_find df name :
  has_column df name = match find_column (columns df) name with Some _ => true | None => false end.
Proof.
  unfold has_column. induction (columns df) as [|[n c] cs IH]; simpl; [reflexivity|].
  destruct (String.eqb n name); [reflexivity|exact IH].
Qed.

Lemma has_column_getitem df name :
  has_column df name = true -> exists c, getitem df name = OK c.
Proof.
  rewrite has_column_find. unfold getitem.
  destruct (find_column (columns df) name) as [c|]; [eauto|discriminate].
Qed.

Lemma find_column_In cs name c : find_column cs name = Some c -> In (name, c) cs.
Proof.
  induction cs as [|[n c'] cs IH]; simpl; [discriminate|].
  destruct (String.eqb_spec n name) as [->|]; intros H.
  - injection H as ->. now left.
  - right. now apply IH.
Qed.

Lemma getitem_len df name c :
  well_formed df = true -> getitem df name = OK c -> col_len c = nrows df.
Proof.
  unfold well_formed. intros Hwf. apply andb_prop in Hwf as [Hlen _]. unfold getitem.
  destruct (find_column (columns df) name) as [c'|] eqn:E; [|discriminate].
  intros H; injection H as <-. apply find_column_In in E.
  rewrite forallb_forall in Hlen. apply Nat.eqb_eq. exact (Hlen _ E).
Qed.

Lemma value_counts_le df name c :
  well_formed df = true -> getitem df name = OK c ->
  (counts_sum (value_counts c) <= nrows df)%nat.
Proof.
  intros Hwf Hc. rewrite counts_sum_value_counts, <- (getitem_len df name c Hwf Hc).
  apply length_labels.
Qed.

(** ** Dictionaries *)

Lemma dict_get_set_same d k v : dict_get (dict_set d k v) k = Some v.
Proof.
  induction d as [|[k' v'] d IH]; simpl.
  - now rewrite String.eqb_refl.
  - destruct (String.eqb k' k) eqn:E; simpl; rewrite E; [reflexivity|exact IH].
Qed.

Lemma dict_get_set_other d k v k0 :
  k <> k0 -> dict_get (dict_set d k v) k0 = dict_get d k0.
Proof.
  intros Hne. induction d as [|[k' v'] d IH]; simpl.
  - destruct (String.eqb_spec k k0); [contradiction|reflexivity].
  - destruct (String.eqb_spec k' k) as [->|]; simpl.
    + destruct (String.eqb_spec k k0); [contradiction|reflexivity].
    + destruct (String.eqb k' k0); [reflexivity|exact IH].
Qed.

(** ** Symbolic execution of a monadic body that is known to return *)

Lemma bind_OK {A B : Type} (r : result A) (k : A -> result B) (b : B) :
  bind r k = OK b -> exists a, r = OK a /\ k a = OK b.
Proof. destruct r as [a|e]; simpl; [eauto|discriminate]. Qed.

Ltac run :=
  repeat match goal with
         | H : bind _ _ = OK _ |- _ =>
             let a := fresh "a" in
             let E := fresh "E" in
             apply bind_OK in H; destruct H as (a & E & H)
         | H : assign _ _ _ = OK _ |- _ => unfold assign in H
         | H : OK _ = OK _ |- _ => injection H as H; try subst
         | H : Raise _ = OK _ |- _ => discriminate H
         | H : (if has_column ?df ?n then _ else _) = OK _ |- _ =>
             let E := fresh "Hcol" in destruct (has_column df n) eqn:E
         | H : (if ?b then _ else _) = OK _ |- _ =>
             match b with
             | context [has_column ?df ?n] =>
                 let E := fresh "Hcol" in destruct (has_column df n) eqn:E
             end
         | H : (if ?b then _ else _) = OK _ |- _ => progress cbn [andb orb negb] in H
         end.

(** ** get_key_metrics: when it returns *)

Lemma value_counts_nil c : value_counts c = [] -> labels c = [].
Proof.
  intros H. apply length_zero_iff_nil.
  rewrite <- counts_sum_value_counts, H. reflexivity.
Qed.

Lemma index0_value_counts c :
  (length (labels c) =? 0)%nat = false -> exists v, index0 (value_counts c) = OK v.
Proof.
  intros H. destruct (value_counts c) as [|[k n] s] eqn:E.
  - apply value_counts_nil in E. rewrite E in H. discriminate.
  - simpl. eauto.
Qed.

Lemma top_value_returns df name :
  has_column df name = true -> has_value_or_absent df name = true ->
  exists v, top_value df name = OK v.
Proof.
  rewrite has_column_find. unfold has_value_or_absent, top_value, series_value_counts, getitem, len.
  destruct (find_column (columns df) name) as [c|]; [intros _ H|discriminate].
  destruct (0 <? Z.of_nat (nrows df)) eqn:E; [|eauto].
  destruct (nrows df =? 0)%nat eqn:En.
  - apply Nat.eqb_eq in En. rewrite En in E. discriminate.
  - simpl in H. apply negb_true_iff in H. simpl. now apply index0_value_counts.
Qed.

Lemma numeric_series df name :
  has_column df name = true -> numeric_or_absent df name = true ->
  exists xs, getitem df name = OK (Float64 xs).
Proof.
  rewrite has_column_find. unfold numeric_or_absent, getitem.
  destruct (find_column (columns df) name) as [[xs|xs|xs]|]; try discriminate. eauto.
Qed.

Lemma get_key_metrics_returns df :
  key_metrics_returns df = true -> exists m, get_key_metrics df = OK m.
Proof.
  unfold key_metrics_returns. intros H.
  repeat (apply andb_prop in H as [H ?]).
  unfold get_key_metrics, assign, series_sum, series_mean, series_std, series_median,
    series_max, series_min, series_nunique, series_value_counts.
  destruct (has_column df "Amount") eqn:HA;
    [destruct (numeric_series df "Amount" HA) as [xa ->]; [assumption|]|];
  (destruct (has_column df "Qty") eqn:HQ;
    [destruct (numeric_series df "Qty" HQ) as [xq ->]; [assumption|]|]);
  (destruct (has_column df "Category") eqn:HC;
    [destruct (top_value_returns df "Category" HC) as [vc ->]; [assumption|];
     destruct (has_column_getitem df "Category" HC) as [cc ->]|]);
  (destruct (has_column df "ship-state") eqn:HS;
    [destruct (top_value_returns df "ship-state" HS) as [vs ->]; [assumption|];
     destruct (has_column_getitem df "ship-state" HS) as [cs ->]|]);
  (destruct (has_column df "ship-city") eqn:HT;
    [destruct (top_value_returns df "ship-city" HT) as [vt ->]; [assumption|];
     destruct (has_column_getitem df "ship-city" HT) as [ct ->]|]);
  (destruct (has_column df "Status") eqn:HU;
    [destruct (has_column_getitem df "Status" HU) as [cu ->]|]);
  (destruct (has_column df "Fulfilment") eqn:HF;
    [destruct (has_column_getitem df "Fulfilment" HF) as [cf ->]|]);
  cbn [bind numeric]; destruct (0 <? len df); cbn [bind]; eauto.
Qed.

Lemma absent_column_is_harmless df name :
  has_column df name = false ->
  numeric_or_absent df name = true /\ has_value_or_absent df name = true.
Proof.
  rewrite has_column_find. unfold numeric_or_absent, has_value_or_absent.
  destruct (find_column (columns df) name); [discriminate|auto].
Qed.

(** ** get_key_metrics: the keys of the mapping *)

Lemma percentage_bounds (count : nat) (total : Z) :
  0 < total -> Z.of_nat count <= total ->
  (0 <= inject_Z (Z.of_nat count) / inject_Z total * 100 <= 100)%Q.
Proof.
  intros Ht Hc.
  assert (H0 : (0 < inject_Z total)%Q) by (rewrite <- (Zlt_Qlt 0); exact Ht).
  assert (H1 : (0 <= inject_Z (Z.of_nat count) / inject_Z total)%Q).
  { apply Qle_shift_div_l; [exact H0|]. rewrite Qmult_0_l.
    rewrite <- (Zle_Qle 0). lia. }
  assert (H2 : (inject_Z (Z.of_nat count) / inject_Z total <= 1)%Q).
  { apply Qle_shift_div_r; [exact H0|]. rewrite Qmult_1_l.
    rewrite <- Zle_Qle. exact Hc. }
  split; lra.
Qed.

Lemma np_percentage_bounds (count : nat) (total : Z) :
  0 < total -> Z.of_nat count <= total ->
  exists q, np_percentage count total = Fin q /\ (0 <= q <= 100)%Q.
Proof.
  intros Ht Hc. unfold np_percentage.
  destruct (total =? 0) eqn:E; [apply Z.eqb_eq in E; lia|].
  eexists; split; [reflexivity|]. now apply percentage_bounds.
Qed.

Lemma np_percentage_zero (total : Z) :
  total <> 0 -> exists q, np_percentage 0 total = Fin q /\ (q == 0)%Q.
Proof.
  intros Ht. unfold np_percentage.
  destruct (total =? 0) eqn:E; [apply Z.eqb_eq in E; contradiction|].
  eexists; split; [reflexivity|]. simpl. unfold Qdiv. rewrite Qmult_0_l. reflexivity.
Qed.

Lemma label_eqb_str s k : label_eqb (LStr s) k = true -> k = LStr s.
Proof.
  destruct k; simpl; try discriminate.
  intros H. apply String.eqb_eq in H. now subst.
Qed.

Lemma In_insert_desc y x l : In y (insert_desc x l) -> y = x \/ In y l.
Proof.
  induction l as [|z l IH]; simpl; [intuition|].
  destruct (snd z <=? snd x)%nat; simpl; intuition.
Qed.

Lemma In_sort_desc y l : In y (sort_desc l) -> In y l.
Proof.
  induction l as [|x l IH]; simpl; [auto|].
  intros H. apply In_insert_desc in H as [->|H]; auto.
Qed.

Lemma In_count_add y k acc :
  In y (count_add k acc) -> fst y = k \/ exists n, In (fst y, n) acc.
Proof.
  induction acc as [|[k' n] acc IH]; simpl.
  - intros [<-|[]]. now left.
  - destruct (label_eqb k k'); simpl.
    + intros [<-|H]; right; [exists n; now left|].
      destruct y as [ky ny]. exists ny. now right.
    + intros [<-|H]; [right; exists n; now left|].
      apply IH in H as [H|[n' H]]; [now left|right; exists n'; now right].
Qed.

Lemma In_tally_fold ks : forall acc y,
  In y (fold_left (fun acc k => count_add k acc) ks acc) ->
  In (fst y) ks \/ exists n, In (fst y, n) acc.
Proof.
  induction ks as [|k ks IH]; intros acc y; simpl.
  - destruct y as [ky ny]. right. now exists ny.
  - intros H. apply IH in H as [H|[n H]]; [auto|].
    apply In_count_add in H as [H|H]; simpl in H; auto.
Qed.

Lemma In_value_counts k n c : In (k, n) (value_counts c) -> In k (labels c).
Proof.
  unfold value_counts, tally. intros H. apply In_sort_desc in H.
  apply In_tally_fold in H as [H|[n' []]]. exact H.
Qed.

Lemma counts_get_absent s k :
  (forall k' n, In (k', n) s -> label_eqb k k' = false) -> counts_get s k = 0%nat.
Proof.
  induction s as [|[k' n] s IH]; simpl; [reflexivity|]. intros H.
  rewrite (H k' n) by now left. apply IH. intros k'' n' Hin. apply (H k'' n'). now right.
Qed.

Lemma counts_get_not_in c s :
  ~ In (LStr s) (labels c) -> counts_get (value_counts c) (LStr s) = 0%nat.
Proof.
  intros Hnot. apply counts_get_absent. intros k' n Hin.
  destruct (label_eqb (LStr s) k') eqn:E; [|reflexivity].
  apply label_eqb_str in E. subst. apply In_value_counts in Hin. contradiction.
Qed.

Lemma len_pos df : (0 <? len df) = true -> 0 < len df.
Proof. apply Z.ltb_lt. Qed.

Lemma len_nonpos df : (0 <? len df) = false -> len df = 0.
Proof. unfold len. intros H. apply Z.ltb_ge in H. lia. Qed.

(** C10. Whatever columns the dataset has, the mapping returned by
    [get_key_metrics] holds [total_orders] (the row count), [total_revenue],
    [avg_order_value] and [total_quantity], and the last three are the integer
    0 when their source column is absent.  The call returns on every dataset
    that satisfies [key_metrics_returns], a condition on the columns that are
    present. *)
Theorem key_metrics_has_basic_keys (df : DataFrame) :
  (key_metrics_returns df = true -> exists m, get_key_metrics df = OK m)
  /\ (forall m, get_key_metrics df = OK m ->
        dict_get m "total_orders" = Some (VInt (len df))
        /\ dict_mem m "total_revenue" = true
        /\ dict_mem m "avg_order_value" = true
        /\ dict_mem m "total_quantity" = true
        /\ (has_column df "Amount" = false ->
              dict_get m "total_revenue" = Some (VInt 0)
              /\ dict_get m "avg_order_value" = Some (VInt 0))
        /\ (has_column df "Qty" = false ->
              dict_get m "total_quantity" = Some (VInt 0))).
Proof.
  split; [apply get_key_metrics_returns|].
  intros m H. unfold get_key_metrics in H. run.
  all: repeat split; try reflexivity; intros; try discriminate.
Qed.

(** C4, as amended.  In the mapping returned by [get_key_metrics] every metric
    assigned under a column test ([guarded_metrics]) is missing when its column
    is absent; [total_revenue], [avg_order_value] and [total_quantity] are
    instead present with the integer 0.  An absent column raises no error: it
    satisfies the conditions under which the call returns. *)
Theorem key_metrics_absent_columns (df : DataFrame) :
  (key_metrics_returns df = true -> exists m, get_key_metrics df = OK m)
  /\ (forall name, has_column df name = false ->
        numeric_or_absent df name = true /\ has_value_or_absent df name = true)
  /\ (forall m, get_key_metrics df = OK m ->
        (forall k c, In (k, c) guarded_metrics -> has_column df c = false ->
                     dict_mem m k = false)
        /\ (forall k c, In (k, c) defaulted_metrics -> has_column df c = false ->
                        dict_get m k = Some (VInt 0))).
Proof.
  split; [apply get_key_metrics_returns|].
  split; [apply absent_column_is_harmless|].
  intros m H. unfold get_key_metrics in H. run.
  all: split; intros k c Hin Habs; simpl in Hin;
    repeat (destruct Hin as [Hin|Hin]; [injection Hin as <- <-|]);
    try contradiction; try reflexivity; congruence.
Qed.

(** C4 as stated fails: with no [Amount] column the key [total_revenue] is
    still in the mapping (with value 0). *)
Lemma key_metrics_reports_absent_amount :
  ~ excludes_when_absent (defaulted_metrics ++ guarded_metrics) (mkDataFrame 0 []).
Proof.
  intros (m & Hm & Hex).
  specialize (Hex "total_revenue" "Amount").
  vm_compute in Hm. injection Hm as <-.
  assert (dict_mem [("total_orders", VInt 0); ("total_revenue", VInt 0);
                    ("avg_order_value", VInt 0); ("total_quantity", VInt 0)]
                   "total_revenue" = false) as Hf.
  { apply Hex; [simpl; now left|reflexivity]. }
  discriminate Hf.
Qed.

(** ** get_key_metrics: the shipped percentage *)

(** C9. With a [Status] column, the [shipped_percentage] that
    [get_key_metrics] returns is a number between 0 and 100 when the dataset
    has rows, the integer 0 when it has none, and zero when no row has the
    status "Shipped".  The call returns under [key_metrics_returns]. *)
Theorem shipped_percentage_bounds (df : DataFrame) :
  well_formed df = true ->
  has_column df "Status" = true ->
  (key_metrics_returns df = true -> exists m, get_key_metrics df = OK m)
  /\ (forall m, get_key_metrics df = OK m ->
        exists v, dict_get m "shipped_percentage" = Some v
          /\ (0 < len df -> exists q, v = VNum (Fin q) /\ (0 <= q <= 100)%Q)
          /\ (len df = 0 -> v = VInt 0)
          /\ ((forall c, getitem df "Status" = OK c -> ~ In (LStr "Shipped") (labels c)) ->
              is_zero v)).
Proof.
  intros Hwf Hst. split; [apply get_key_metrics_returns|]. intros m H.
  destruct (has_column_getitem df "Status" Hst) as [c Hc].
  assert (Hle : Z.of_nat (counts_get (value_counts c) (LStr "Shipped")) <= len df).
  { pose proof (counts_get_le (value_counts c) (LStr "Shipped")).
    pose proof (value_counts_le df "Status" c Hwf Hc). unfold len. lia. }
  assert (Hshape :
    dict_get m "shipped_percentage" =
    Some (if 0 <? len df
          then VNum (np_percentage (counts_get (value_counts c) (LStr "Shipped")) (len df))
          else VInt 0)).
  { unfold get_key_metrics, series_value_counts in H. rewrite Hc in H.
    cbn [bind] in H. run; try congruence.
    all: destruct (0 <? len df); run; reflexivity. }
  rewrite Hshape. eexists; split; [reflexivity|].
  destruct (0 <? len df) eqn:Epos.
  - apply len_pos in Epos. split; [|split].
    + intros _.
      destruct (np_percentage_bounds _ _ Epos Hle) as (q & -> & Hq). eauto.
    + intros H0. lia.
    + intros Hno. rewrite (counts_get_not_in c "Shipped" (Hno c Hc)).
      destruct (np_percentage_zero (len df)) as (q & -> & Hq); [lia|exact Hq].
  - apply len_nonpos in Epos. split; [|split].
    + intros Hpos. lia.
    + reflexivity.
    + intros _. reflexivity.
Qed.

Lemma shipped_percentage_bounds_witness :
  (key_metrics_returns status_df = true -> exists m, get_key_metrics status_df = OK m)
  /\ (forall m, get_key_metrics status_df = OK m ->
        exists v, dict_get m "shipped_percentage" = Some v
          /\ (0 < len status_df -> exists q, v = VNum (Fin q) /\ (0 <= q <= 100)%Q)
          /\ (len status_df = 0 -> v = VInt 0)
          /\ ((forall c, getitem status_df "Status" = OK c ->
                         ~ In (LStr "Shipped") (labels c)) ->
              is_zero v)).
Proof.
  apply (shipped_percentage_bounds status_df); reflexivity.
Defined.

(** ** get_customer_insights: the concentration ratios *)

(** X1.  On a well-formed dataset with rows, both concentration ratios are
    percentages between 0 and 100. *)
Theorem concentration_bounds (df : DataFrame) (m : dict) :
  well_formed df = true ->
  0 < len df ->
  get_customer_insights df = OK m ->
  (has_column df "ship-state" = true ->
     exists q, dict_get m "top_5_states_concentration" = Some (VNum (Fin q))
               /\ (0 <= q <= 100)%Q)
  /\ (has_column df "ship-city" = true ->
        exists q, dict_get m "top_10_cities_concentration" = Some (VNum (Fin q))
                  /\ (0 <= q <= 100)%Q).
Proof.
  intros Hwf Hpos H.
  assert (Hhead : forall name c n, getitem df name = OK c ->
            exists q, np_percentage (counts_sum (head n (value_counts c))) (len df) = Fin q
                      /\ (0 <= q <= 100)%Q).
  { intros name c n Hc. apply np_percentage_bounds; [exact Hpos|].
    pose proof (counts_sum_head n (value_counts c)).
    pose proof (value_counts_le df name c Hwf Hc). unfold len. lia. }
  unfold get_customer_insights, series_value_counts, read_local in H.
  split; intros Hcol; rewrite Hcol in H.
  - destruct (has_column_getitem df "ship-state" Hcol) as [c Hc].
    rewrite Hc in H. cbn [bind assign] in H.
    destruct (Hhead "ship-state" c 5%nat Hc) as (q & Eq & Hq). rewrite Eq in H.
    exists q. split; [|exact Hq]. run; reflexivity.
  - destruct (has_column_getitem df "ship-city" Hcol) as [c Hc].
    rewrite Hc in H.
    destruct (Hhead "ship-city" c 10%nat Hc) as (q & Eq & Hq).
    exists q. split; [|exact Hq].
    destruct (has_column df "ship-state") eqn:Hs.
    + destruct (has_column_getitem df "ship-state" Hs) as [c' Hc'].
      rewrite Hc' in H. cbn [bind assign fst snd] in H. rewrite Eq in H.
      run; reflexivity.
    + cbn [bind assign fst snd] in H. discriminate H.
Qed.

Lemma concentration_bounds_witness :
  (has_column geo_df "ship-state" = true ->
     exists q, dict_get
                 [ ("customers_by_state", VCounts [(LStr "MH", 2); (LStr "KA", 1)]);
                   ("top_5_states_concentration", VNum (Fin (300 # 3)));
                   ("customers_by_city", VCounts [(LStr "Pune", 1); (LStr "Mumbai", 1)]);
                   ("top_10_cities_concentration", VNum (Fin (200 # 3))) ]
                 "top_5_states_concentration" = Some (VNum (Fin q))
               /\ (0 <= q <= 100)%Q)
  /\ (has_column geo_df "ship-city" = true ->
        exists q, dict_get
                    [ ("customers_by_state", VCounts [(LStr "MH", 2); (LStr "KA", 1)]);
                      ("top_5_states_concentration", VNum (Fin (300 # 3)));
                      ("customers_by_city", VCounts [(LStr "Pune", 1); (LStr "Mumbai", 1)]);
                      ("top_10_cities_concentration", VNum (Fin (200 # 3))) ]
                    "top_10_cities_concentration" = Some (VNum (Fin q))
                  /\ (0 <= q <= 100)%Q).
Proof.
  apply (concentration_bounds geo_df); reflexivity.
Defined.

(** C3 on a dataset without rows: nothing guards the division, and both
    ratios are nan. *)
Theorem concentration_of_empty_is_nan :
  get_customer_insights no_rows_geo_df
  = OK [ ("customers_by_state", VCounts []);
         ("top_5_states_concentration", VNum NaN);
         ("customers_by_city", VCounts []);
         ("top_10_cities_concentration", VNum NaN) ].
Proof. reflexivity. Qed.

(** ** Grouped aggregation: when it returns *)

Lemma mapM_returns {A B : Type} (f : A -> result B) (l : list A) :
  (forall a, In a l -> exists b, f a = OK b) ->
  exists bs, mapM f l = OK bs /\ length bs = length l.
Proof.
  induction l as [|a l IH]; intros H; simpl; [eauto|].
  destruct (H a) as [b ->]; [now left|].
  destruct IH as (bs & -> & Hlen); [intros a' Ha'; apply H; now right|].
  simpl. eexists; split; [reflexivity|]. simpl. now rewrite Hlen.
Qed.

Lemma mapM_fst {A B : Type} (f : A -> result B) (l : list A) (rows : list (A * B)) :
  mapM (fun k => r <- f k;; OK (k, r)) l = OK rows -> map fst rows = l.
Proof.
  revert rows. induction l as [|a l IH]; intros rows; simpl.
  - intros H. injection H as <-. reflexivity.
  - intros H. run. simpl. f_equal. now apply IH.
Qed.

Lemma aggregate_returns f c mask :
  (match c with Float64 _ => true | _ => is_count f end) = true ->
  exists x, aggregate f (column_select mask c) = OK x.
Proof.
  destruct c, f; simpl; intros H; try discriminate; eauto.
Qed.

Lemma aggregate_group_returns df spec mask :
  spec_applies df spec = true -> exists r, aggregate_group df spec mask = OK r.
Proof.
  unfold spec_applies, aggregate_group. rewrite forallb_forall. intros H.
  destruct (mapM_returns
              (fun cf => c <- getitem df (fst cf);;
                         mapM (fun f => aggregate f (column_select mask c)) (snd cf)) spec)
    as (parts & -> & _); [|simpl; eauto].
  intros cf Hin. specialize (H cf Hin). unfold getitem.
  destruct (find_column (columns df) (fst cf)) as [c|]; [|discriminate]. simpl.
  destruct (mapM_returns (fun f => aggregate f (column_select mask c)) (snd cf))
    as (bs & -> & _); [|eauto].
  intros f Hf. apply aggregate_returns.
  destruct c; try reflexivity; rewrite forallb_forall in H; now apply H.
Qed.

Lemma spec_applies_present df spec :
  spec_applies df spec = true ->
  filter (fun cf => negb (has_column df (fst cf))) spec = [].
Proof.
  unfold spec_applies. induction spec as [|cf spec IH]; simpl; [reflexivity|].
  intros H. apply andb_prop in H as [H1 H2]. rewrite has_column_find.
  destruct (find_column (columns df) (fst cf)); [simpl; now apply IH|discriminate].
Qed.

Lemma groupby_agg_returns df key_name keys style spec :
  spec_applies df spec = true ->
  exists rows, groupby_agg df key_name keys style spec
               = OK (mkFrame (key_name :: agg_columns style spec) rows)
               /\ map fst rows = group_keys keys.
Proof.
  intros H. unfold groupby_agg. rewrite (spec_applies_present df spec H).
  destruct (mapM_returns
              (fun k => r <- aggregate_group df spec (group_mask keys k);; OK (k, r))
              (group_keys keys)) as (rows & E & _).
  - intros k _. destruct (aggregate_group_returns df spec (group_mask keys k) H) as [r ->].
    simpl. eauto.
  - rewrite E. simpl. exists rows. split; [reflexivity|]. now apply mapM_fst in E.
Qed.

Lemma groupby_returns df name style spec :
  has_column df name = true -> spec_applies df spec = true ->
  exists rows, groupby df name style spec
               = OK (mkFrame (name :: agg_columns style spec) rows).
Proof.
  intros Hn Hs. unfold groupby. destruct (has_column_getitem df name Hn) as [c ->]. simpl.
  destruct (groupby_agg_returns df name (cells c) style spec Hs) as (rows & -> & _). eauto.
Qed.

Lemma spec_applies_numeric df name fs :
  has_column df name = true -> numeric_or_absent df name = true ->
  spec_applies df [(name, fs)] = true.
Proof.
  rewrite has_column_find. unfold numeric_or_absent, spec_applies. simpl.
  destruct (find_column (columns df) name) as [[| |]|]; try discriminate. reflexivity.
Qed.

(** ** get_category_analysis *)

Lemma get_category_analysis_returns df :
  category_analysis_returns df = true -> exists m, get_category_analysis df = OK m.
Proof.
  unfold category_analysis_returns, get_category_analysis, series_value_counts.
  destruct (has_column df "Category") eqn:HC; [|eauto].
  destruct (has_column_getitem df "Category" HC) as [cc ->].
  cbn [negb orb bind assign]. intros H.
  apply andb_prop in H as [H HO]. apply andb_prop in H as [HA HQ].
  destruct (has_column df "Amount") eqn:EA, (has_column df "Qty") eqn:EQ;
    cbn [andb negb orb] in HO |- *;
    repeat match goal with
    | |- context [groupby df "Category" ?st [(?n, ?fs)]] =>
        let rows := fresh "rows" in
        let E := fresh "E" in
        destruct (groupby_returns df "Category" st [(n, fs)] HC) as [rows E];
        [apply spec_applies_numeric; assumption|rewrite E; cbn [bind assign set_columns
           length agg_columns flat_map map app Nat.eqb frame_columns snd]]
    end; cbn [bind]; try (eexists; reflexivity).
  destruct (groupby_returns df "Category" ByColumnAndFunction
              [("Amount", [AggSum; AggMean; AggStd]); ("Qty", [AggSum; AggMean]);
               ("Order ID", [AggCount])] HC) as [perf Eperf].
  { pose proof (spec_applies_numeric df "Amount" [AggSum; AggMean; AggStd] EA HA) as SA.
    pose proof (spec_applies_numeric df "Qty" [AggSum; AggMean] EQ HQ) as SQ.
    unfold spec_applies in *. cbn [forallb fst snd] in *.
    rewrite andb_true_r in SA, SQ. rewrite SA, SQ.
    rewrite has_column_find in HO.
    destruct (find_column (columns df) "Order ID") as [[| |]|]; [reflexivity..|discriminate]. }
  rewrite Eperf. cbn. eauto.
Qed.

Lemma counts_total_to_list (s : counts) :
  counts_total (map (fun kc => (fst kc, Z.of_nat (snd kc))) s) = Z.of_nat (counts_sum s).
Proof.
  unfold counts_total. induction s as [|[k n] s IH]; simpl; [reflexivity|].
  simpl in IH. rewrite IH. lia.
Qed.

(** C8, as amended.  When the [Category] column is present, the counts in
    [category_counts] add up to the number of rows whose category is not
    missing: to [total_orders] less the missing cells, hence to
    [total_orders] itself when no category is missing. *)
Theorem category_counts_total (df : DataFrame) (c : column) :
  well_formed df = true ->
  getitem df "Category" = OK c ->
  (category_analysis_returns df = true -> exists m, get_category_analysis df = OK m)
  /\ (forall m, get_category_analysis df = OK m ->
        exists d, dict_get m "category_counts" = Some (VCounts d)
                  /\ counts_total d = len df - Z.of_nat (count_missing c)
                  /\ (count_missing c = 0%nat -> counts_total d = len df)).
Proof.
  intros Hwf Hc. split; [apply get_category_analysis_returns|].
  intros m H.
  assert (Hcol : has_column df "Category" = true).
  { rewrite has_column_find. unfold getitem in Hc.
    destruct (find_column (columns df) "Category"); [reflexivity|discriminate]. }
  unfold get_category_analysis, series_value_counts in H.
  rewrite Hcol, Hc in H. cbn [bind] in H.
  exists (map (fun kc => (fst kc, Z.of_nat (snd kc))) (value_counts c)).
  split; [unfold to_dict in H; run; reflexivity|].
  rewrite counts_total_to_list, counts_sum_value_counts.
  pose proof (getitem_len df "Category" c Hwf Hc) as Hlen.
  pose proof (length_labels c) as Hle.
  unfold count_missing, col_count, len. split; [lia|]. intros H0. lia.
Qed.

Lemma category_counts_total_witness :
  (category_analysis_returns missing_category_df = true ->
   exists m, get_category_analysis missing_category_df = OK m)
  /\ (forall m, get_category_analysis missing_category_df = OK m ->
        exists d, dict_get m "category_counts" = Some (VCounts d)
                  /\ counts_total d
                     = len missing_category_df
                       - Z.of_nat (count_missing (Object [Some "A"; None]))
                  /\ (count_missing (Object [Some "A"; None]) = 0%nat ->
                      counts_total d = len missing_category_df)).
Proof.
  apply (category_counts_total missing_category_df (Object [Some "A"; None]));
    reflexivity.
Defined.

(** C8 as stated fails: a row whose category is missing is counted in
    [total_orders] and in no category. *)
Lemma category_counts_skip_missing : ~ category_counts_partition missing_category_df.
Proof.
  intros (m & d & Hm & Hd & Hsum).
  vm_compute in Hm. injection Hm as <-.
  vm_compute in Hd. injection Hd as <-.
  vm_compute in Hsum. discriminate Hsum.
Qed.

(** ** Quantiles are monotone in the level *)


Lemma Qle_bool_false x y : Qle_bool x y = false -> (y < x)%Q.
Proof.
  intros H. apply Qnot_le_lt. intros Hle. apply Qle_bool_iff in Hle. congruence.
Qed.

Lemma Qinsert_Forall (P : Q -> Prop) x l : P x -> Forall P l -> Forall P (Qinsert x l).
Proof.
  intros Hx Hl. induction Hl as [|y l Hy Hl IH]; simpl; [now constructor|].
  destruct (Qle_bool x y); repeat constructor; assumption.
Qed.

Lemma Qinsert_sorted x l : StronglySorted Qle l -> StronglySorted Qle (Qinsert x l).
Proof.
  induction 1 as [|y l Hs IH Hy]; simpl; [repeat constructor|].
  destruct (Qle_bool x y) eqn:E.
  - apply Qle_bool_iff in E. constructor; [now constructor|].
    constructor; [exact E|]. eapply Forall_impl; [|exact Hy].
    intros z Hz. simpl in Hz. lra.
  - apply Qle_bool_false in E. constructor; [exact IH|].
    apply Qinsert_Forall; [lra|exact Hy].
Qed.

Lemma Qsort_sorted l : StronglySorted Qle (Qsort l).
Proof.
  induction l as [|x l IH]; simpl; [constructor|now apply Qinsert_sorted].
Qed.

Lemma length_Qinsert x l : length (Qinsert x l) = S (length l).
Proof.
  induction l as [|y l IH]; simpl; [reflexivity|].
  destruct (Qle_bool x y); simpl; [reflexivity|now rewrite IH].
Qed.

Lemma length_Qsort l : length (Qsort l) = length l.
Proof.
  induction l as [|x l IH]; simpl; [reflexivity|]. now rewrite length_Qinsert, IH.
Qed.

Lemma nth_sorted s : StronglySorted Qle s ->
  forall i j d, (i <= j)%nat -> (j < length s)%nat -> (nth i s d <= nth j s d)%Q.
Proof.
  induction 1 as [|x s Hs IH Hx]; intros i j d Hij Hj; simpl in Hj; [lia|].
  destruct i as [|i], j as [|j]; simpl; try lia.
  - lra.
  - rewrite Forall_forall in Hx. apply Hx. apply nth_In. lia.
  - apply IH; lia.
Qed.

Section Interpolation.

Variable s : list Q.
Hypothesis s_sorted : StronglySorted Qle s.

Lemma frac_bounds pos : (0 <= pos - inject_Z (Qfloor pos) < 1)%Q.
Proof.
  pose proof (Qfloor_le pos). pose proof (Qlt_floor pos) as Hlt.
  rewrite inject_Z_plus in Hlt. change (inject_Z 1) with 1%Q in Hlt. split; lra.
Qed.

Lemma upper_ge_lower i : (nth i s 0 <= nth (S i) s (nth i s 0))%Q.
Proof.
  destruct (Nat.lt_ge_cases (S i) (length s)) as [Hin|Hout].
  - rewrite (nth_indep s _ 0%Q Hin). apply nth_sorted; [exact s_sorted|lia|exact Hin].
  - rewrite (nth_overflow s _ Hout). lra.
Qed.

(** The interpolated value lies between its two neighbours. *)
Lemma interpolate_bounds pos :
  (nth (Z.to_nat (Qfloor pos)) s 0 <= interpolate s pos
   <= nth (S (Z.to_nat (Qfloor pos))) s (nth (Z.to_nat (Qfloor pos)) s 0))%Q.
Proof.
  unfold interpolate.
  pose proof (frac_bounds pos) as [Hf0 Hf1].
  pose proof (upper_ge_lower (Z.to_nat (Qfloor pos))) as Hab.
  set (a := nth (Z.to_nat (Qfloor pos)) s 0%Q) in *.
  set (b := nth (S (Z.to_nat (Qfloor pos))) s a) in *.
  set (f := (pos - inject_Z (Qfloor pos))%Q) in *.
  assert (H0 : (0 <= (b - a) * f)%Q) by (apply Qmult_le_0_compat; lra).
  assert (H1 : ((b - a) * f <= (b - a) * 1)%Q).
  { rewrite (Qmult_comm (b - a) f), (Qmult_comm (b - a) 1).
    apply Qmult_le_compat_r; lra. }
  split; lra.
Qed.

Lemma interpolate_monotone p1 p2 :
  (0 <= p1)%Q -> (p1 <= p2)%Q -> (Z.to_nat (Qfloor p2) < length s)%nat ->
  (interpolate s p1 <= interpolate s p2)%Q.
Proof.
  intros H0 H12 Hlen.
  assert (Hf1 : 0 <= Qfloor p1).
  { rewrite <- (Qfloor_Z 0). now apply Qfloor_resp_le. }
  pose proof (Qfloor_resp_le p1 p2 H12) as Hfl.
  destruct (Z.eq_dec (Qfloor p1) (Qfloor p2)) as [Heq|Hne].
  - unfold interpolate. rewrite Heq.
    pose proof (upper_ge_lower (Z.to_nat (Qfloor p2))) as Hab.
    set (a := nth (Z.to_nat (Qfloor p2)) s 0%Q) in *.
    set (b := nth (S (Z.to_nat (Qfloor p2))) s a) in *.
    assert (Hm : ((b - a) * (p1 - inject_Z (Qfloor p2))
                  <= (b - a) * (p2 - inject_Z (Qfloor p2)))%Q).
    { rewrite (Qmult_comm (b - a) (p1 - _)), (Qmult_comm (b - a) (p2 - _)).
      apply Qmult_le_compat_r; lra. }
    lra.
  - assert (Hlt : (S (Z.to_nat (Qfloor p1)) <= Z.to_nat (Qfloor p2))%nat) by lia.
    pose proof (interpolate_bounds p1) as [_ Hup].
    pose proof (interpolate_bounds p2) as [Hdown _].
    assert (Hin : (S (Z.to_nat (Qfloor p1)) < length s)%nat) by lia.
    rewrite (nth_indep s _ 0%Q Hin) in Hup.
    pose proof (nth_sorted s s_sorted (S (Z.to_nat (Qfloor p1))) (Z.to_nat (Qfloor p2))
                  0%Q Hlt Hlen).
    lra.
Qed.

End Interpolation.

Lemma Qlen_pred (v : list Q) :
  (Qlen v - 1 == inject_Z (Z.of_nat (length v) - 1))%Q.
Proof.
  unfold Qlen, Z.sub. rewrite inject_Z_plus, inject_Z_opp. reflexivity.
Qed.

Lemma quantile_monotone (v : list Q) (q1 q2 : Q) :
  v <> [] -> (0 <= q1)%Q -> (q1 <= q2)%Q -> (q2 <= 1)%Q ->
  (interpolate (Qsort v) ((Qlen v - 1) * q1)
   <= interpolate (Qsort v) ((Qlen v - 1) * q2))%Q.
Proof.
  intros Hne H0 H12 H1.
  assert (Hn : (1 <= length v)%nat) by (destruct v; [contradiction|simpl; lia]).
  assert (Hq : (0 <= Qlen v - 1)%Q).
  { rewrite Qlen_pred. rewrite <- (Zle_Qle 0). lia. }
  apply interpolate_monotone.
  - apply Qsort_sorted.
  - apply Qmult_le_0_compat; lra.
  - rewrite !(Qmult_comm (Qlen v - 1)). apply Qmult_le_compat_r; lra.
  - rewrite length_Qsort.
    assert (Hle : ((Qlen v - 1) * q2 <= inject_Z (Z.of_nat (length v) - 1))%Q).
    { rewrite <- Qlen_pred. rewrite <- (Qmult_1_r (Qlen v - 1)) at 2.
      rewrite !(Qmult_comm (Qlen v - 1)). apply Qmult_le_compat_r; lra. }
    apply Qfloor_resp_le in Hle. rewrite Qfloor_Z in Hle.
    assert (0 <= Qfloor ((Qlen v - 1) * q2)).
    { rewrite <- (Qfloor_Z 0). apply Qfloor_resp_le. apply Qmult_le_0_compat; lra. }
    lia.
Qed.

(** ** get_revenue_analysis: the value segments *)

(** With finite boundaries in order, every non-missing amount falls in exactly
    one segment; a missing amount falls in none. *)
Lemma segments_partition (xs : list (option Q)) (q50 q90 : Q) :
  (q50 <= q90)%Q ->
  (count_true (gt xs (Fin q90))
   + count_true (mask_and (ge xs (Fin q50)) (le xs (Fin q90)))
   + count_true (lt xs (Fin q50)))%nat
  = length (dropna xs).
Proof.
  intros Hq. unfold count_true, gt, ge, le, lt, compare_with, mask_and, Qltb.
  induction xs as [|[v|] xs IH]; simpl; [reflexivity| |exact IH].
  destruct (Qle_bool v q90) eqn:E90, (Qle_bool q50 v) eqn:E50, (Qle_bool v q50) eqn:E5;
    simpl;
    repeat match goal with
           | H : Qle_bool _ _ = true |- _ => apply Qle_bool_iff in H
           | H : Qle_bool _ _ = false |- _ => apply Qle_bool_false in H
           end;
    try lia; exfalso; lra.
Qed.

Lemma segments_of_nan (xs : list (option Q)) :
  count_true (gt xs NaN) = 0%nat
  /\ count_true (mask_and (ge xs NaN) (le xs NaN)) = 0%nat
  /\ count_true (lt xs NaN) = 0%nat.
Proof.
  unfold count_true, gt, ge, le, lt, compare_with, mask_and.
  repeat split; induction xs as [|[v|] xs IH]; simpl; auto.
Qed.

Lemma value_segments (xs : list (option Q)) :
  (count_true (gt xs (quantile_values xs (9 # 10)))
   + count_true (mask_and (ge xs (quantile_values xs (1 # 2)))
                          (le xs (quantile_values xs (9 # 10))))
   + count_true (lt xs (quantile_values xs (1 # 2))))%nat
  = length (dropna xs).
Proof.
  unfold quantile_values. destruct (dropna xs) as [|x v] eqn:E.
  - destruct (segments_of_nan xs) as (-> & -> & ->). reflexivity.
  - rewrite <- E. apply segments_partition. rewrite E.
    apply quantile_monotone; [discriminate|lra..].
Qed.

(** C7, as amended.  With a numeric [Amount] column, [get_revenue_analysis]
    returns, and its high, medium and low segment counts add up to the number
    of rows whose amount is not missing: to [total_orders] less the missing
    amounts, hence to [total_orders] when no amount is missing.  The
    boundaries are the 50th and 90th percentiles of the dataset passed in. *)
Theorem value_segments_total (df : DataFrame) (xs : list (option Q)) :
  well_formed df = true ->
  getitem df "Amount" = OK (Float64 xs) ->
  exists m high medium low,
    get_revenue_analysis df = OK m
    /\ dict_get m "high_value_orders" = Some (VInt high)
    /\ dict_get m "medium_value_orders" = Some (VInt medium)
    /\ dict_get m "low_value_orders" = Some (VInt low)
    /\ high = Z.of_nat (count_true (gt xs (quantile_values xs (9 # 10))))
    /\ medium = Z.of_nat (count_true (mask_and (ge xs (quantile_values xs (1 # 2)))
                                               (le xs (quantile_values xs (9 # 10)))))
    /\ low = Z.of_nat (count_true (lt xs (quantile_values xs (1 # 2))))
    /\ high + medium + low = len df - Z.of_nat (count_missing (Float64 xs))
    /\ (count_missing (Float64 xs) = 0%nat -> high + medium + low = len df).
Proof.
  intros Hwf Hc.
  assert (Hcol : has_column df "Amount" = true).
  { rewrite has_column_find. unfold getitem in Hc.
    destruct (find_column (columns df) "Amount"); [reflexivity|discriminate]. }
  assert (Hnum : numeric_or_absent df "Amount" = true).
  { unfold numeric_or_absent. unfold getitem in Hc.
    destruct (find_column (columns df) "Amount") as [[| |]|]; try discriminate; reflexivity. }
  pose proof (getitem_len df "Amount" _ Hwf Hc) as Hlen. simpl in Hlen.
  pose proof (length_dropna xs) as Hdrop.
  pose proof (value_segments xs) as Hseg.
  assert (Hsum :
    Z.of_nat (count_true (gt xs (quantile_values xs (9 # 10))))
    + Z.of_nat (count_true (mask_and (ge xs (quantile_values xs (1 # 2)))
                                     (le xs (quantile_values xs (9 # 10)))))
    + Z.of_nat (count_true (lt xs (quantile_values xs (1 # 2))))
    = len df - Z.of_nat (count_missing (Float64 xs))).
  { unfold count_missing, col_count, len. simpl. rewrite length_map. lia. }
  unfold get_revenue_analysis, series_sum, series_mean, series_median, series_std,
    series_max, series_min, series_quantile, series_compare, assign.
  rewrite Hcol, Hc. cbn [bind numeric].
  destruct (has_column df "currency") eqn:Hcur.
  - destruct (groupby_returns df "currency" ByFunction
                [("Amount", [AggSum; AggMean; AggCount])] Hcur) as [rows ->];
      [now apply spec_applies_numeric|].
    cbn [bind set_columns length agg_columns flat_map map app Nat.eqb frame_columns snd].
    eexists. do 3 eexists. split; [reflexivity|].
    repeat (split; [reflexivity|]). split; [exact Hsum|].
    intros H0. rewrite H0, Z.sub_0_r in Hsum. exact Hsum.
  - eexists. do 3 eexists. split; [reflexivity|].
    repeat (split; [reflexivity|]). split; [exact Hsum|].
    intros H0. rewrite H0, Z.sub_0_r in Hsum. exact Hsum.
Qed.

Lemma value_segments_total_witness :
  exists m high medium low,
    get_revenue_analysis missing_amount_df = OK m
    /\ dict_get m "high_value_orders" = Some (VInt high)
    /\ dict_get m "medium_value_orders" = Some (VInt medium)
    /\ dict_get m "low_value_orders" = Some (VInt low)
    /\ high = Z.of_nat (count_true (gt [Some 10%Q; None]
                                       (quantile_values [Some 10%Q; None] (9 # 10))))
    /\ medium = Z.of_nat (count_true
                            (mask_and (ge [Some 10%Q; None]
                                          (quantile_values [Some 10%Q; None] (1 # 2)))
                                      (le [Some 10%Q; None]
                                          (quantile_values [Some 10%Q; None] (9 # 10)))))
    /\ low = Z.of_nat (count_true (lt [Some 10%Q; None]
                                      (quantile_values [Some 10%Q; None] (1 # 2))))
    /\ high + medium + low
       = len missing_amount_df - Z.of_nat (count_missing (Float64 [Some 10%Q; None]))
    /\ (count_missing (Float64 [Some 10%Q; None]) = 0%nat ->
        high + medium + low = len missing_amount_df).
Proof.
  apply (value_segments_total missing_amount_df [Some 10%Q; None]); reflexivity.
Defined.

(** C7 as stated fails: a row whose amount is missing belongs to no segment,
    because every comparison with nan is false. *)
Lemma segments_skip_missing_amount : ~ segments_partition_rows missing_amount_df.
Proof.
  intros (m & h & md & l & Hm & Hh & Hmd & Hl & Hsum).
  vm_compute in Hm. injection Hm as <-.
  vm_compute in Hh, Hmd, Hl.
  injection Hh as <-. injection Hmd as <-. injection Hl as <-.
  vm_compute in Hsum. discriminate Hsum.
Qed.

(** ** get_sales_trends *)

Section TrendsProperties.

Variable pd_to_datetime : column -> result (list (option Timestamp)).

(** C6. When the values of the detected date column do not parse,
    [get_sales_trends] returns (it cannot raise: every raising step is inside
    the [try]) the mapping whose only key is [error]; [daily_sales] and
    [monthly_sales] are not in it.  The dataset is left exactly as it was, so
    every other engine function computes on it what it would have computed
    without the call. *)
Theorem unparseable_dates_are_reported (df : DataFrame) (date_col : string)
    (rest : list string) (c : column) (e : exn) :
  date_columns df = date_col :: rest ->
  getitem df date_col = OK c ->
  pd_to_datetime c = Raise e ->
  get_sales_trends pd_to_datetime df = (df, [("error", VStr (exn_str e))])
  /\ dict_mem (snd (get_sales_trends pd_to_datetime df)) "error" = true
  /\ dict_mem (snd (get_sales_trends pd_to_datetime df)) "daily_sales" = false
  /\ dict_mem (snd (get_sales_trends pd_to_datetime df)) "monthly_sales" = false
  /\ (forall (A : Type) (engine_function : DataFrame -> A),
        engine_function (fst (get_sales_trends pd_to_datetime df)) = engine_function df).
Proof.
  intros Hcols Hc He.
  assert (H : get_sales_trends pd_to_datetime df = (df, [("error", VStr (exn_str e))])).
  { unfold get_sales_trends. rewrite Hcols, Hc. cbn [bind]. rewrite He. reflexivity. }
  rewrite H. repeat split; reflexivity.
Qed.

End TrendsProperties.

Lemma unparseable_dates_are_reported_witness :
  get_sales_trends iso_to_datetime bad_date_df
  = (bad_date_df,
     [("error", VStr (exn_str (ValueError "Unknown datetime string format, unable to parse: soon")))])
  /\ dict_mem (snd (get_sales_trends iso_to_datetime bad_date_df)) "error" = true
  /\ dict_mem (snd (get_sales_trends iso_to_datetime bad_date_df)) "daily_sales" = false
  /\ dict_mem (snd (get_sales_trends iso_to_datetime bad_date_df)) "monthly_sales" = false
  /\ (forall (A : Type) (engine_function : DataFrame -> A),
        engine_function (fst (get_sales_trends iso_to_datetime bad_date_df))
        = engine_function bad_date_df).
Proof.
  apply (unparseable_dates_are_reported iso_to_datetime bad_date_df "Date" []
           (Object [Some "2022-04-30"; Some "soon"])); reflexivity.
Defined.

(** C2 on a dataset whose dates parse: the call replaces the strings of the
    [Date] column of its argument by timestamps, so a frequency table of that
    column computed after the call differs from one computed before. *)
Theorem sales_trends_rewrites_its_argument :
  fst (get_sales_trends iso_to_datetime dated_df)
  = mkDataFrame 2
      [ ("Date", Datetime64 [Some (mkTimestamp 2022 4 30 0); Some (mkTimestamp 2022 5 1 0)]);
        ("Amount", Float64 [Some 10%Q; Some 20%Q]);
        ("Qty", Float64 [Some 1%Q; Some 2%Q]) ]
  /\ fst (get_sales_trends iso_to_datetime dated_df) <> dated_df
  /\ series_value_counts (fst (get_sales_trends iso_to_datetime dated_df)) "Date"
     <> series_value_counts dated_df "Date".
Proof.
  split; [reflexivity|]. split; intros H; vm_compute in H; discriminate H.
Qed.

(** C5 on a dataset without the [Amount] column: the aggregation asks for a
    column that is not there, the KeyError is caught, and no table is
    returned. *)
Theorem sales_trends_without_amount :
  snd (get_sales_trends iso_to_datetime no_amount_df)
  = [("error", VStr (exn_str (KeyError "Amount")))]
  /\ dict_mem (snd (get_sales_trends iso_to_datetime no_amount_df)) "daily_sales" = false
  /\ dict_mem (snd (get_sales_trends iso_to_datetime no_amount_df)) "monthly_sales" = false.
Proof. repeat split; reflexivity. Qed.

(** ** get_sales_trends: what the call does to its argument *)

Lemma has_column_names df name :
  has_column df name = existsb (fun n => String.eqb n name) (map fst (columns df)).
Proof.
  unfold has_column. induction (columns df) as [|[n c] cs IH]; simpl; [reflexivity|].
  now rewrite IH.
Qed.

Lemma names_replace_column cs name c :
  In name (map fst cs) -> map fst (replace_column cs name c) = map fst cs.
Proof.
  induction cs as [|[n old] cs IH]; simpl; [intros []|].
  destruct (String.eqb_spec n name) as [->|Hne]; simpl; [reflexivity|].
  intros [H|H]; [contradiction|]. now rewrite IH.
Qed.

Lemma find_replace_same cs name c : find_column (replace_column cs name c) name = Some c.
Proof.
  induction cs as [|[n old] cs IH]; simpl.
  - now rewrite String.eqb_refl.
  - destruct (String.eqb n name) eqn:E; simpl; rewrite E; [reflexivity|exact IH].
Qed.

Lemma find_replace_other cs name c other :
  other <> name -> find_column (replace_column cs name c) other = find_column cs other.
Proof.
  intros Hne. induction cs as [|[n old] cs IH]; simpl.
  - destruct (String.eqb_spec name other); [congruence|reflexivity].
  - destruct (String.eqb_spec n name) as [->|]; simpl.
    + destruct (String.eqb_spec name other); [congruence|reflexivity].
    + destruct (String.eqb n other); [reflexivity|exact IH].
Qed.

Lemma date_columns_In df date_col rest :
  date_columns df = date_col :: rest -> In date_col (map fst (columns df)).
Proof.
  unfold date_columns. intros H.
  assert (Hin : In date_col (date_col :: rest)) by now left.
  rewrite <- H in Hin. apply filter_In in Hin. tauto.
Qed.

Lemma getitem_setitem_same df name c : getitem (setitem df name c) name = OK c.
Proof. unfold getitem, setitem. simpl. now rewrite find_replace_same. Qed.

Lemma getitem_setitem_other df name c other :
  other <> name -> getitem (setitem df name c) other = getitem df other.
Proof. intros H. unfold getitem, setitem. simpl. now rewrite find_replace_other. Qed.

Lemma has_column_setitem df name c other :
  In name (map fst (columns df)) ->
  has_column (setitem df name c) other = has_column df other.
Proof.
  intros H. rewrite !has_column_names. unfold setitem. simpl.
  now rewrite names_replace_column.
Qed.

Section Trends_frame.

Variable pd_to_datetime : column -> result (list (option Timestamp)).

(** The frame after the call is the frame before it, or the frame before it
    with the detected date column replaced by its parsed values. *)
Lemma sales_trends_argument df :
  fst (get_sales_trends pd_to_datetime df) = df
  \/ exists date_col rest c parsed,
       date_columns df = date_col :: rest
       /\ getitem df date_col = OK c
       /\ pd_to_datetime c = OK parsed
       /\ fst (get_sales_trends pd_to_datetime df) = setitem df date_col (Datetime64 parsed).
Proof.
  unfold get_sales_trends.
  destruct (date_columns df) as [|date_col rest] eqn:Hd; [now left|].
  destruct (getitem df date_col) as [c|e] eqn:Hc; cbn [bind]; [|now left].
  destruct (pd_to_datetime c) as [parsed|e] eqn:Hp; [|now left].
  right. exists date_col, rest, c, parsed. repeat split; try assumption.
  repeat match goal with
         | |- context [match ?x with _ => _ end] => destruct x
         end; reflexivity.
Qed.

(** X2.  The call changes its argument in no other way than by rewriting the
    detected date column: the row count, the column names and every other
    column stay, and without a date column nothing changes at all. *)
Theorem sales_trends_frame df :
  nrows (fst (get_sales_trends pd_to_datetime df)) = nrows df
  /\ map fst (columns (fst (get_sales_trends pd_to_datetime df))) = map fst (columns df)
  /\ (forall name, hd_error (date_columns df) <> Some name ->
                   getitem (fst (get_sales_trends pd_to_datetime df)) name = getitem df name)
  /\ (date_columns df = [] -> fst (get_sales_trends pd_to_datetime df) = df).
Proof.
  destruct (sales_trends_argument df) as [->|(d & rest & c & parsed & Hd & Hc & Hp & ->)].
  - repeat split; reflexivity.
  - split; [reflexivity|]. split; [|split].
    + simpl. apply names_replace_column. now apply (date_columns_In df d rest).
    + intros name Hname. apply getitem_setitem_other.
      rewrite Hd in Hname. simpl in Hname. congruence.
    + intros Hnil. rewrite Hnil in Hd. discriminate Hd.
Qed.

End Trends_frame.

Lemma find_column_map (f : column -> column) cs name :
  find_column (map (fun nc => (fst nc, f (snd nc))) cs) name
  = option_map f (find_column cs name).
Proof.
  induction cs as [|[n c] cs IH]; simpl; [reflexivity|].
  destruct (String.eqb n name); [reflexivity|exact IH].
Qed.

Lemma has_column_map (f : column -> column) r cs name :
  has_column (mkDataFrame r (map (fun nc => (fst nc, f (snd nc))) cs)) name
  = has_column (mkDataFrame r cs) name.
Proof. rewrite !has_column_names. simpl. now rewrite map_map. Qed.

Section Trends_tables.

Variable pd_to_datetime : column -> result (list (option Timestamp)).

Variables (df : DataFrame) (date_col : string) (rest : list string)
          (c : column) (parsed : list (option Timestamp)).
Hypothesis detected : date_columns df = date_col :: rest.
Hypothesis column_found : getitem df date_col = OK c.
Hypothesis dates_parse : pd_to_datetime c = OK parsed.

Lemma sort_values_parsed :
  sort_values (setitem df date_col (Datetime64 parsed)) date_col
  = OK (sorted_frame df date_col parsed).
Proof. unfold sort_values. rewrite getitem_setitem_same. reflexivity. Qed.

Lemma getitem_sorted_date :
  getitem (sorted_frame df date_col parsed) date_col
  = OK (Datetime64 (take (argsort (map (option_map LTime) parsed)) parsed)).
Proof.
  unfold getitem, sorted_frame. cbn [columns setitem].
  rewrite find_column_map, find_replace_same. reflexivity.
Qed.

Lemma has_column_sorted name :
  has_column (sorted_frame df date_col parsed) name = has_column df name.
Proof.
  unfold sorted_frame. rewrite has_column_map.
  apply (has_column_setitem df date_col (Datetime64 parsed) name).
  exact (date_columns_In df date_col rest detected).
Qed.

(** X4.  Without the [Amount] or the [Qty] column the function reports an
    error and returns no table, whatever the dates are. *)
Theorem sales_trends_needs_both_columns :
  has_column df "Amount" && has_column df "Qty" = false ->
  snd (get_sales_trends pd_to_datetime df)
  = [("error", VStr (if has_column df "Amount" then "Qty" else "Amount"))].
Proof.
  intros Hmiss. unfold get_sales_trends.
  rewrite detected, column_found. cbn [bind]. rewrite dates_parse.
  rewrite sort_values_parsed. cbn [bind]. rewrite getitem_sorted_date. cbn [bind dt_date].
  unfold groupby_agg, sales_spec. cbn [filter fst]. rewrite !has_column_sorted.
  destruct (has_column df "Amount"); [destruct (has_column df "Qty"); [discriminate|]|];
    reflexivity.
Qed.

End Trends_tables.

Lemma sales_trends_needs_both_columns_witness :
  snd (get_sales_trends iso_to_datetime no_amount_df)
  = [("error", VStr (if has_column no_amount_df "Amount" then "Qty" else "Amount"))].
Proof.
  apply (sales_trends_needs_both_columns iso_to_datetime no_amount_df "Date" []
           (Object [Some "2022-04-30"; Some "2022-05-01"])
           [Some (mkTimestamp 2022 4 30 0); Some (mkTimestamp 2022 5 1 0)]);
    reflexivity.
Defined.


Lemma mapM_ext {A B : Type} (f : A -> result B) (g : A -> B) (l : list A) :
  (forall a, f a = OK (g a)) -> mapM f l = OK (map g l).
Proof.
  intros H. induction l as [|a l IH]; simpl; [reflexivity|].
  now rewrite H, IH.
Qed.



Section Trends_sums.

Variable pd_to_datetime : column -> result (list (option Timestamp)).

Variables (df : DataFrame) (date_col : string) (rest : list string)
          (c : column) (parsed : list (option Timestamp))
          (amounts quantities : list (option Q)).
Hypothesis detected : date_columns df = date_col :: rest.
Hypothesis column_found : getitem df date_col = OK c.
Hypothesis dates_parse : pd_to_datetime c = OK parsed.
Hypothesis amount_column : getitem df "Amount" = OK (Float64 amounts).
Hypothesis quantity_column : getitem df "Qty" = OK (Float64 quantities).




End Trends_sums.



(** ** Inputs on which an engine function raises *)

(** C1 at five datasets.  A city column without a state column reads the
    unassigned local [total_orders]; a dataset without rows divides two
    Python ints by zero; a category column with only missing cells has an
    empty frequency table whose first label is asked for; the performance
    table counts an [Order ID] column that need not exist; and the revenue
    ranking of a dataset without rows has no first label. *)
Theorem engine_functions_raise :
  get_customer_insights city_only_df = Raise (UnboundLocalError "total_orders")
  /\ get_advanced_analytics no_rows_qty_df = Raise (ZeroDivisionError "division by zero")
  /\ get_key_metrics (mkDataFrame 1 [("Category", Object [None])])
     = Raise (IndexError "index 0 is out of bounds for axis 0 with size 0")
  /\ get_category_analysis
       (mkDataFrame 1 [ ("Category", Object [Some "Set"]);
                        ("Amount", Float64 [Some 10%Q]);
                        ("Qty", Float64 [Some 1%Q]) ])
     = Raise (KeyError "Order ID")
  /\ (forall format,
        create_executive_summary format
          (mkDataFrame 0 [("Category", Object []); ("Amount", Float64 [])])
        = Raise (IndexError "index 0 is out of bounds for axis 0 with size 0")).
Proof. repeat split. Qed.

(** ** Inputs on which an engine function raises, in general *)

(** X5.  A city column without a state column always ends in the
    UnboundLocalError. *)
Theorem customer_insights_needs_state (df : DataFrame) :
  has_column df "ship-city" = true ->
  has_column df "ship-state" = false ->
  get_customer_insights df = Raise (UnboundLocalError "total_orders").
Proof.
  intros Hcity Hstate. unfold get_customer_insights, series_value_counts.
  rewrite Hstate, Hcity. destruct (has_column_getitem df "ship-city" Hcity) as [c ->].
  reflexivity.
Qed.

Lemma customer_insights_needs_state_witness :
  get_customer_insights city_only_df = Raise (UnboundLocalError "total_orders").
Proof.
  apply (customer_insights_needs_state city_only_df); reflexivity.
Defined.

(** X6.  A numeric quantity column and no rows always end in the
    ZeroDivisionError. *)
Theorem advanced_analytics_needs_rows (df : DataFrame) (xs : list (option Q)) :
  nrows df = 0%nat ->
  getitem df "Qty" = OK (Float64 xs) ->
  get_advanced_analytics df = Raise (ZeroDivisionError "division by zero").
Proof.
  intros Hrows Hqty.
  assert (Hcol : has_column df "Qty" = true).
  { rewrite has_column_find. unfold getitem in Hqty.
    destruct (find_column (columns df) "Qty"); [reflexivity|discriminate]. }
  unfold get_advanced_analytics, series_mean, series_value_counts, series_compare, assign.
  rewrite Hcol, Hqty. cbn [bind numeric].
  assert (Hlen : len df = 0) by (unfold len; now rewrite Hrows).
  rewrite Hlen. reflexivity.
Qed.

Lemma advanced_analytics_needs_rows_witness :
  get_advanced_analytics no_rows_qty_df = Raise (ZeroDivisionError "division by zero").
Proof.
  apply (advanced_analytics_needs_rows no_rows_qty_df []); reflexivity.
Defined.

(** ** get_key_metrics returns exactly under [key_metrics_returns] *)

Lemma series_sum_numeric df name v :
  series_sum df name = OK v -> numeric_or_absent df name = true.
Proof.
  unfold series_sum, getitem, numeric_or_absent.
  destruct (find_column (columns df) name) as [[| |]|]; simpl; congruence.
Qed.

Lemma top_value_has_value df name v :
  top_value df name = OK v -> has_value_or_absent df name = true.
Proof.
  unfold top_value, series_value_counts, getitem, has_value_or_absent, len.
  destruct (find_column (columns df) name) as [c|]; [|reflexivity].
  destruct (nrows df) as [|n]; [reflexivity|]. cbn [Z.ltb Z.of_nat Z.compare bind Nat.eqb orb].
  unfold value_counts. destruct (labels c) as [|k ks]; [discriminate|reflexivity].
Qed.


(** ** get_shipping_analysis and get_product_analysis always return *)

Lemma revenue_by_returns df name first_column :
  has_column df name = true ->
  has_column df "Amount" = true ->
  numeric_or_absent df "Amount" = true ->
  exists t, revenue_by df name first_column = OK t.
Proof.
  intros Hn Ha Hnum. unfold revenue_by.
  destruct (groupby_returns df name ByFunction [("Amount", [AggSum; AggMean; AggCount])] Hn)
    as [rows ->]; [now apply spec_applies_numeric|].
  cbn. eauto.
Qed.

(** Forward execution of a body whose steps are known to return. *)
Ltac forward df :=
  repeat match goal with
         | |- context [if has_column df ?n then _ else _] =>
             let E := fresh "Hcol" in destruct (has_column df n) eqn:E
         | |- context [series_value_counts df ?n] =>
             let c := fresh "c" in
             unfold series_value_counts at 1;
             destruct (has_column_getitem df n) as [c ->]; [assumption|];
             cbn [bind assign]
         | |- context [revenue_by df ?n ?f] =>
             let t := fresh "t" in
             destruct (revenue_by_returns df n f) as [t ->]; [assumption..|];
             cbn [bind assign]
         end.

(** X11.  With a numeric or absent [Amount] column, [get_shipping_analysis]
    returns a mapping on every dataset. *)
Theorem get_shipping_analysis_returns (df : DataFrame) :
  numeric_or_absent df "Amount" = true -> exists m, get_shipping_analysis df = OK m.
Proof.
  intros Hnum. unfold get_shipping_analysis. forward df; cbn [bind]; eauto.
Qed.


Lemma get_shipping_analysis_returns_witness :
  exists m, get_shipping_analysis geo_df = OK m.
Proof. apply (get_shipping_analysis_returns geo_df); reflexivity. Defined.


(** ** The scenarios of the specification *)

(** The first scenario: three rows with amounts 10, 20, 30 and category "A". *)
Theorem key_metrics_scenario :
  exists m avg,
    get_key_metrics scenario_df = OK m
    /\ dict_get m "total_orders" = Some (VInt 3)
    /\ dict_get m "total_revenue" = Some (VNum (Fin 60))
    /\ dict_get m "avg_order_value" = Some avg /\ is_number avg 20
    /\ dict_get m "unique_categories" = Some (VInt 1)
    /\ dict_get m "top_category" = Some (VStr "A").
Proof.
  eexists. eexists. split; [reflexivity|].
  repeat split; reflexivity.
Qed.

(** The second scenario: a dataset without rows gives no exception, zero
    orders, the sentinel as top category and a shipped percentage of 0. *)
Theorem key_metrics_of_empty :
  exists m,
    get_key_metrics empty_df = OK m
    /\ dict_get m "total_orders" = Some (VInt 0)
    /\ dict_get m "top_category" = Some (VStr "N/A")
    /\ dict_get m "shipped_percentage" = Some (VInt 0).
Proof.
  eexists. split; [reflexivity|]. repeat split; reflexivity.
Qed.

(** ** Filtering by a status and counting the statuses *)

Lemma label_eqb_refl k : label_eqb k k = true.
Proof.
  destruct k as [s|q|t|y m d|y m]; simpl.
  - apply String.eqb_refl.
  - apply Qeq_bool_iff. reflexivity.
  - unfold Timestamp_eqb. now rewrite !Z.eqb_refl.
  - now rewrite !Z.eqb_refl.
  - now rewrite !Z.eqb_refl.
Qed.

Lemma tally_repeat_fold k n : forall m,
  fold_left (fun acc k => count_add k acc) (repeat k n) [(k, m)] = [(k, (m + n)%nat)].
Proof.
  induction n as [|n IH]; intros m; simpl.
  - now rewrite Nat.add_0_r.
  - rewrite label_eqb_refl, IH. do 2 f_equal. lia.
Qed.

Lemma tally_repeat k n : tally (repeat k (S n)) = [(k, S n)].
Proof. unfold tally. simpl. rewrite tally_repeat_fold. reflexivity. Qed.

Lemma select_eq_mask (xs : list (option string)) (s : string) :
  dropna (select (eq_mask (Object xs) s) xs)
  = repeat s (count_true (eq_mask (Object xs) s)).
Proof.
  unfold eq_mask, count_true. simpl.
  induction xs as [|[t|] xs IH]; simpl; [reflexivity| |exact IH].
  destruct (String.eqb_spec s t) as [->|]; simpl; [now rewrite IH|exact IH].
Qed.

Lemma count_true_eq_mask (xs : list (option string)) (s : string) :
  In (Some s) xs -> (0 < count_true (eq_mask (Object xs) s))%nat.
Proof.
  unfold eq_mask, count_true. simpl.
  induction xs as [|x xs IH]; simpl; [intros []|].
  intros [->|Hin].
  - simpl. rewrite String.eqb_refl. simpl. lia.
  - specialize (IH Hin). destruct x as [t|]; [|exact IH].
    simpl. destruct (String.eqb s t); simpl; lia.
Qed.

Lemma map_repeat {A B : Type} (f : A -> B) (a : A) (n : nat) :
  map f (repeat a n) = repeat (f a) n.
Proof. induction n as [|n IH]; simpl; [reflexivity|now rewrite IH]. Qed.

(** X10.  Filtering a dataset by a status that occurs in it and computing the
    key metrics of the result gives a [status_distribution] with that status
    as its only key, mapped to the number of rows kept. *)
Theorem status_distribution_after_filter (df filtered : DataFrame)
    (xs : list (option string)) (s : string) (m : dict) :
  getitem df "Status" = OK (Object xs) ->
  In (Some s) xs ->
  filter_by_status df s = OK filtered ->
  get_key_metrics filtered = OK m ->
  dict_get m "status_distribution" = Some (VCounts [(LStr s, len filtered)]).
Proof.
  intros Hc Hin Hf Hm.
  unfold filter_by_status in Hf. rewrite Hc in Hf. cbn [bind] in Hf. injection Hf as <-.
  assert (Hcol : getitem (boolean_index df (eq_mask (Object xs) s)) "Status"
                 = OK (Object (select (eq_mask (Object xs) s) xs))).
  { unfold getitem, boolean_index in *. cbn [columns].
    rewrite find_column_map.
    destruct (find_column (columns df) "Status"); [|discriminate].
    injection Hc as ->. reflexivity. }
  assert (Hvc : value_counts (Object (select (eq_mask (Object xs) s) xs))
                = [(LStr s, count_true (eq_mask (Object xs) s))]).
  { unfold value_counts, labels. rewrite select_eq_mask, map_repeat.
    pose proof (count_true_eq_mask xs s Hin) as Hpos.
    destruct (count_true (eq_mask (Object xs) s)) as [|n]; [lia|].
    rewrite tally_repeat. reflexivity. }
  assert (Hhas : has_column (boolean_index df (eq_mask (Object xs) s)) "Status" = true).
  { rewrite has_column_find. unfold getitem in Hcol.
    destruct (find_column _ "Status"); [reflexivity|discriminate]. }
  unfold get_key_metrics, series_value_counts in Hm.
  rewrite Hhas, Hcol in Hm. cbn [bind] in Hm. rewrite Hvc in Hm.
  run; reflexivity.
Qed.

Lemma status_distribution_after_filter_witness :
  dict_get
    [ ("total_orders", VInt 1); ("total_revenue", VNum (Fin 10));
      ("avg_order_value", VNum (Fin (10 # 1))); ("total_quantity", VInt 0);
      ("revenue_std", VNum NaN); ("median_order_value", VNum (Fin (20 # 2)));
      ("max_order_value", VNum (Fin 10)); ("min_order_value", VNum (Fin 10));
      ("unique_categories", VInt 1); ("top_category", VStr "A");
      ("status_distribution", VCounts [(LStr "Shipped", 1)]);
      ("shipped_percentage", VNum (Fin (100 # 1))) ]
    "status_distribution"
  = Some (VCounts [(LStr "Shipped",
                    len (mkDataFrame 1
                           [ ("Amount", Float64 [Some 10%Q]);
                             ("Category", Object [Some "A"]);
                             ("Status", Object [Some "Shipped"]) ]))]).
Proof.
  apply (status_distribution_after_filter status_df _
           [Some "Shipped"; Some "Cancelled"; None] "Shipped");
    [reflexivity|simpl; left; reflexivity|reflexivity|reflexivity].
Defined.

(** ** Labels are compared by an equivalence *)

Lemma Timestamp_eqb_eq a b : Timestamp_eqb a b = true <-> a = b.
Proof.
  unfold Timestamp_eqb. destruct a as [y m d n], b as [y' m' d' n']. simpl.
  rewrite !andb_true_iff, !Z.eqb_eq. split.
  - intros [[[-> ->] ->] ->]. reflexivity.
  - intros H. injection H as -> -> -> ->. auto.
Qed.

Lemma label_eqb_sym a b : label_eqb a b = label_eqb b a.
Proof.
  destruct a, b; simpl; try reflexivity.
  - apply String.eqb_sym.
  - apply eq_true_iff_eq. rewrite !Qeq_bool_iff. split; intros H; now symmetry.
  - apply eq_true_iff_eq. rewrite !Timestamp_eqb_eq. split; congruence.
  - now rewrite (Z.eqb_sym y), (Z.eqb_sym m), (Z.eqb_sym d).
  - now rewrite (Z.eqb_sym y), (Z.eqb_sym m).
Qed.

Lemma label_eqb_trans a b c :
  label_eqb a b = true -> label_eqb b c = true -> label_eqb a c = true.
Proof.
  destruct a, b, c; simpl; try discriminate.
  - rewrite !String.eqb_eq. congruence.
  - rewrite !Qeq_bool_iff. intros H1 H2. now rewrite H1.
  - rewrite !Timestamp_eqb_eq. congruence.
  - rewrite !andb_true_iff, !Z.eqb_eq. intuition congruence.
  - rewrite !andb_true_iff, !Z.eqb_eq. intuition congruence.
Qed.

(** Equal labels are equal to the same labels. *)
Lemma label_eqb_congr a b c : label_eqb a b = true -> label_eqb a c = label_eqb b c.
Proof.
  intros H. apply eq_true_iff_eq. split; intros H'.
  - apply (label_eqb_trans b a c); [now rewrite label_eqb_sym|exact H'].
  - exact (label_eqb_trans a b c H H').
Qed.

(** ** A frequency table holds the number of occurrences of every label *)

Lemma counts_get_count_add x acc k :
  counts_get (count_add x acc) k
  = (counts_get acc k + if label_eqb k x then 1 else 0)%nat.
Proof.
  induction acc as [|[k' n] acc IH]; simpl.
  - destruct (label_eqb k x); reflexivity.
  - destruct (label_eqb x k') eqn:Ex; simpl.
    + destruct (label_eqb k k') eqn:Ek.
      * assert (label_eqb k x = true) as ->; [|lia].
        apply (label_eqb_trans k k' x Ek). now rewrite label_eqb_sym.
      * assert (label_eqb k x = false) as ->; [|lia].
        rewrite label_eqb_sym, (label_eqb_congr x k' k Ex), label_eqb_sym. exact Ek.
    + destruct (label_eqb k k') eqn:Ek; [|exact IH].
      assert (label_eqb k x = false) as ->; [|lia].
      rewrite (label_eqb_congr k k' x Ek), label_eqb_sym. exact Ex.
Qed.

Lemma counts_get_fold ks : forall acc k,
  counts_get (fold_left (fun acc x => count_add x acc) ks acc) k
  = (counts_get acc k + count_of k ks)%nat.
Proof.
  unfold count_of. induction ks as [|x ks IH]; intros acc k; simpl; [lia|].
  rewrite IH, counts_get_count_add. destruct (label_eqb k x); simpl; lia.
Qed.

Lemma counts_get_tally ks k : counts_get (tally ks) k = count_of k ks.
Proof. unfold tally. now rewrite counts_get_fold. Qed.

Lemma keys_distinct_count_add x acc : keys_distinct acc -> keys_distinct (count_add x acc).
Proof.
  induction acc as [|[k' n] acc IH]; simpl.
  - intros _. split; [intros y []|exact I].
  - intros [Hk Hd]. destruct (label_eqb x k') eqn:Ex; simpl.
    + split; assumption.
    + split; [|now apply IH].
      intros y Hy. apply In_count_add in Hy as [Hy|[m Hy]].
      * rewrite Hy. now rewrite label_eqb_sym.
      * exact (Hk _ Hy).
Qed.

Lemma keys_distinct_fold ks : forall acc,
  keys_distinct acc -> keys_distinct (fold_left (fun acc x => count_add x acc) ks acc).
Proof.
  induction ks as [|x ks IH]; intros acc H; simpl; [exact H|].
  apply IH. now apply keys_distinct_count_add.
Qed.

Lemma In_insert_desc_iff y x l : In y (insert_desc x l) <-> y = x \/ In y l.
Proof.
  induction l as [|z l IH]; simpl; [intuition|].
  destruct (snd z <=? snd x)%nat; simpl; [intuition|]. rewrite IH. intuition.
Qed.

Lemma In_sort_desc_iff y l : In y (sort_desc l) <-> In y l.
Proof.
  induction l as [|x l IH]; simpl; [reflexivity|].
  rewrite In_insert_desc_iff, IH. intuition.
Qed.

Lemma keys_distinct_insert_desc x l :
  (forall y, In y l -> label_eqb (fst x) (fst y) = false) ->
  keys_distinct l -> keys_distinct (insert_desc x l).
Proof.
  induction l as [|z l IH]; simpl; intros Hx Hl.
  - split; [intros y []|exact I].
  - destruct Hl as [Hz Hl]. destruct (snd z <=? snd x)%nat; simpl.
    + repeat split; assumption.
    + split.
      * intros y Hy. apply -> In_insert_desc_iff in Hy; destruct Hy as [->|Hy].
        -- rewrite label_eqb_sym. apply Hx. now left.
        -- now apply Hz.
      * apply IH; [|exact Hl]. intros y Hy. apply Hx. now right.
Qed.

Lemma keys_distinct_sort_desc l : keys_distinct l -> keys_distinct (sort_desc l).
Proof.
  induction l as [|x l IH]; simpl; [auto|]. intros [Hx Hl].
  apply keys_distinct_insert_desc; [|now apply IH].
  intros y Hy. apply Hx. now apply -> In_sort_desc_iff.
Qed.

Lemma keys_distinct_value_counts c : keys_distinct (value_counts c).
Proof.
  unfold value_counts, tally. apply keys_distinct_sort_desc, keys_distinct_fold. exact I.
Qed.

Lemma descending_insert_desc x l : descending l -> descending (insert_desc x l).
Proof.
  induction l as [|z l IH]; simpl; intros Hl.
  - split; [intros y []|exact I].
  - destruct Hl as [Hz Hl]. destruct (snd z <=? snd x)%nat eqn:E; simpl.
    + apply Nat.leb_le in E. repeat split; try assumption.
      intros y [<-|Hy]; [exact E|]. specialize (Hz y Hy). lia.
    + apply Nat.leb_gt in E. split; [|now apply IH].
      intros y Hy. apply -> In_insert_desc_iff in Hy; destruct Hy as [->|Hy]; [lia|now apply Hz].
Qed.

Lemma descending_sort_desc l : descending (sort_desc l).
Proof.
  induction l as [|x l IH]; simpl; [exact I|now apply descending_insert_desc].
Qed.

(** Looking a label up finds the entry with that label. *)
Lemma counts_get_In s k k' n :
  keys_distinct s -> In (k', n) s -> label_eqb k k' = true -> counts_get s k = n.
Proof.
  induction s as [|[k0 n0] s IH]; simpl; [intros _ []|].
  intros [H0 Hs] [Hin|Hin] Hk.
  - injection Hin as -> ->. now rewrite Hk.
  - destruct (label_eqb k k0) eqn:E; [|now apply IH].
    specialize (H0 _ Hin). simpl in H0.
    rewrite (label_eqb_congr k k0 k' E) in Hk. congruence.
Qed.

Lemma counts_get_positive s k :
  (0 < counts_get s k)%nat ->
  exists k' , In (k', counts_get s k) s /\ label_eqb k k' = true.
Proof.
  induction s as [|[k0 n0] s IH]; simpl; [lia|].
  destruct (label_eqb k k0) eqn:E.
  - intros _. exists k0. split; [now left|exact E].
  - intros H. destruct (IH H) as (k' & Hin & Hk). exists k'. split; [now right|exact Hk].
Qed.

(** Every entry of [value_counts] holds the number of cells equal to its
    label. *)
Lemma value_counts_entry c k n :
  In (k, n) (value_counts c) -> n = count_of k (labels c).
Proof.
  intros Hin. unfold value_counts in Hin. apply -> In_sort_desc_iff in Hin.
  rewrite <- (counts_get_tally (labels c) k). symmetry.
  apply (counts_get_In (tally (labels c)) k k n);
    [apply keys_distinct_fold; exact I|exact Hin|apply label_eqb_refl].
Qed.

Lemma counts_get_value_counts c k :
  counts_get (value_counts c) k = count_of k (labels c).
Proof.
  destruct (Nat.eq_0_gt_0_cases (count_of k (labels c))) as [H0|Hpos].
  - rewrite H0. apply Nat.le_0_r.
    destruct (Nat.eq_0_gt_0_cases (counts_get (value_counts c) k)) as [E|E]; [lia|].
    destruct (counts_get_positive _ _ E) as (k' & Hin & Hk).
    apply value_counts_entry in Hin.
    assert (count_of k' (labels c) = count_of k (labels c)) as Hc.
    { unfold count_of. f_equal. apply filter_ext. intros x.
      symmetry. now apply label_eqb_congr. }
    lia.
  - rewrite <- (counts_get_tally (labels c) k) in Hpos.
    destruct (counts_get_positive _ _ Hpos) as (k' & Hin & Hk).
    rewrite counts_get_tally in Hin.
    apply (counts_get_In (value_counts c) k k' _ (keys_distinct_value_counts c));
      [|exact Hk].
    unfold value_counts. now apply <- In_sort_desc_iff.
Qed.

Lemma count_of_positive k ks : In k ks -> (0 < count_of k ks)%nat.
Proof.
  unfold count_of. induction ks as [|x ks IH]; simpl; [intros []|].
  intros [->|H].
  - rewrite label_eqb_refl. simpl. lia.
  - destruct (label_eqb k x); simpl; [lia|now apply IH].
Qed.

Lemma value_counts_complete c k :
  In k (labels c) ->
  exists k', In (k', count_of k (labels c)) (value_counts c) /\ label_eqb k k' = true.
Proof.
  intros Hin. pose proof (count_of_positive k _ Hin) as Hpos.
  rewrite <- counts_get_value_counts in Hpos |- *.
  now apply counts_get_positive.
Qed.

Lemma descending_head k n rest y :
  descending ((k, n) :: rest) -> In y ((k, n) :: rest) -> (snd y <= n)%nat.
Proof. simpl. intros [H _] [<-|Hy]; [simpl; lia|exact (H y Hy)]. Qed.

(** The first label of a frequency table is a most frequent label. *)
Lemma first_label_is_mode c k n rest :
  value_counts c = (k, n) :: rest ->
  In k (labels c)
  /\ n = count_of k (labels c)
  /\ forall k', (count_of k' (labels c) <= count_of k (labels c))%nat.
Proof.
  intros E.
  assert (Hin : In (k, n) (value_counts c)) by (rewrite E; now left).
  pose proof (value_counts_entry c k n Hin) as Hn.
  split; [exact (In_value_counts k n c Hin)|]. split; [exact Hn|].
  intros k'. destruct (Nat.eq_0_gt_0_cases (count_of k' (labels c))) as [->|Hpos]; [lia|].
  rewrite <- counts_get_value_counts in Hpos.
  destruct (counts_get_positive _ _ Hpos) as (k'' & Hin' & _).
  rewrite counts_get_value_counts in Hin'. rewrite E in Hin'.
  pose proof (descending_sort_desc (tally (labels c))) as Hd.
  fold (value_counts c) in Hd. rewrite E in Hd.
  pose proof (descending_head k n rest _ Hd Hin') as Hle. simpl in Hle. lia.
Qed.

Lemma top_value_is_mode df name c v :
  getitem df name = OK c -> 0 < len df -> top_value df name = OK v ->
  exists k, v = label_value k
            /\ In k (labels c)
            /\ forall k', (count_of k' (labels c) <= count_of k (labels c))%nat.
Proof.
  intros Hc Hpos. unfold top_value, series_value_counts. rewrite Hc.
  apply Z.ltb_lt in Hpos. rewrite Hpos. cbn [bind].
  destruct (value_counts c) as [|[k n] rest] eqn:E; simpl; [discriminate|].
  intros H. injection H as <-. exists k. split; [reflexivity|].
  destruct (first_label_is_mode c k n rest E) as (H1 & _ & H3). auto.
Qed.

(** X13.  On a dataset with rows, [top_category], [top_state] and [top_city]
    are values of their column that no other value of the column outnumbers. *)
Theorem top_values_are_most_frequent (df : DataFrame) (m : dict) :
  0 < len df ->
  get_key_metrics df = OK m ->
  forall key name c,
    In (key, name) [ ("top_category", "Category"); ("top_state", "ship-state");
                     ("top_city", "ship-city") ] ->
    getitem df name = OK c ->
    exists k, dict_get m key = Some (label_value k)
              /\ In k (labels c)
              /\ forall k', (count_of k' (labels c) <= count_of k (labels c))%nat.
Proof.
  intros Hpos Hm key name c Hin Hc.
  assert (Hcol : has_column df name = true).
  { rewrite has_column_find. unfold getitem in Hc.
    destruct (find_column (columns df) name); [reflexivity|discriminate]. }
  assert (Hv : exists v, top_value df name = OK v /\ dict_get m key = Some v).
  { unfold get_key_metrics in Hm. simpl in Hin.
    destruct Hin as [Hin|[Hin|[Hin|[]]]]; injection Hin as <- <-;
      rewrite Hcol in Hm; run; eexists; (split; [eassumption|reflexivity]). }
  destruct Hv as (v & Hv & Hget).
  destruct (top_value_is_mode df name c v Hc Hpos Hv) as (k & -> & Hk).
  exists k. split; [exact Hget|exact Hk].
Qed.

Lemma top_values_are_most_frequent_witness :
  exists k,
    dict_get (returned (get_key_metrics geo_df)) "top_state" = Some (label_value k)
    /\ In k (labels (Object [Some "MH"; Some "KA"; Some "MH"]))
    /\ forall k', (count_of k' (labels (Object [Some "MH"; Some "KA"; Some "MH"]))
                   <= count_of k (labels (Object [Some "MH"; Some "KA"; Some "MH"])))%nat.
Proof.
  apply (top_values_are_most_frequent geo_df (returned (get_key_metrics geo_df)))
    with (name := "ship-state");
    [reflexivity|reflexivity|simpl; right; left; reflexivity|reflexivity].
Defined.

(** X20.  [category_counts] is the frequency table of the category column:
    one entry per category that occurs, holding the number of rows with that
    category, the entries in descending order of their counts;
    [top_categories] is its first ten entries. *)
Theorem category_counts_structure (df : DataFrame) (c : column) (m : dict) :
  getitem df "Category" = OK c ->
  get_category_analysis df = OK m ->
  dict_get m "category_counts" = Some (to_dict (value_counts c))
  /\ dict_get m "top_categories" = Some (to_dict (firstn 10 (value_counts c)))
  /\ keys_distinct (value_counts c)
  /\ descending (value_counts c)
  /\ (forall k n, In (k, n) (value_counts c) ->
                  In k (labels c) /\ n = count_of k (labels c) /\ (0 < n)%nat)
  /\ (forall k, In k (labels c) ->
                exists k', In (k', count_of k (labels c)) (value_counts c)
                           /\ label_eqb k k' = true).
Proof.
  intros Hc Hm.
  assert (Hcol : has_column df "Category" = true).
  { rewrite has_column_find. unfold getitem in Hc.
    destruct (find_column (columns df) "Category"); [reflexivity|discriminate]. }
  unfold get_category_analysis, series_value_counts in Hm.
  rewrite Hcol, Hc in Hm. cbn [bind] in Hm. unfold head in Hm.
  split; [run; reflexivity|]. split; [run; reflexivity|].
  split; [apply keys_distinct_value_counts|].
  split; [apply descending_sort_desc|].
  split; [|apply value_counts_complete].
  intros k n Hin. pose proof (In_value_counts k n c Hin) as Hk.
  pose proof (value_counts_entry c k n Hin) as Hn.
  pose proof (count_of_positive k _ Hk). repeat split; [exact Hk|exact Hn|lia].
Qed.

Lemma category_counts_structure_witness :
  dict_get [ ("category_counts", VCounts [(LStr "A", 1)]);
             ("top_categories", VCounts [(LStr "A", 1)]) ] "category_counts"
  = Some (to_dict (value_counts (Object [Some "A"; None])))
  /\ dict_get [ ("category_counts", VCounts [(LStr "A", 1)]);
                ("top_categories", VCounts [(LStr "A", 1)]) ] "top_categories"
     = Some (to_dict (firstn 10 (value_counts (Object [Some "A"; None]))))
  /\ keys_distinct (value_counts (Object [Some "A"; None]))
  /\ descending (value_counts (Object [Some "A"; None]))
  /\ (forall k n, In (k, n) (value_counts (Object [Some "A"; None])) ->
                  In k (labels (Object [Some "A"; None]))
                  /\ n = count_of k (labels (Object [Some "A"; None])) /\ (0 < n)%nat)
  /\ (forall k, In k (labels (Object [Some "A"; None])) ->
                exists k', In (k', count_of k (labels (Object [Some "A"; None])))
                              (value_counts (Object [Some "A"; None]))
                           /\ label_eqb k k' = true).
Proof.
  apply (category_counts_structure missing_category_df (Object [Some "A"; None]));
    reflexivity.
Defined.

(** ** Order statistics *)












Lemma getitem_has_column df name c : getitem df name = OK c -> has_column df name = true.
Proof.
  rewrite has_column_find. unfold getitem.
  destruct (find_column (columns df) name); [reflexivity|discriminate].
Qed.






(** ** A dataset without rows *)

Lemma has_value_without_rows df name : nrows df = 0%nat -> has_value_or_absent df name = true.
Proof.
  intros H. unfold has_value_or_absent. rewrite H.
  destruct (find_column (columns df) name); reflexivity.
Qed.

Lemma numeric_without_rows df name :
  well_formed df = true -> nrows df = 0%nat ->
  has_column df name = true -> numeric_or_absent df name = true ->
  getitem df name = OK (Float64 []).
Proof.
  intros Hwf Hrows Hcol Hnum.
  destruct (has_column_getitem df name Hcol) as [c Hc].
  pose proof (getitem_len df name c Hwf Hc) as Hlen. rewrite Hrows in Hlen.
  unfold numeric_or_absent in Hnum. unfold getitem in Hc |- *.
  destruct (find_column (columns df) name) as [c'|]; [|discriminate].
  injection Hc as ->. destruct c as [xs|xs|xs]; try discriminate.
  destruct xs; [reflexivity|discriminate].
Qed.

Lemma counts_without_rows df name c :
  well_formed df = true -> nrows df = 0%nat ->
  getitem df name = OK c -> value_counts c = [].
Proof.
  intros Hwf Hrows Hc.
  pose proof (getitem_len df name c Hwf Hc) as Hlen. rewrite Hrows in Hlen.
  destruct c as [xs|xs|xs]; (destruct xs; [reflexivity|discriminate]).
Qed.

(** X9.  On every well-formed dataset without rows whose [Amount] and [Qty]
    columns are numeric or absent, [get_key_metrics] returns: zero orders;
    with an [Amount] column a total revenue of 0 but a mean, median, maximum,
    minimum and standard deviation that are NaN (they are not defaulted); the
    sentinel ['N/A'] for the top category, state and city whose column is
    present; and with a [Status] column an empty status distribution and the
    integer 0 as shipped percentage. *)
Theorem key_metrics_without_rows (df : DataFrame) :
  well_formed df = true ->
  nrows df = 0%nat ->
  numeric_or_absent df "Amount" = true ->
  numeric_or_absent df "Qty" = true ->
  exists m,
    get_key_metrics df = OK m
    /\ dict_get m "total_orders" = Some (VInt 0)
    /\ (has_column df "Amount" = true ->
        dict_get m "total_revenue" = Some (VNum (Fin 0))
        /\ dict_get m "avg_order_value" = Some (VNum NaN)
        /\ dict_get m "revenue_std" = Some (VNum NaN)
        /\ dict_get m "median_order_value" = Some (VNum NaN)
        /\ dict_get m "max_order_value" = Some (VNum NaN)
        /\ dict_get m "min_order_value" = Some (VNum NaN))
    /\ (forall key name,
          In (key, name) [ ("top_category", "Category"); ("top_state", "ship-state");
                           ("top_city", "ship-city") ] ->
          has_column df name = true -> dict_get m key = Some (VStr "N/A"))
    /\ (has_column df "Status" = true ->
        dict_get m "status_distribution" = Some (VCounts [])
        /\ dict_get m "shipped_percentage" = Some (VInt 0)).
Proof.
  intros Hwf Hrows Ha Hq.
  destruct (get_key_metrics_returns df) as [m Hm].
  { unfold key_metrics_returns. rewrite Ha, Hq, !has_value_without_rows by assumption.
    reflexivity. }
  assert (Hlen : len df = 0) by (unfold len; rewrite Hrows; reflexivity).
  exists m. split; [exact Hm|]. unfold get_key_metrics in Hm.
  split; [|split; [|split]].
  - rewrite Hlen in Hm. run; reflexivity.
  - intros Hcol.
    pose proof (numeric_without_rows df "Amount" Hwf Hrows Hcol Ha) as Hc.
    unfold series_sum, series_mean, series_std, series_median, series_max, series_min in Hm.
    rewrite Hcol, Hc in Hm. cbn [bind numeric] in Hm.
    run; repeat split; reflexivity.
  - intros key name Hin Hcol.
    assert (Hv : top_value df name = OK (VStr "N/A")).
    { unfold top_value. rewrite Hlen. reflexivity. }
    simpl in Hin. destruct Hin as [Hin|[Hin|[Hin|[]]]]; injection Hin as <- <-;
      rewrite Hcol, Hv in Hm; run; reflexivity.
  - intros Hcol.
    destruct (has_column_getitem df "Status" Hcol) as [c Hc].
    pose proof (counts_without_rows df "Status" c Hwf Hrows Hc) as Hvc.
    unfold series_value_counts in Hm.
    rewrite Hcol, Hc, Hlen in Hm. cbn [bind] in Hm. rewrite Hvc in Hm.
    change (0 <? 0) with false in Hm. cbn iota in Hm.
    run; split; reflexivity.
Qed.

Lemma key_metrics_without_rows_witness :
  exists m,
    get_key_metrics empty_df = OK m
    /\ dict_get m "total_orders" = Some (VInt 0)
    /\ (has_column empty_df "Amount" = true ->
        dict_get m "total_revenue" = Some (VNum (Fin 0))
        /\ dict_get m "avg_order_value" = Some (VNum NaN)
        /\ dict_get m "revenue_std" = Some (VNum NaN)
        /\ dict_get m "median_order_value" = Some (VNum NaN)
        /\ dict_get m "max_order_value" = Some (VNum NaN)
        /\ dict_get m "min_order_value" = Some (VNum NaN))
    /\ (forall key name,
          In (key, name) [ ("top_category", "Category"); ("top_state", "ship-state");
                           ("top_city", "ship-city") ] ->
          has_column empty_df name = true -> dict_get m key = Some (VStr "N/A"))
    /\ (has_column empty_df "Status" = true ->
        dict_get m "status_distribution" = Some (VCounts [])
        /\ dict_get m "shipped_percentage" = Some (VInt 0)).
Proof.
  apply (key_metrics_without_rows empty_df); reflexivity.
Defined.

(** ** get_customer_insights: when it returns *)

(** X14.  [get_customer_insights] returns a mapping exactly on the datasets
    where a [ship-city] column comes with a [ship-state] column; no content
    of the columns, and no absence of rows, makes it raise. *)
Theorem get_customer_insights_returns_iff (df : DataFrame) :
  (exists m, get_customer_insights df = OK m)
  <-> (has_column df "ship-city" = true -> has_column df "ship-state" = true).
Proof.
  unfold get_customer_insights, series_value_counts, assign. split.
  - intros [m H] Hcity. destruct (has_column df "ship-state") eqn:Hstate; [reflexivity|].
    rewrite Hcity in H. destruct (has_column_getitem df "ship-city" Hcity) as [c Hc].
    rewrite Hc in H. discriminate H.
  - intros Himp.
    destruct (has_column df "ship-state") eqn:Hstate.
    + destruct (has_column_getitem df "ship-state" Hstate) as [c ->]. cbn [bind fst snd].
      repeat match goal with
             | |- context [if has_column df ?n then _ else _] =>
                 let E := fresh "Hcol" in
                 destruct (has_column df n) eqn:E;
                 [destruct (has_column_getitem df n E) as [? ->]|]
             end; cbn; eauto.
    + destruct (has_column df "ship-city") eqn:Hcity; [discriminate (Himp eq_refl)|].
      cbn [bind fst snd].
      repeat match goal with
             | |- context [if has_column df ?n then _ else _] =>
                 let E := fresh "Hcol" in
                 destruct (has_column df n) eqn:E;
                 [destruct (has_column_getitem df n E) as [? ->]|]
             end; cbn; eauto.
Qed.

(** ** get_advanced_analytics *)

Lemma counts_mem_value_counts c s :
  counts_mem (value_counts c) (LStr s) = true <-> In (LStr s) (labels c).
Proof.
  unfold counts_mem. rewrite existsb_exists. split.
  - intros ([k n] & Hin & Heq). simpl in Heq. apply label_eqb_str in Heq. subst k.
    exact (In_value_counts _ _ _ Hin).
  - intros Hin. destruct (value_counts_complete c _ Hin) as (k' & Hin' & Heq).
    exists (k', count_of (LStr s) (labels c)). split; [exact Hin'|exact Heq].
Qed.

Lemma length_select_le {A : Type} (mask : list bool) (xs : list A) :
  (length (filter (fun b => b) mask) <= length mask)%nat.
Proof. induction mask as [|[|] mask IH]; simpl; lia. Qed.

Lemma py_percentage_bounds (count : nat) (total : Z) (p : num) :
  Z.of_nat count <= total ->
  py_percentage (Z.of_nat count) total = OK p ->
  0 < total /\ exists q, p = Fin q /\ (0 <= q <= 100)%Q.
Proof.
  unfold py_percentage. intros Hle. destruct (total =? 0) eqn:E; [discriminate|].
  apply Z.eqb_neq in E. intros H. injection H as <-.
  assert (Hpos : 0 < total) by lia. split; [exact Hpos|].
  eexists. split; [reflexivity|]. now apply percentage_bounds.
Qed.

Lemma bulk_orders_le df t mask :
  well_formed df = true ->
  series_compare gt df "Qty" t = OK mask ->
  len (boolean_index df mask) <= len df.
Proof.
  intros Hwf. unfold series_compare.
  destruct (getitem df "Qty") as [c|] eqn:Hc; [|discriminate]. cbn [bind].
  destruct c as [xs|xs|xs]; try discriminate. cbn [bind numeric].
  intros H. injection H as <-.
  pose proof (getitem_len df "Qty" _ Hwf Hc) as Hlen. simpl in Hlen.
  unfold len, boolean_index, gt, compare_with. cbn [nrows].
  match goal with
  | |- Z.of_nat (length (filter _ ?m)) <= _ =>
      pose proof (length_select_le (A := unit) m []) as Hle;
      assert (Hm : length m = length xs) by apply length_map
  end.
  lia.
Qed.

(** [run], also through the test for a "Shipped" status. *)
Ltac run_status :=
  run;
  repeat (match goal with
          | H : (if counts_mem ?s ?k then _ else _) = OK _ |- _ =>
              let E := fresh "Hmem" in destruct (counts_mem s k) eqn:E
          end; run).

(** X15.  On a well-formed dataset with rows on which
    [get_advanced_analytics] returns: with a [Qty] column
    [bulk_orders_percentage] is between 0 and 100; with a [Category] column
    [top_3_categories_concentration] is between 0 and 100; and with a
    [Status] column [fulfillment_rate] is present exactly when some row has
    the status "Shipped", and is then above 0 and at most 100. *)
Theorem advanced_percentages_bounds (df : DataFrame) (m : dict) :
  well_formed df = true ->
  0 < len df ->
  get_advanced_analytics df = OK m ->
  (has_column df "Qty" = true ->
     exists q, dict_get m "bulk_orders_percentage" = Some (VNum (Fin q))
               /\ (0 <= q <= 100)%Q)
  /\ (has_column df "Category" = true ->
        exists q, dict_get m "top_3_categories_concentration" = Some (VNum (Fin q))
                  /\ (0 <= q <= 100)%Q)
  /\ (forall c, getitem df "Status" = OK c ->
        (In (LStr "Shipped") (labels c) ->
           exists q, dict_get m "fulfillment_rate" = Some (VNum (Fin q))
                     /\ (0 < q <= 100)%Q)
        /\ (~ In (LStr "Shipped") (labels c) -> dict_get m "fulfillment_rate" = None)).
Proof.
  intros Hwf Hpos H. unfold get_advanced_analytics in H. split; [|split].
  - intros Hcol. rewrite Hcol in H.
    assert (Hp : exists mask p,
               series_compare gt df "Qty" (Fin 1) = OK mask
               /\ py_percentage (len (boolean_index df mask)) (len df) = OK p
               /\ dict_get m "bulk_orders_percentage" = Some (VNum p)).
    { run_status; do 2 eexists; (split; [eassumption|split; [eassumption|reflexivity]]). }
    destruct Hp as (mask & p & Hmask & Hp & Hget).
    pose proof (bulk_orders_le df _ mask Hwf Hmask) as Hle.
    unfold len at 1 in Hp. unfold len at 1 in Hle.
    destruct (py_percentage_bounds _ _ p Hle Hp) as (_ & q & -> & Hq). eauto.
  - intros Hcol. rewrite Hcol in H.
    destruct (has_column_getitem df "Category" Hcol) as [c Hc].
    unfold series_value_counts in H. rewrite Hc in H. cbn [bind] in H.
    destruct (np_percentage_bounds (counts_sum (head 3 (value_counts c))) (len df) Hpos)
      as (q & Eq & Hq).
    { pose proof (counts_sum_head 3 (value_counts c)).
      pose proof (value_counts_le df "Category" c Hwf Hc). unfold len. lia. }
    rewrite Eq in H. exists q. split; [|exact Hq]. run_status; reflexivity.
  - intros c Hc. pose proof (getitem_has_column df "Status" c Hc) as Hcol.
    unfold series_value_counts in H. rewrite Hcol, Hc in H. cbn [bind] in H.
    split; intros Hin.
    + assert (Hmem : counts_mem (value_counts c) (LStr "Shipped") = true)
        by now apply counts_mem_value_counts.
      rewrite Hmem in H.
      pose proof (count_of_positive _ _ Hin) as Hn.
      rewrite <- counts_get_value_counts in Hn.
      assert (Hle : Z.of_nat (counts_get (value_counts c) (LStr "Shipped")) <= len df).
      { pose proof (counts_get_le (value_counts c) (LStr "Shipped")).
        pose proof (value_counts_le df "Status" c Hwf Hc). unfold len. lia. }
      unfold np_percentage in H.
      destruct (len df =? 0) eqn:E0; [apply Z.eqb_eq in E0; lia|].
      eexists. split; [run; reflexivity|].
      pose proof (percentage_bounds _ _ Hpos Hle) as [_ Hup]. split; [|exact Hup].
      assert (H0 : (0 < inject_Z (len df))%Q) by (rewrite <- (Zlt_Qlt 0); exact Hpos).
      assert (H1 : (0 < inject_Z (Z.of_nat (counts_get (value_counts c) (LStr "Shipped"))))%Q)
        by (rewrite <- (Zlt_Qlt 0); lia).
      apply Qmult_lt_0_compat; [|reflexivity].
      apply Qlt_shift_div_l; [exact H0|]. rewrite Qmult_0_l. exact H1.
    + assert (Hmem : counts_mem (value_counts c) (LStr "Shipped") = false).
      { destruct (counts_mem (value_counts c) (LStr "Shipped")) eqn:E; [|reflexivity].
        apply counts_mem_value_counts in E. contradiction. }
      rewrite Hmem in H. run; reflexivity.
Qed.

Lemma advanced_percentages_bounds_witness :
  (has_column orders_df "Qty" = true ->
     exists q, dict_get (returned (get_advanced_analytics orders_df)) "bulk_orders_percentage"
               = Some (VNum (Fin q))
               /\ (0 <= q <= 100)%Q)
  /\ (has_column orders_df "Category" = true ->
        exists q, dict_get (returned (get_advanced_analytics orders_df))
                    "top_3_categories_concentration" = Some (VNum (Fin q))
                  /\ (0 <= q <= 100)%Q)
  /\ (forall c, getitem orders_df "Status" = OK c ->
        (In (LStr "Shipped") (labels c) ->
           exists q, dict_get (returned (get_advanced_analytics orders_df)) "fulfillment_rate"
                     = Some (VNum (Fin q))
                     /\ (0 < q <= 100)%Q)
        /\ (~ In (LStr "Shipped") (labels c) ->
            dict_get (returned (get_advanced_analytics orders_df)) "fulfillment_rate" = None)).
Proof.
  apply (advanced_percentages_bounds orders_df); reflexivity.
Defined.

(** X16.  [get_advanced_analytics] and [get_key_metrics] agree where they
    report the same quantity: on a dataset on which both return, the status
    distributions are equal, [product_diversity] is [unique_categories], and
    on a dataset with rows a [fulfillment_rate] that is reported is the
    [shipped_percentage]. *)
Theorem advanced_analytics_agrees_with_key_metrics (df : DataFrame) (m1 m2 : dict) :
  get_key_metrics df = OK m1 ->
  get_advanced_analytics df = OK m2 ->
  (has_column df "Status" = true ->
     (exists v, dict_get m2 "status_distribution" = Some v
                /\ dict_get m1 "status_distribution" = Some v)
     /\ (0 < len df -> forall v, dict_get m2 "fulfillment_rate" = Some v ->
                                 dict_get m1 "shipped_percentage" = Some v))
  /\ (has_column df "Category" = true ->
        exists v, dict_get m2 "product_diversity" = Some v
                  /\ dict_get m1 "unique_categories" = Some v).
Proof.
  intros H1 H2. unfold get_key_metrics in H1. unfold get_advanced_analytics in H2. split.
  - intros Hcol. destruct (has_column_getitem df "Status" Hcol) as [c Hc].
    assert (S1 : dict_get m1 "status_distribution" = Some (to_dict (value_counts c))
                 /\ (0 < len df ->
                     dict_get m1 "shipped_percentage"
                     = Some (VNum (np_percentage
                                     (counts_get (value_counts c) (LStr "Shipped")) (len df))))).
    { clear H2. unfold series_value_counts in H1. rewrite Hcol, Hc in H1. cbn [bind] in H1.
      split; [run; reflexivity|]. intros Hpos. apply Z.ltb_lt in Hpos. rewrite Hpos in H1.
      run; reflexivity. }
    assert (S2 : dict_get m2 "status_distribution" = Some (to_dict (value_counts c))
                 /\ forall v, dict_get m2 "fulfillment_rate" = Some v ->
                              v = VNum (np_percentage
                                          (counts_get (value_counts c) (LStr "Shipped"))
                                          (len df))).
    { clear H1. unfold series_value_counts in H2. rewrite Hcol, Hc in H2. cbn [bind] in H2.
      split; [run_status; reflexivity|]. intros v.
      run_status; cbn; congruence. }
    destruct S1 as [S1 S1'], S2 as [S2 S2']. split; [eauto|].
    intros Hpos v Hv. rewrite (S2' v Hv). exact (S1' Hpos).
  - intros Hcol. rewrite Hcol in H1, H2.
    destruct (series_nunique df "Category") as [v|] eqn:Ev.
    + exists v. split; [clear H1; run_status; reflexivity|clear H2; run; reflexivity].
    + clear H2. run.
Qed.

(** X17.  With [Amount] and [Qty] columns that are numeric or absent,
    [get_advanced_analytics] returns a mapping exactly when a [Qty] column
    comes with at least one row and a [Sales Channel] column comes with both
    an [Amount] and a [Qty] column. *)
Theorem get_advanced_analytics_returns_iff (df : DataFrame) :
  numeric_or_absent df "Amount" = true ->
  numeric_or_absent df "Qty" = true ->
  (exists m, get_advanced_analytics df = OK m)
  <-> ((has_column df "Qty" = true -> 0 < len df)
       /\ (has_column df "Sales Channel" = true ->
           has_column df "Amount" = true /\ has_column df "Qty" = true)).
Proof.
  intros Ha Hq. split.
  - intros [m H]. unfold get_advanced_analytics in H. split.
    + intros Hcol. rewrite Hcol in H.
      assert (Hp : exists a p, py_percentage a (len df) = OK p) by (run_status; eauto).
      destruct Hp as (a & p & Hp). unfold py_percentage in Hp.
      destruct (len df =? 0) eqn:E; [discriminate|]. apply Z.eqb_neq in E.
      unfold len in *. lia.
    + intros Hcol. rewrite Hcol in H.
      assert (Hg : exists spec f,
                 groupby df "Sales Channel" ByColumnAndFunction spec = OK f
                 /\ spec = [("Amount", if has_column df "Amount"
                                       then [AggSum; AggMean; AggCount] else [AggCount]);
                            ("Qty", if has_column df "Qty"
                                    then [AggSum; AggMean] else [AggCount])]).
      { destruct (groupby df "Sales Channel" ByColumnAndFunction
                    [("Amount", if has_column df "Amount"
                                then [AggSum; AggMean; AggCount] else [AggCount]);
                     ("Qty", if has_column df "Qty"
                             then [AggSum; AggMean] else [AggCount])]) as [f|e] eqn:E.
        - eauto.
        - exfalso. clear - H. run_status. }
      destruct Hg as (spec & f & Hg & ->). unfold groupby, groupby_agg in Hg.
      destruct (getitem df "Sales Channel"); [|discriminate]. cbn [bind filter fst negb] in Hg.
      destruct (has_column df "Amount"); [|discriminate].
      destruct (has_column df "Qty"); [|discriminate]. auto.
  - intros [Hrows Hchan]. unfold get_advanced_analytics.
    assert (Hqty : has_column df "Qty" = true ->
                   exists xs, getitem df "Qty" = OK (Float64 xs)).
    { intros Hcol. destruct (has_column_getitem df "Qty" Hcol) as [c Hc].
      unfold numeric_or_absent in Hq. unfold getitem in Hc |- *.
      destruct (find_column (columns df) "Qty") as [[xs|xs|xs]|]; try discriminate. eauto. }
    assert (Hperf : has_column df "Sales Channel" = true ->
                    has_column df "Amount" = true /\ has_column df "Qty" = true
                    /\ exists rows,
                      groupby df "Sales Channel" ByColumnAndFunction
                        [("Amount", [AggSum; AggMean; AggCount]); ("Qty", [AggSum; AggMean])]
                      = OK (mkFrame ("Sales Channel"
                                     :: agg_columns ByColumnAndFunction
                                          [("Amount", [AggSum; AggMean; AggCount]);
                                           ("Qty", [AggSum; AggMean])]) rows)).
    { intros Hcol. destruct (Hchan Hcol) as [EA EQ]. split; [exact EA|]. split; [exact EQ|].
      apply groupby_returns; [exact Hcol|].
      pose proof (spec_applies_numeric df "Amount" [AggSum; AggMean; AggCount] EA Ha) as SA.
      pose proof (spec_applies_numeric df "Qty" [AggSum; AggMean] EQ Hq) as SQ.
      unfold spec_applies in *. cbn [forallb fst snd] in *.
      rewrite andb_true_r in SA. rewrite SA. exact SQ. }
    assert (Hdiv : has_column df "Qty" = true -> (len df =? 0) = false).
    { intros Hcol. specialize (Hrows Hcol). apply Z.eqb_neq. lia. }
    clear Hrows Hchan Ha Hq.
    unfold series_mean, series_value_counts, series_compare, series_nunique, first_or_na,
      py_percentage, assign.
    destruct (has_column df "Sales Channel") eqn:EC;
      [destruct (Hperf eq_refl) as (EA & EQ & rows & Erows);
       rewrite EA, EQ, Erows; rewrite EQ in Hqty, Hdiv
      |destruct (has_column df "Qty") eqn:EQ];
      try (destruct (Hqty eq_refl) as [xs ->]; rewrite (Hdiv eq_refl));
      clear Hqty Hperf Hdiv;
      cbn [bind numeric];
      repeat match goal with
             | |- context [if has_column df ?n then _ else _] =>
                 let E := fresh "Hcol" in
                 destruct (has_column df n) eqn:E;
                 [destruct (has_column_getitem df n E) as [? ->]|]; cbn [bind]
             | |- context [if counts_mem ?s ?k then _ else _] =>
                 destruct (counts_mem s k); cbn [bind]
             | |- context [index0 ?s] => destruct s as [|[? ?] ?]; cbn [index0 length Nat.ltb Nat.leb bind]
             end; cbn; eauto.
Qed.

Lemma advanced_analytics_agrees_with_key_metrics_witness :
  (has_column orders_df "Status" = true ->
     (exists v, dict_get (returned (get_advanced_analytics orders_df)) "status_distribution"
                = Some v
                /\ dict_get (returned (get_key_metrics orders_df)) "status_distribution"
                   = Some v)
     /\ (0 < len orders_df ->
         forall v, dict_get (returned (get_advanced_analytics orders_df)) "fulfillment_rate"
                   = Some v ->
                   dict_get (returned (get_key_metrics orders_df)) "shipped_percentage"
                   = Some v))
  /\ (has_column orders_df "Category" = true ->
        exists v, dict_get (returned (get_advanced_analytics orders_df)) "product_diversity"
                  = Some v
                  /\ dict_get (returned (get_key_metrics orders_df)) "unique_categories"
                     = Some v).
Proof.
  apply (advanced_analytics_agrees_with_key_metrics orders_df); reflexivity.
Defined.

Lemma get_advanced_analytics_returns_iff_witness :
  (exists m, get_advanced_analytics orders_df = OK m)
  <-> ((has_column orders_df "Qty" = true -> 0 < len orders_df)
       /\ (has_column orders_df "Sales Channel" = true ->
           has_column orders_df "Amount" = true /\ has_column orders_df "Qty" = true)).
Proof.
  apply (get_advanced_analytics_returns_iff orders_df); reflexivity.
Defined.

(** ** Grouping: the groups partition the rows that have a key *)

Lemma keys_distinct_fst (s : counts) : keys_distinct s -> labels_distinct (map fst s).
Proof.
  unfold labels_distinct. induction s as [|x s IH]; simpl; [constructor|].
  intros [Hx Hs]. constructor; [|now apply IH].
  apply Forall_forall. intros k Hk. apply in_map_iff in Hk as (y & <- & Hy). now apply Hx.
Qed.

Lemma In_label_insert y x l : In y (label_insert x l) <-> y = x \/ In y l.
Proof.
  induction l as [|z l IH]; simpl; [intuition|].
  destruct (label_leb x z); simpl; [intuition|]. rewrite IH. intuition.
Qed.

Lemma In_label_sort y l : In y (fold_right label_insert [] l) <-> In y l.
Proof.
  induction l as [|x l IH]; simpl; [reflexivity|].
  rewrite In_label_insert, IH. intuition.
Qed.

Lemma labels_distinct_insert x l :
  Forall (fun y => label_eqb x y = false) l ->
  labels_distinct l -> labels_distinct (label_insert x l).
Proof.
  unfold labels_distinct. induction l as [|z l IH]; simpl; intros Hx Hl.
  - constructor; constructor.
  - inversion Hx as [|? ? Hxz Hxl]; subst. inversion Hl as [|? ? Hz Hl']; subst.
    destruct (label_leb x z).
    + constructor; [constructor; assumption|constructor; assumption].
    + constructor; [|now apply IH].
      apply Forall_forall. intros y Hy. apply -> In_label_insert in Hy. destruct Hy as [->|Hy].
      * now rewrite label_eqb_sym.
      * rewrite Forall_forall in Hz. now apply Hz.
Qed.

Lemma labels_distinct_sort l :
  labels_distinct l -> labels_distinct (fold_right label_insert [] l).
Proof.
  unfold labels_distinct. induction 1 as [|x l Hx Hl IH]; simpl; [constructor|].
  apply labels_distinct_insert; [|exact IH].
  apply Forall_forall. intros y Hy. apply -> In_label_sort in Hy.
  rewrite Forall_forall in Hx. exact (Hx y Hy).
Qed.

Lemma keys_distinct_tally ks : keys_distinct (tally ks).
Proof. unfold tally. apply keys_distinct_fold. exact I. Qed.

Lemma group_keys_distinct keys : labels_distinct (group_keys keys).
Proof.
  unfold group_keys. apply labels_distinct_sort, keys_distinct_fst, keys_distinct_tally.
Qed.

Lemma group_keys_cover keys k' :
  In k' (dropna keys) -> exists k, In k (group_keys keys) /\ label_eqb k k' = true.
Proof.
  intros Hin. pose proof (count_of_positive k' _ Hin) as Hpos.
  rewrite <- counts_get_tally in Hpos.
  destruct (counts_get_positive _ _ Hpos) as (k & Hk & Heq).
  exists k. split.
  - unfold group_keys. apply <- In_label_sort. apply in_map_iff.
    eexists. split; [|exact Hk]. reflexivity.
  - now rewrite label_eqb_sym.
Qed.

Lemma group_keys_sound keys k : In k (group_keys keys) -> In k (dropna keys).
Proof.
  unfold group_keys. intros H. apply -> In_label_sort in H.
  apply in_map_iff in H as ([k0 n] & <- & Hin). unfold tally in Hin.
  apply In_tally_fold in Hin as [Hin|[n' []]]. exact Hin.
Qed.








(** ** Sorting a table *)

Lemma row_insert_desc_perm i x l : Permutation (row_insert_desc i x l) (x :: l).
Proof.
  induction l as [|y l IH]; simpl; [reflexivity|].
  destruct (num_geb (nth i (snd x) NaN) (nth i (snd y) NaN)); [reflexivity|].
  rewrite IH. apply perm_swap.
Qed.

Lemma sort_rows_perm i rows : Permutation (fold_right (row_insert_desc i) [] rows) rows.
Proof.
  induction rows as [|x rows IH]; simpl; [reflexivity|].
  rewrite row_insert_desc_perm. now constructor.
Qed.


Lemma num_geb_finite i x y :
  finite_at i x -> finite_at i y ->
  num_geb (nth i (snd x) NaN) (nth i (snd y) NaN) = Qle_bool (cell i y) (cell i x).
Proof. unfold cell. intros [p ->] [q ->]. reflexivity. Qed.

Lemma row_insert_desc_sorted i x l :
  finite_at i x -> Forall (finite_at i) l ->
  descending_by i l -> descending_by i (row_insert_desc i x l).
Proof.
  unfold descending_by. intros Hx. induction l as [|y l IH]; simpl; intros Hf Hs.
  - constructor; constructor.
  - inversion Hf as [|? ? Hy Hl]; subst. inversion Hs as [|? ? Hs' Hall]; subst.
    rewrite (num_geb_finite i x y Hx Hy).
    destruct (Qle_bool (cell i y) (cell i x)) eqn:E.
    + apply Qle_bool_iff in E. constructor; [exact Hs|].
      constructor; [exact E|].
      eapply Forall_impl; [|exact Hall]. intros r Hr. simpl in Hr. lra.
    + apply Qle_bool_false in E. constructor; [now apply IH|].
      apply Forall_forall. intros r Hr.
      apply (Permutation_in _ (row_insert_desc_perm i x l)) in Hr.
      destruct Hr as [<-|Hr]; [lra|].
      rewrite Forall_forall in Hall. now apply Hall.
Qed.

Lemma sort_rows_sorted i rows :
  Forall (finite_at i) rows -> descending_by i (fold_right (row_insert_desc i) [] rows).
Proof.
  induction rows as [|x rows IH]; simpl; intros Hf; [constructor|].
  inversion Hf as [|? ? Hx Hrows]; subst.
  apply row_insert_desc_sorted; [exact Hx| |now apply IH].
  apply Forall_forall. intros r Hr.
  apply (Permutation_in _ (sort_rows_perm i rows)) in Hr.
  rewrite Forall_forall in Hrows. now apply Hrows.
Qed.

(** ** get_category_analysis: revenue by category *)

Lemma category_revenue_groupby df cats amounts :
  getitem df "Category" = OK cats ->
  getitem df "Amount" = OK (Float64 amounts) ->
  groupby df "Category" ByFunction [("Amount", [AggSum; AggMean; AggCount])]
  = OK (mkFrame ["Category"; "sum"; "mean"; "count"]
          (map (revenue_row (cells cats) amounts) (group_keys (cells cats)))).
Proof.
  intros Hc Ha. unfold groupby, groupby_agg. rewrite Hc. cbn [bind filter fst].
  rewrite (getitem_has_column df "Amount" _ Ha). cbn [negb].
  rewrite (mapM_ext _ (revenue_row (cells cats) amounts)); [reflexivity|].
  intros k. unfold aggregate_group. cbn [mapM fst snd]. rewrite Ha.
  cbn [bind column_select mapM aggregate numeric]. unfold revenue_row, group_values, Qlen, col_count.
  cbn [labels concat app]. rewrite length_map. reflexivity.
Qed.

Lemma category_revenue_shape df cats amounts m :
  getitem df "Category" = OK cats ->
  getitem df "Amount" = OK (Float64 amounts) ->
  get_category_analysis df = OK m ->
  dict_get m "category_revenue"
  = Some (VFrame (sort_values_desc 0
                    (mkFrame ["Category"; "Total_Revenue"; "Avg_Revenue"; "Order_Count"]
                       (map (revenue_row (cells cats) amounts) (group_keys (cells cats)))))).
Proof.
  intros Hc Ha H. unfold get_category_analysis in H.
  rewrite (getitem_has_column df "Category" _ Hc) in H.
  rewrite (getitem_has_column df "Amount" _ Ha) in H.
  rewrite (category_revenue_groupby df cats amounts Hc Ha) in H.
  cbn [bind set_columns length frame_columns frame_rows Nat.eqb andb] in H.
  run; reflexivity.
Qed.

Lemma revenue_rows_finite keys amounts l :
  Forall (finite_at 0) (map (revenue_row keys amounts) l).
Proof.
  apply Forall_forall. intros r Hr. apply in_map_iff in Hr as (k & <- & _).
  eexists. reflexivity.
Qed.

(** X19.  [category_revenue] holds one row per category that occurs, with the
    sum, the mean and the number of the amounts of that category's orders,
    and the rows are in descending order of [Total_Revenue]. *)
Theorem category_revenue_ranking (df : DataFrame) (cats : column)
    (amounts : list (option Q)) (m : dict) :
  getitem df "Category" = OK cats ->
  getitem df "Amount" = OK (Float64 amounts) ->
  get_category_analysis df = OK m ->
  exists rows,
    dict_get m "category_revenue"
    = Some (VFrame (mkFrame ["Category"; "Total_Revenue"; "Avg_Revenue"; "Order_Count"] rows))
    /\ Permutation rows (map (revenue_row (cells cats) amounts) (group_keys (cells cats)))
    /\ labels_distinct (group_keys (cells cats))
    /\ (forall k, In k (group_keys (cells cats)) -> In k (dropna (cells cats)))
    /\ (forall k', In k' (dropna (cells cats)) ->
                   exists k, In k (group_keys (cells cats)) /\ label_eqb k k' = true)
    /\ descending_by 0 rows.
Proof.
  intros Hc Ha H. rewrite (category_revenue_shape df cats amounts m Hc Ha H).
  unfold sort_values_desc. cbn [frame_columns frame_rows].
  eexists. split; [reflexivity|]. split; [apply sort_rows_perm|].
  split; [apply group_keys_distinct|]. split; [apply group_keys_sound|].
  split; [apply group_keys_cover|].
  apply sort_rows_sorted, revenue_rows_finite.
Qed.

Lemma category_revenue_ranking_witness :
  exists rows,
    dict_get (returned (get_category_analysis scenario_df)) "category_revenue"
    = Some (VFrame (mkFrame ["Category"; "Total_Revenue"; "Avg_Revenue"; "Order_Count"] rows))
    /\ Permutation rows
         (map (revenue_row (cells (Object [Some "A"; Some "A"; Some "A"]))
                 [Some 10%Q; Some 20%Q; Some 30%Q])
              (group_keys (cells (Object [Some "A"; Some "A"; Some "A"]))))
    /\ labels_distinct (group_keys (cells (Object [Some "A"; Some "A"; Some "A"])))
    /\ (forall k, In k (group_keys (cells (Object [Some "A"; Some "A"; Some "A"]))) ->
                  In k (dropna (cells (Object [Some "A"; Some "A"; Some "A"]))))
    /\ (forall k', In k' (dropna (cells (Object [Some "A"; Some "A"; Some "A"]))) ->
                   exists k, In k (group_keys (cells (Object [Some "A"; Some "A"; Some "A"])))
                             /\ label_eqb k k' = true)
    /\ descending_by 0 rows.
Proof.
  apply (category_revenue_ranking scenario_df (Object [Some "A"; Some "A"; Some "A"])
           [Some 10%Q; Some 20%Q; Some 30%Q]); reflexivity.
Defined.

(** ** get_category_analysis: the revenue of the categories adds up *)










(** ** generate_summary_report *)

Lemma revenue_analysis_returns df :
  numeric_or_absent df "Amount" = true -> exists a, get_revenue_analysis df = OK a.
Proof.
  intros Hnum. unfold get_revenue_analysis.
  destruct (has_column df "Amount") eqn:EA; [|eauto].
  destruct (has_column_getitem df "Amount" EA) as [c Hc].
  assert (Hxs : exists xs, getitem df "Amount" = OK (Float64 xs)).
  { unfold numeric_or_absent in Hnum. unfold getitem in Hc |- *.
    destruct (find_column (columns df) "Amount") as [[xs|xs|xs]|]; try discriminate. eauto. }
  destruct Hxs as [xs Hxs].
  unfold series_sum, series_mean, series_median, series_std, series_max, series_min,
    series_quantile, series_compare, assign.
  rewrite Hxs. cbn [bind numeric].
  destruct (has_column df "currency") eqn:EC; [|cbn [bind]; eauto].
  destruct (groupby_returns df "currency" ByFunction
              [("Amount", [AggSum; AggMean; AggCount])] EC) as [rows ->].
  { now apply spec_applies_numeric. }
  cbn. eauto.
Qed.

(** [run], also through the updates of a nested dict or list. *)
Ltac run_nested :=
  run;
  repeat (progress (unfold nested_set, list_append in *;
                    cbn [dict_get dict_set String.eqb Ascii.eqb Bool.eqb] in * );
          run).

Section Report_theorems.

Variable memory_usage : DataFrame -> Q.

(** X22.  [generate_summary_report] composes the other reports: it returns
    exactly when [get_key_metrics] does, [business_metrics] is the mapping
    [get_key_metrics] returns, [revenue_insights] is the mapping
    [get_revenue_analysis] returns when the [Amount] column is present (and
    is no key otherwise), and [total_records] is the row count. *)
Theorem summary_report_composition (df : DataFrame) :
  ((exists r, generate_summary_report memory_usage df = OK r)
   <-> exists m, get_key_metrics df = OK m)
  /\ forall r, generate_summary_report memory_usage df = OK r ->
       (exists info, dict_get r "dataset_info" = Some (VDict info)
                     /\ dict_get info "total_records" = Some (VInt (len df)))
       /\ (exists m, get_key_metrics df = OK m
                     /\ dict_get r "business_metrics" = Some (VDict m))
       /\ (if has_column df "Amount"
           then exists a, get_revenue_analysis df = OK a
                          /\ dict_get r "revenue_insights" = Some (VDict a)
           else dict_get r "revenue_insights" = None).
Proof.
  split.
  - split.
    + intros [r H]. unfold generate_summary_report in H. run; eauto.
    + intros [m Hm]. unfold generate_summary_report, assign, series_value_counts, nested_set.
      rewrite Hm. cbn [bind].
      assert (Hnum : numeric_or_absent df "Amount" = true).
      { assert (Hk : key_metrics_returns df = true).
        { unfold get_key_metrics in Hm. unfold key_metrics_returns. clear - Hm. run.
          all: repeat (apply andb_true_intro; split);
            first [ eapply series_sum_numeric; eassumption
                  | eapply top_value_has_value; eassumption
                  | apply absent_column_is_harmless; assumption ]. }
        unfold key_metrics_returns in Hk. repeat (apply andb_prop in Hk as [Hk ?]). exact Hk. }
      destruct (revenue_analysis_returns df Hnum) as [a Ha]. rewrite Ha. clear Hm Ha Hnum.
      repeat match goal with
             | |- context [if has_column df ?n then _ else _] =>
                 let E := fresh "Hcol" in
                 destruct (has_column df n) eqn:E;
                 [try (destruct (has_column_getitem df n E) as [? ->])|]; cbn
             end; eauto.
  - intros r H. unfold generate_summary_report in H.
    split; [|split].
    + run_nested; eexists; split; reflexivity.
    + assert (Hm : exists m, get_key_metrics df = OK m) by (clear - H; run; eauto).
      destruct Hm as [m Hm]. exists m. split; [exact Hm|].
      rewrite Hm in H. cbn [bind assign] in H. run_nested; reflexivity.
    + destruct (has_column df "Amount") eqn:EA.
      * assert (Ha : exists a, get_revenue_analysis df = OK a) by (clear - H; run; eauto).
        destruct Ha as [a Ha]. exists a. split; [exact Ha|].
        rewrite Ha in H. cbn [bind assign] in H. run_nested; reflexivity.
      * run_nested; reflexivity.
Qed.

End Report_theorems.

(** ** create_executive_summary *)

Lemma sorted_head_max i rows r rest :
  Forall (finite_at i) rows ->
  fold_right (row_insert_desc i) [] rows = r :: rest ->
  In r rows /\ forall r', In r' rows -> (cell i r' <= cell i r)%Q.
Proof.
  intros Hf E. pose proof (sort_rows_sorted i rows Hf) as Hs.
  pose proof (sort_rows_perm i rows) as Hp. rewrite E in Hs, Hp.
  split; [apply (Permutation_in _ Hp); now left|].
  intros r' Hr'. apply (Permutation_in _ (Permutation_sym Hp)) in Hr'.
  unfold descending_by in Hs. inversion Hs as [|? ? _ Hall]; subst.
  destruct Hr' as [<-|Hr']; [lra|].
  rewrite Forall_forall in Hall. now apply Hall.
Qed.

Lemma group_mask_congr keys k k' :
  label_eqb k k' = true -> group_mask keys k = group_mask keys k'.
Proof.
  intros H. unfold group_mask. apply map_ext. intros [c|]; [|reflexivity].
  now apply label_eqb_congr.
Qed.

Lemma sum_by_category df cats amounts :
  getitem df "Category" = OK cats ->
  getitem df "Amount" = OK (Float64 amounts) ->
  groupby df "Category" ByColumn [("Amount", [AggSum])]
  = OK (mkFrame ["Category"; "Amount"]
          (map (fun k => (k, [Fin (group_revenue (cells cats) amounts k)]))
               (group_keys (cells cats)))).
Proof.
  intros Hc Ha. unfold groupby, groupby_agg. rewrite Hc. cbn [bind filter fst].
  rewrite (getitem_has_column df "Amount" _ Ha). cbn [negb].
  rewrite (mapM_ext _ (fun k => (k, [Fin (group_revenue (cells cats) amounts k)])));
    [reflexivity|].
  intros k. unfold aggregate_group. cbn [mapM fst snd]. rewrite Ha. reflexivity.
Qed.

(** [run], also through the tests of [create_executive_summary]. *)
Ltac run_summary :=
  run_nested;
  repeat (match goal with
          | H : (if counts_mem ?s ?k then _ else _) = OK _ |- _ =>
              let E := fresh "Hmem" in destruct (counts_mem s k) eqn:E
          | H : (if (0 <? ?n)%nat then _ else _) = OK _ |- _ =>
              let E := fresh "Hlen" in destruct (0 <? n)%nat eqn:E
          end; run_nested).

Section Summary_theorems.

Variable format : value -> string -> string.

(** X23.  The category named by the first growth opportunity of
    [create_executive_summary] is a category of the dataset whose revenue no
    other category exceeds. *)
Theorem executive_summary_top_category (df : DataFrame) (cats : column)
    (amounts : list (option Q)) (s : dict) :
  getitem df "Category" = OK cats ->
  getitem df "Amount" = OK (Float64 amounts) ->
  create_executive_summary format df = OK s ->
  exists k rest,
    dict_get s "growth_opportunities"
    = Some (VList (("Focus on expanding " ++ format (label_value k) no_spec ++ " category")
                   :: rest))
    /\ In k (dropna (cells cats))
    /\ forall k', In k' (dropna (cells cats)) ->
                  (group_revenue (cells cats) amounts k'
                   <= group_revenue (cells cats) amounts k)%Q.
Proof.
  intros Hc Ha H. unfold create_executive_summary in H.
  rewrite (getitem_has_column df "Category" _ Hc) in H.
  rewrite (getitem_has_column df "Amount" _ Ha) in H.
  rewrite (sum_by_category df cats amounts Hc Ha) in H.
  cbn [andb bind] in H. unfold sort_values_desc, frame_index0 in H.
  cbn [frame_rows frame_columns] in H.
  destruct (fold_right (row_insert_desc 0) []
              (map (fun k => (k, [Fin (group_revenue (cells cats) amounts k)]))
                   (group_keys (cells cats)))) as [|r rest] eqn:E.
  - exfalso. clear - H. run_summary.
  - pose proof (fun Hf => sorted_head_max 0 _ r rest Hf E) as Hhead.
    destruct Hhead as [Hin Hmax].
    { apply Forall_forall. intros x Hx. apply in_map_iff in Hx as (k & <- & _).
      eexists. reflexivity. }
    apply in_map_iff in Hin as (k & <- & Hk). cbn [fst] in H.
    exists k.
    assert (Hget : exists rest',
               dict_get s "growth_opportunities"
               = Some (VList (("Focus on expanding " ++ format (label_value k) no_spec
                                 ++ " category") :: rest'))).
    { clear - H. run_summary; eexists; reflexivity. }
    destruct Hget as [rest' Hget]. exists rest'. split; [exact Hget|].
    split; [now apply group_keys_sound|].
    intros k' Hk'. destruct (group_keys_cover _ _ Hk') as (k'' & Hk'' & Heq).
    specialize (Hmax (k'', [Fin (group_revenue (cells cats) amounts k'')])).
    unfold cell in Hmax. cbn [snd nth] in Hmax.
    assert (Hsame : group_revenue (cells cats) amounts k'
                    = group_revenue (cells cats) amounts k'').
    { unfold group_revenue, group_values.
      rewrite (group_mask_congr (cells cats) k'' k' Heq). reflexivity. }
    rewrite Hsame. apply Hmax. apply in_map_iff. exists k''. split; [reflexivity|exact Hk''].
Qed.

End Summary_theorems.

Lemma executive_summary_top_category_witness :
  exists k rest,
    dict_get (returned (create_executive_summary plain_format scenario_df))
      "growth_opportunities"
    = Some (VList (("Focus on expanding " ++ plain_format (label_value k) no_spec
                      ++ " category") :: rest))
    /\ In k (dropna (cells (Object [Some "A"; Some "A"; Some "A"])))
    /\ forall k', In k' (dropna (cells (Object [Some "A"; Some "A"; Some "A"]))) ->
                  (group_revenue (cells (Object [Some "A"; Some "A"; Some "A"]))
                     [Some 10; Some 20; Some 30] k'
                   <= group_revenue (cells (Object [Some "A"; Some "A"; Some "A"]))
                        [Some 10; Some 20; Some 30] k)%Q.
Proof.
  apply (executive_summary_top_category plain_format scenario_df
           (Object [Some "A"; Some "A"; Some "A"]) [Some 10%Q; Some 20%Q; Some 30%Q]);
    reflexivity.
Defined.

(** ** get_sales_trends: the growth rate *)


Section Trends_growth.

Variable pd_to_datetime : column -> result (list (option Timestamp)).

Variables (df : DataFrame) (date_col : string) (rest : list string)
          (c : column) (parsed : list (option Timestamp))
          (amounts quantities : list (option Q)).
Hypothesis detected : date_columns df = date_col :: rest.
Hypothesis column_found : getitem df date_col = OK c.
Hypothesis dates_parse : pd_to_datetime c = OK parsed.
Hypothesis amount_column : getitem df "Amount" = OK (Float64 amounts).
Hypothesis quantity_column : getitem df "Qty" = OK (Float64 quantities).


End Trends_growth.


(** ** The filters of the dashboard *)












Lemma has_column_boolean_index df mask name :
  has_column (boolean_index df mask) name = has_column df name.
Proof.
  unfold boolean_index. rewrite has_column_map. destruct df. reflexivity.
Qed.





Lemma mask_and_true_l n m : (length m <= n)%nat -> mask_and (repeat true n) m = m.
Proof.
  unfold mask_and. revert m. induction n as [|n IH]; intros [|b m]; simpl;
    try reflexivity; try lia.
  intros H. rewrite IH; [reflexivity|lia].
Qed.









(** ** What the filters keep *)










(** ** Loading the dataset: the column names *)










(** ** The column information of the data explorer *)



(** ** get_category_analysis: revenue per unit *)

Lemma category_performance_groupby df cats amounts quantities ids :
  getitem df "Category" = OK cats ->
  getitem df "Amount" = OK (Float64 amounts) ->
  getitem df "Qty" = OK (Float64 quantities) ->
  getitem df "Order ID" = OK ids ->
  groupby df "Category" ByColumnAndFunction
    [("Amount", [AggSum; AggMean; AggStd]); ("Qty", [AggSum; AggMean]);
     ("Order ID", [AggCount])]
  = OK (mkFrame ["Category"; "Amount.sum"; "Amount.mean"; "Amount.std";
                 "Qty.sum"; "Qty.mean"; "Order ID.count"]
          (map (performance_row (cells cats) amounts quantities ids)
               (group_keys (cells cats)))).
Proof.
  intros Hc Ha Hq Hi. unfold groupby, groupby_agg. rewrite Hc. cbn [bind filter fst].
  rewrite (getitem_has_column df "Amount" _ Ha), (getitem_has_column df "Qty" _ Hq),
    (getitem_has_column df "Order ID" _ Hi). cbn [negb].
  rewrite (mapM_ext _ (performance_row (cells cats) amounts quantities ids));
    [reflexivity|].
  intros k. unfold aggregate_group. cbn [mapM fst snd]. rewrite Ha, Hq, Hi. reflexivity.
Qed.

(** X30.  With [Category], [Amount], [Qty] and [Order ID] columns,
    [category_performance] has one row per category, and its
    [Revenue_per_Unit] is the revenue of the category divided by its
    quantity; for a category whose quantity is zero the ratio is nan or
    infinite, and the function still returns. *)
Theorem revenue_per_unit (df : DataFrame) (cats ids : column)
    (amounts quantities : list (option Q)) (m : dict) :
  getitem df "Category" = OK cats ->
  getitem df "Amount" = OK (Float64 amounts) ->
  getitem df "Qty" = OK (Float64 quantities) ->
  getitem df "Order ID" = OK ids ->
  get_category_analysis df = OK m ->
  exists rows,
    dict_get m "category_performance"
    = Some (VFrame (mkFrame ["Category"; "Total_Revenue"; "Avg_Revenue"; "Revenue_Std";
                             "Total_Qty"; "Avg_Qty"; "Order_Count"; "Revenue_per_Unit"] rows))
    /\ map fst rows = group_keys (cells cats)
    /\ Forall (fun r =>
                 let revenue := group_revenue (cells cats) amounts (fst r) in
                 let units := group_revenue (cells cats) quantities (fst r) in
                 nth 0 (snd r) NaN = Fin revenue
                 /\ nth 3 (snd r) NaN = Fin units
                 /\ (~ (units == 0)%Q -> nth 6 (snd r) NaN = Fin (revenue / units))
                 /\ ((units == 0)%Q -> not_finite (nth 6 (snd r) NaN))) rows.
Proof.
  intros Hc Ha Hq Hi H. unfold get_category_analysis in H.
  rewrite (getitem_has_column df "Category" _ Hc) in H.
  rewrite (getitem_has_column df "Amount" _ Ha) in H.
  rewrite (getitem_has_column df "Qty" _ Hq) in H.
  rewrite (category_performance_groupby df cats amounts quantities ids Hc Ha Hq Hi) in H.
  cbn [andb bind set_columns length frame_columns frame_rows Nat.eqb] in H.
  exists (frame_rows (add_ratio_column
                        (mkFrame ["Category"; "Total_Revenue"; "Avg_Revenue"; "Revenue_Std";
                                  "Total_Qty"; "Avg_Qty"; "Order_Count"]
                           (map (performance_row (cells cats) amounts quantities ids)
                                (group_keys (cells cats))))
                        "Revenue_per_Unit" 0 3)).
  split; [|split].
  - clear - H. run. reflexivity.
  - unfold add_ratio_column. cbn [frame_rows]. rewrite !map_map. cbn [fst].
    apply map_id.
  - unfold add_ratio_column. cbn [frame_rows]. apply Forall_forall. intros r Hr.
    apply in_map_iff in Hr as (r0 & <- & Hr0).
    apply in_map_iff in Hr0 as (k & <- & _).
    cbv zeta. cbn [fst snd performance_row nth app]. unfold sum_values.
    fold (group_revenue (cells cats) amounts k).
    fold (group_revenue (cells cats) quantities k).
    split; [reflexivity|]. split; [reflexivity|]. cbn [num_div]. split.
    + intros Hnz.
      destruct (Qeq_bool (group_revenue (cells cats) quantities k) 0) eqn:E;
        [apply Qeq_bool_iff in E; contradiction|reflexivity].
    + intros Hz. apply Qeq_bool_iff in Hz. rewrite Hz.
      destruct (Qeq_bool (group_revenue (cells cats) amounts k) 0);
        [|destruct (Qle_bool 0 (group_revenue (cells cats) amounts k))]; exact I.
Qed.

Lemma revenue_per_unit_witness :
  exists rows,
    dict_get (returned (get_category_analysis units_df)) "category_performance"
    = Some (VFrame (mkFrame ["Category"; "Total_Revenue"; "Avg_Revenue"; "Revenue_Std";
                             "Total_Qty"; "Avg_Qty"; "Order_Count"; "Revenue_per_Unit"] rows))
    /\ map fst rows = group_keys (cells (Object [Some "Set"; Some "Kurta"; Some "Set"]))
    /\ Forall (fun r =>
                 let revenue := group_revenue (cells (Object [Some "Set"; Some "Kurta"; Some "Set"]))
                                  [Some 10%Q; Some 20%Q; Some 30%Q] (fst r) in
                 let units := group_revenue (cells (Object [Some "Set"; Some "Kurta"; Some "Set"]))
                                [Some 1%Q; Some 0%Q; Some 3%Q] (fst r) in
                 nth 0 (snd r) NaN = Fin revenue
                 /\ nth 3 (snd r) NaN = Fin units
                 /\ (~ (units == 0)%Q -> nth 6 (snd r) NaN = Fin (revenue / units))
                 /\ ((units == 0)%Q -> not_finite (nth 6 (snd r) NaN))) rows.
Proof.
  apply (revenue_per_unit units_df (Object [Some "Set"; Some "Kurta"; Some "Set"])
           (Object [Some "171-1"; Some "171-2"; Some "171-3"])
           [Some 10%Q; Some 20%Q; Some 30%Q] [Some 1%Q; Some 0%Q; Some 3%Q]);
    reflexivity.
Defined.
